(** * data-simulator: generators, bounded histories and the object registry

    A shallow embedding of [data_generator.py], [data_object_manager.py] and
    the history route of [api_server.py].

    Conventions of the model.
    - Python floats are exact rationals ([Q]); rounding, infinities other
      than the two default clamp bounds, and NaN are outside the model.
    - The environment is an input: every reading of [datetime.now()] and
      [time.time()] and every draw of the [random] module is an argument of
      the function that performs it.  A random draw is a number [r : N] of
      raw entropy from which [random], [uniform], [randint] and [choice]
      compute their answer, so every answer the library may give is the
      image of some [r].
    - A generator object is a record; a method that mutates [self] returns
      the new record.  The order dictionaries stored in [DataPoint.value]
      are shared by reference between the history and the accessors, so they
      live in an explicit [heap] and are named by location.
    - Locks are not modelled: every method body that touches [history] runs
      under the generator's lock, so the calls are taken one after the
      other. *)

From Stdlib Require Import ZArith QArith Lia Lqa.
From stdpp Require Import base strings gmap list pretty sorting.

(** ** Python primitives *)

(** [l[start:]] for an integer [start], with the interpreter's index
    adjustment: a negative [start] counts from the end and is clipped at 0, a
    [start] beyond the end is clipped at [len(l)]. *)
Definition slice_from {A : Type} (start : Z) (l : list A) : list A :=
  let len := Z.of_nat (length l) in
  let start' := if (start <? 0)%Z then Z.max (start + len) 0 else Z.min start len in
  drop (Z.to_nat start') l.

(** [l[-n:]], the idiom used for "the last [n] items". *)
Definition slice_last {A : Type} (n : Z) (l : list A) : list A :=
  slice_from (- n) l.

Definition Qlt_bool (a b : Q) : bool := negb (Qle_bool b a).

(** [min(a, b)] and [max(a, b)] return the first argument unless the second
    is strictly smaller (resp. larger). *)
Definition py_min (a b : Q) : Q := if Qlt_bool b a then b else a.
Definition py_max (a b : Q) : Q := if Qlt_bool a b then b else a.

(** [random.random()]: a multiple of 2^-53 in [0, 1). *)
Definition random (r : N) : Q :=
  Qmake (Z.of_N (r mod 2 ^ 53)) (2 ^ 53).

(** [random.uniform(a, b)] is [a + (b - a) * random()]. *)
Definition uniform (r : N) (a b : Q) : Q := (a + (b - a) * random r)%Q.

Inductive exn : Type :=
| ValueError
| IndexError.

(** [random.randint(a, b)]: an integer of [a..b]; [ValueError] on an empty
    range. *)
Definition randint (r : N) (a b : Z) : exn + Z :=
  if (a <=? b)%Z then inr (a + Z.of_N r mod (b - a + 1))%Z else inl ValueError.

(** [random.choice(seq)]: [IndexError] on an empty sequence. *)
Definition choice {A : Type} (r : N) (seq : list A) : exn + A :=
  match seq !! (N.to_nat r mod length seq) with
  | Some x => inr x
  | None => inl IndexError
  end.

(** A call either returns or raises; a method that raises has already
    performed the mutations that precede the failing statement, so both
    outcomes carry the state. *)
Inductive outcome (S : Type) : Type :=
| Returns (s : S)
| Raises (e : exn) (s : S).
Arguments Returns {S} s.
Arguments Raises {S} e s.

Definition state_of {S : Type} (o : outcome S) : S :=
  match o with Returns s => s | Raises _ s => s end.

Definition returned {S : Type} (o : outcome S) : bool :=
  match o with Returns _ => true | Raises _ _ => false end.

(** What the environment answers during one call: the reading of
    [datetime.now()], the reading of [time.time()], the text of
    [datetime.now().strftime(...)], and the entropy of the call's successive
    random draws. *)
Record env : Type := mkEnv {
  env_now : Z;
  env_time : Q;
  env_strftime : string;
  env_draw : nat -> N
}.

(** ** DataPoint *)

(** [timestamp] is the reading of [datetime.now()] taken by [__init__], in
    microseconds; no caller passes a timestamp of its own. *)
Record DataPoint (V : Type) : Type := mkDataPoint {
  value : V;
  timestamp : Z
}.
Arguments mkDataPoint {V} value timestamp.
Arguments value {V} d.
Arguments timestamp {V} d.

(** The tail shared by the four [update] methods:
<<
    self.history.append(data_point)
    if len(self.history) > self.history_limit:
        self.history = self.history[-self.history_limit:]
>> *)
Definition record_point {V : Type} (history_limit : Z) (history : list (DataPoint V))
    (data_point : DataPoint V) : list (DataPoint V) :=
  let history' := history ++ [data_point] in
  if (Z.of_nat (length history') >? history_limit)%Z
  then slice_last history_limit history'
  else history'.

Definition timestamps {V : Type} (history : list (DataPoint V)) : list Z :=
  timestamp <$> history.

(** ** Configuration records

    One entry of the [objects] table of [config.json]: a dictionary read
    with [config.get(key, default)], so every key may be absent. *)
Inductive scalar : Type :=
| SNone
| SBool (b : bool)
| SInt (z : Z)
| SFloat (q : Q)
| SStr (s : string).

Record config : Type := mkConfig {
  cfg_data_type : option string;
  cfg_history_limit : option Z;
  cfg_base_value : option Q;
  cfg_update_range : option (Q * Q);
  cfg_min_value : option Q;
  cfg_max_value : option Q;
  cfg_values : option (list scalar);
  cfg_dwell_time : option Q;
  cfg_loop : option bool;
  cfg_order_id_base : option Z;
  cfg_id_increment_range : option (Z * Z);
  cfg_locations : option (list string);
  cfg_power_demand_range : option (Z * Z);
  cfg_unit : option string;
  cfg_source_objects : option (list string)
}.

Definition empty_config : config :=
  mkConfig None None None None None None None None None None None None None None None.

(** ** RandomDataGenerator *)

Module RandomDataGenerator.

(** [min_value] and [max_value] default to the two infinities: [None] is
    the absent bound. *)
Record t : Type := mk {
  name : string;
  base_value : Q;
  update_range : Q * Q;
  min_value : option Q;
  max_value : option Q;
  history_limit : Z;
  history : list (DataPoint Q);
  current_value : Q
}.

(** [min(self.max_value, x)] *)
Definition min_with (max_value : option Q) (x : Q) : Q :=
  match max_value with
  | Some m => py_min m x
  | None => x
  end.

(** [max(self.min_value, y)] *)
Definition max_with (min_value : option Q) (y : Q) : Q :=
  match min_value with
  | Some m => py_max m y
  | None => y
  end.

Definition update (e : env) (self : t) : t :=
  let change := uniform (env_draw e 0) (fst (update_range self)) (snd (update_range self)) in
  let current_value' :=
    match history self with
    | [] => base_value self
    | _ => current_value self
    end in
  let new_value := (current_value' + change)%Q in
  let new_value := max_with (min_value self) (min_with (max_value self) new_value) in
  {| name := name self;
     base_value := base_value self;
     update_range := update_range self;
     min_value := min_value self;
     max_value := max_value self;
     history_limit := history_limit self;
     history := record_point (history_limit self) (history self) (mkDataPoint new_value (env_now e));
     current_value := new_value |}.

(** The fields set by [__init__] before it calls [update]. *)
Definition init (cfg : config) (name : string) : t :=
  {| name := name;
     base_value := default 0%Q (cfg_base_value cfg);
     update_range := default ((-1)%Q, 1%Q) (cfg_update_range cfg);
     min_value := cfg_min_value cfg;
     max_value := cfg_max_value cfg;
     history_limit := default 200%Z (cfg_history_limit cfg);
     history := [];
     current_value := 0%Q |}.

(** [RandomDataGenerator(config, name)]: [BaseDataGenerator.__init__] is
    called with [auto_update=True]. *)
Definition new (cfg : config) (name : string) (e : env) : t :=
  update e (init cfg name).

(** The value [update] starts from. *)
Definition previous_value (self : t) : Q :=
  match history self with
  | [] => base_value self
  | _ => current_value self
  end.

(** [clamp(x, minValue, maxValue)] as the specification writes it: [x]
    raised to the lower bound when below it, lowered to the upper bound when
    above it. *)
Definition clamp (x : Q) (lo hi : option Q) : Q :=
  let upper := match hi with
               | Some b => if Qlt_bool b x then b else x
               | None => x
               end in
  match lo with
  | Some a => if Qlt_bool x a then a else upper
  | None => upper
  end.

Definition bounds_ordered (self : t) : Prop :=
  match min_value self, max_value self with
  | Some a, Some b => (a <= b)%Q
  | _, _ => True
  end.

Definition within_bounds (self : t) (x : Q) : Prop :=
  match min_value self with Some a => (a <= x)%Q | None => True end /\
  match max_value self with Some b => (x <= b)%Q | None => True end.

End RandomDataGenerator.

(** ** StepDataGenerator *)

(** [isinstance(v, (int, float))] together with the number [v] stands for;
    [bool] is a subclass of [int]. *)
Definition number_of (v : scalar) : option Q :=
  match v with
  | SBool b => Some (if b then 1%Q else 0%Q)
  | SInt z => Some (inject_Z z)
  | SFloat q => Some q
  | SNone | SStr _ => None
  end.

(** [a == b] on configuration scalars: numbers compare by value across
    [bool], [int] and [float]; a string equals only the same string; [None]
    equals only [None]. *)
Definition py_eq (a b : scalar) : bool :=
  match number_of a, number_of b with
  | Some x, Some y => Qeq_bool x y
  | None, None =>
      match a, b with
      | SNone, SNone => true
      | SStr s1, SStr s2 => bool_decide (s1 = s2)
      | _, _ => false
      end
  | _, _ => false
  end.

(** [a != b] *)
Definition py_ne (a b : scalar) : bool := negb (py_eq a b).

Module StepDataGenerator.

Record t : Type := mk {
  name : string;
  values : list scalar;
  dwell_time : Q;
  loop : bool;
  current_index : nat;
  last_change_time : Q;
  history_limit : Z;
  history : list (DataPoint scalar);
  current_value : scalar
}.

(** The first half of [update]: the index moves when the dwell time has
    elapsed. *)
Definition advance (current_time : Q) (self : t) : t :=
  if Qle_bool (dwell_time self) (current_time - last_change_time self)
  then
    {| name := name self;
       values := values self;
       dwell_time := dwell_time self;
       loop := loop self;
       current_index :=
         if (Z.of_nat (current_index self) <? Z.of_nat (length (values self)) - 1)%Z
         then current_index self + 1
         else if loop self then 0
         else current_index self;
       last_change_time := current_time;
       history_limit := history_limit self;
       history := history self;
       current_value := current_value self |}
  else self.

(** [not self.history or self.history[-1].value != current_value] *)
Definition must_record (history : list (DataPoint scalar)) (current_value : scalar) : bool :=
  match last history with
  | None => true
  | Some p => py_ne (value p) current_value
  end.

Definition update (e : env) (self : t) : outcome t :=
  match values self with
  | [] => Returns self
  | _ :: _ =>
      let self := advance (env_time e) self in
      match values self !! current_index self with
      | None => Raises IndexError self
      | Some current_value' =>
          if must_record (history self) current_value'
          then Returns
            {| name := name self;
               values := values self;
               dwell_time := dwell_time self;
               loop := loop self;
               current_index := current_index self;
               last_change_time := last_change_time self;
               history_limit := history_limit self;
               history := record_point (history_limit self) (history self)
                            (mkDataPoint current_value' (env_now e));
               current_value := current_value' |}
          else Returns self
      end
  end.

(** The fields set by [__init__] before it calls [update]; [time0] is its
    reading of [time.time()]. *)
Definition init (cfg : config) (name : string) (time0 : Q) : t :=
  {| name := name;
     values := default [SFloat 0] (cfg_values cfg);
     dwell_time := default 1%Q (cfg_dwell_time cfg);
     loop := default true (cfg_loop cfg);
     current_index := 0;
     last_change_time := time0;
     history_limit := default 200%Z (cfg_history_limit cfg);
     history := [];
     current_value := SFloat 0 |}.

Definition new (cfg : config) (name : string) (time0 : Q) (e : env) : outcome t :=
  update e (init cfg name time0).

(** A run of [update] calls; a caller that catches an exception goes on with
    the object as the failed call left it. *)
Definition updates (es : list env) (self : t) : t :=
  foldl (fun g e => state_of (update e g)) self es.

End StepDataGenerator.

(** ** The heap of order dictionaries

    An order is a Python [dict] with the keys [order_id], [time], [location]
    and [power_demand].  [DataPoint.value] holds a reference to it, and
    [to_dict] hands the same reference out, so the model keeps the
    dictionaries in a store and [DataPoint loc] names them by location. *)
Inductive field : Type :=
| FInt (z : Z)
| FStr (s : string).

Abbreviation dict := (gmap string field).
Abbreviation loc := nat.
Abbreviation heap := (list dict).

(** A new dictionary object. *)
Definition alloc (d : dict) (h : heap) : heap * loc := (h ++ [d], length h).

Definition deref (h : heap) (l : loc) : dict := default ∅ (h !! l).

(** [d.copy()]: a new object with the same items. *)
Definition dict_copy (l : loc) (h : heap) : heap * loc := alloc (deref h l) h.

(** [d[key] = v]: the object at [l] is changed in place. *)
Definition setitem (l : loc) (key : string) (v : field) (h : heap) : heap :=
  alter (insert key v) l h.

(** [str(v)], as an f-string renders a field. *)
Definition str (v : field) : string :=
  match v with
  | FInt z => pretty z
  | FStr s => s
  end.

(** What a snapshot or a serialized point may carry as its value. *)
Inductive pyval : Type :=
| VScalar (s : scalar)
| VDict (l : loc).

(** The dictionary [{"name": ..., "value": ..., "timestamp": ...}] returned by
    [get_current_data]; the timestamp is kept as the clock reading that
    [isoformat()] prints, [None] when there is no point yet. *)
Record snapshot : Type := mkSnapshot {
  snap_name : string;
  snap_value : pyval;
  snap_timestamp : option Z
}.

(** The dictionary [{"value": ..., "timestamp": ...}] returned by
    [DataPoint.to_dict]. *)
Record point_dict : Type := mkPointDict {
  pd_value : pyval;
  pd_timestamp : Z
}.

(** [DataPoint.to_dict]: the value is handed out as it is stored, so a stored
    dictionary is shared with the result. *)
Definition to_dict {V : Type} (inj : V -> pyval) (point : DataPoint V) : point_dict :=
  {| pd_value := inj (value point); pd_timestamp := timestamp point |}.

Definition float_val (q : Q) : pyval := VScalar (SFloat q).

(** [BaseDataGenerator.get_current_data] and [SumDataGenerator.get_current_data] *)
Definition base_get_current_data {V : Type} (inj : V -> pyval) (name : string)
    (history : list (DataPoint V)) : snapshot :=
  match last history with
  | None => mkSnapshot name (VScalar SNone) None
  | Some latest => mkSnapshot name (inj (value latest)) (Some (timestamp latest))
  end.

(** [BaseDataGenerator.get_history] and [SumDataGenerator.get_history] *)
Definition base_get_history {V : Type} (inj : V -> pyval)
    (history : list (DataPoint V)) : list point_dict :=
  to_dict inj <$> history.

(** ** OrderDataGenerator *)

Module OrderDataGenerator.

(** [interval_range] and [next_update_time] only pace the background loop and
    are left out. *)
Record t : Type := mk {
  name : string;
  order_id_base : Z;
  current_order_id : Z;
  id_increment_range : Z * Z;
  locations : list string;
  power_demand_range : Z * Z;
  unit : string;
  history_limit : Z;
  history : list (DataPoint loc)
}.

Definition set_current_order_id (v : Z) (self : t) : t :=
  mk (name self) (order_id_base self) v (id_increment_range self) (locations self)
     (power_demand_range self) (unit self) (history_limit self) (history self).

Definition set_history (v : list (DataPoint loc)) (self : t) : t :=
  mk (name self) (order_id_base self) (current_order_id self) (id_increment_range self)
     (locations self) (power_demand_range self) (unit self) (history_limit self) v.

(** The dictionary literal built by [update]. *)
Definition order_data (order_id : Z) (time : string) (location : string)
    (power_demand : Z) : dict :=
  <["order_id" := FInt order_id]> (<["time" := FStr time]>
    (<["location" := FStr location]> (<["power_demand" := FInt power_demand]> ∅))).

Definition update (e : env) (self : t) (h : heap) : outcome (t * heap) :=
  match randint (env_draw e 0) (fst (id_increment_range self)) (snd (id_increment_range self)) with
  | inl err => Raises err (self, h)
  | inr id_increment =>
      let self := set_current_order_id (current_order_id self + id_increment)%Z self in
      match choice (env_draw e 1) (locations self) with
      | inl err => Raises err (self, h)
      | inr location =>
          match randint (env_draw e 2) (fst (power_demand_range self))
                        (snd (power_demand_range self)) with
          | inl err => Raises err (self, h)
          | inr power_demand =>
              let '(h, order) :=
                alloc (order_data (current_order_id self) (env_strftime e) location
                                  power_demand) h in
              let data_point := mkDataPoint order (env_now e) in
              Returns (set_history (record_point (history_limit self) (history self) data_point)
                                   self, h)
          end
      end
  end.

(** The fields set by [__init__] before it calls [update]; a configuration
    without [history_limit] gets 20. *)
Definition init (cfg : config) (name : string) : t :=
  {| name := name;
     order_id_base := default 1000000000%Z (cfg_order_id_base cfg);
     current_order_id := default 1000000000%Z (cfg_order_id_base cfg);
     id_increment_range := default (1%Z, 10%Z) (cfg_id_increment_range cfg);
     locations := default ["北京"; "上海"; "深圳"; "成都"] (cfg_locations cfg);
     power_demand_range := default (100%Z, 1000%Z) (cfg_power_demand_range cfg);
     unit := default "" (cfg_unit cfg);
     history_limit := default 20%Z (cfg_history_limit cfg);
     history := [] |}.

Definition new (cfg : config) (name : string) (e : env) (h : heap) : outcome (t * heap) :=
  update e (init cfg name) h.

(** [f"{power_demand} ({self.unit})"] *)
Definition with_unit (power_demand : field) (unit : string) : string :=
  str power_demand +:+ " (" +:+ unit +:+ ")".

(** The body shared by the two accessors: copy the dictionary ([{}] when the
    value is not one) and, when it has a [power_demand] and the unit is not
    empty, overwrite that key in the copy. *)
Definition formatted_copy (v : pyval) (self : t) (h : heap) : heap * loc :=
  match v with
  | VDict stored =>
      let '(h, value_dict) := dict_copy stored h in
      match deref h stored !! "power_demand" with
      | Some power_demand =>
          if bool_decide (unit self ≠ "")
          then (setitem value_dict "power_demand"
                        (FStr (with_unit power_demand (unit self))) h,
                value_dict)
          else (h, value_dict)
      | None => (h, value_dict)
      end
  | VScalar _ => alloc ∅ h
  end.

Definition get_current_data (self : t) (h : heap) : heap * snapshot :=
  match last (history self) with
  | None => (h, mkSnapshot (name self) (VScalar SNone) None)
  | Some latest =>
      let '(h, latest_value) := formatted_copy (VDict (value latest)) self h in
      (h, mkSnapshot (name self) (VDict latest_value) (Some (timestamp latest)))
  end.

(** The points [get_history] walks over. *)
Definition history_points (count : option Z) (self : t) : list (DataPoint loc) :=
  match count with
  | None => history self
  | Some count =>
      if (count >=? Z.of_nat (length (history self)))%Z
      then history self
      else slice_last count (history self)
  end.

(** One turn of the loop of [get_history]: [data["value"]] is replaced by the
    formatted copy in the dictionary [to_dict] has just made. *)
Definition format_point (self : t) (acc : heap * list point_dict) (point : DataPoint loc)
    : heap * list point_dict :=
  let '(h, history_data) := acc in
  let data := to_dict VDict point in
  let '(h, value_dict) := formatted_copy (pd_value data) self h in
  (h, history_data ++ [mkPointDict (VDict value_dict) (pd_timestamp data)]).

Definition get_history (count : option Z) (self : t) (h : heap) : heap * list point_dict :=
  foldl (format_point self) (h, []) (history_points count self).

End OrderDataGenerator.

(** ** SumDataGenerator *)

Module SumDataGenerator.

(** [object_manager] is a reference to the registry, or [None]: the field
    records whether it is set, and [update] receives the registry's lookup. *)
Record t : Type := mk {
  name : string;
  object_manager : bool;
  source_objects : list string;
  history_limit : Z;
  history : list (DataPoint Q);
  current_value : Q
}.

(** [__init__] stores the attributes and computes nothing. *)
Definition new (cfg : config) (name : string) (object_manager : bool) : t :=
  {| name := name;
     object_manager := object_manager;
     source_objects := default [] (cfg_source_objects cfg);
     history_limit := default 200%Z (cfg_history_limit cfg);
     history := [];
     current_value := 0%Q |}.

Section Update.

(** The registry as [update] sees it: [get_object] looks a name up and
    [get_current_data] is the method of whatever object it finds. *)
Context {Obj : Type}.
Variable get_current_data : Obj -> heap -> heap * snapshot.
Variable get_object : string -> option Obj.

(** [data.get("value") is not None and isinstance(value, (int, float))] *)
Definition numeric (v : pyval) : option Q :=
  match v with
  | VScalar s => number_of s
  | VDict _ => None
  end.

(** One turn of the loop over [source_objects]. *)
Definition add_source (acc : heap * Q * nat) (source : string) : heap * Q * nat :=
  let '(h, total, count) := acc in
  match get_object source with
  | Some obj =>
      let '(h, data) := get_current_data obj h in
      match numeric (snap_value data) with
      | Some v => (h, (total + v)%Q, S count)
      | None => (h, total, count)
      end
  | None => (h, total, count)
  end.

Definition update (now : Z) (self : t) (h : heap) : t * heap :=
  if negb (object_manager self) || bool_decide (source_objects self = [])
  then (self, h)
  else
    let '(h, total, count) := foldl add_source (h, 0%Q, 0) (source_objects self) in
    if (0 <? count)%nat
    then ({| name := name self;
             object_manager := object_manager self;
             source_objects := source_objects self;
             history_limit := history_limit self;
             history := record_point (history_limit self) (history self)
                          (mkDataPoint total now);
             current_value := total |}, h)
    else (self, h).

Definition first_update (now : Z) (self : t) (h : heap) : t * heap :=
  update now self h.

End Update.

End SumDataGenerator.

(** ** The generator variants *)

Inductive generator : Type :=
| Random (g : RandomDataGenerator.t)
| Step (g : StepDataGenerator.t)
| Order (g : OrderDataGenerator.t)
| Sum (g : SumDataGenerator.t).

Definition history_limit (g : generator) : Z :=
  match g with
  | Random g => RandomDataGenerator.history_limit g
  | Step g => StepDataGenerator.history_limit g
  | Order g => OrderDataGenerator.history_limit g
  | Sum g => SumDataGenerator.history_limit g
  end.

(** The timestamps of the history, oldest first. *)
Definition history_timestamps (g : generator) : list Z :=
  match g with
  | Random g => timestamps (RandomDataGenerator.history g)
  | Step g => timestamps (StepDataGenerator.history g)
  | Order g => timestamps (OrderDataGenerator.history g)
  | Sum g => timestamps (SumDataGenerator.history g)
  end.

(** [obj.get_current_data()], dispatched on the class of [obj]. *)
Definition get_current_data (g : generator) (h : heap) : heap * snapshot :=
  match g with
  | Random g =>
      (h, base_get_current_data float_val (RandomDataGenerator.name g)
            (RandomDataGenerator.history g))
  | Step g =>
      (h, base_get_current_data VScalar (StepDataGenerator.name g)
            (StepDataGenerator.history g))
  | Order g => OrderDataGenerator.get_current_data g h
  | Sum g =>
      (h, base_get_current_data float_val (SumDataGenerator.name g)
            (SumDataGenerator.history g))
  end.

(** The registry's table [self.objects]. *)
Abbreviation objects := (gmap string generator).

(** [DataObjectManager.get_object] *)
Definition get_object (objs : objects) (name : string) : option generator := objs !! name.

(** [generator.update()], dispatched on the class; a sum reads its sources
    through the registry [objs]. *)
Definition update (objs : objects) (e : env) (g : generator) (h : heap)
    : outcome (generator * heap) :=
  match g with
  | Random g => Returns (Random (RandomDataGenerator.update e g), h)
  | Step g =>
      match StepDataGenerator.update e g with
      | Returns g => Returns (Step g, h)
      | Raises err g => Raises err (Step g, h)
      end
  | Order g =>
      match OrderDataGenerator.update e g h with
      | Returns (g, h) => Returns (Order g, h)
      | Raises err (g, h) => Raises err (Order g, h)
      end
  | Sum g =>
      let '(g, h) := SumDataGenerator.update get_current_data (get_object objs) (env_now e) g h in
      Returns (Sum g, h)
  end.

(** A run of [update] calls on one generator.  Each call comes with the
    registry as it stands at that moment and with the environment's answers;
    a caller that catches an exception goes on with the object as the failed
    call left it. *)
Definition updates (calls : list (objects * env)) (g : generator) (h : heap)
    : generator * heap :=
  foldl (fun st call => state_of (update (fst call) (snd call) (fst st) (snd st))) (g, h) calls.

(** [create_data_generator(config, name, object_manager)].  [time0] is the
    reading of [time.time()] a step generator takes before its first
    [update]; [e] is the environment of the [update] the constructors of the
    three non-aggregate classes perform.  A constructor that raises leaves no
    object behind. *)
Definition create_data_generator (cfg : config) (name : string) (object_manager : bool)
    (time0 : Q) (e : env) (h : heap) : heap * (exn + generator) :=
  if bool_decide (cfg_data_type cfg = Some "random") then
    (h, inr (Random (RandomDataGenerator.new cfg name e)))
  else if bool_decide (cfg_data_type cfg = Some "step") then
    match StepDataGenerator.new cfg name time0 e with
    | Returns g => (h, inr (Step g))
    | Raises err _ => (h, inl err)
    end
  else if bool_decide (cfg_data_type cfg = Some "order") then
    match OrderDataGenerator.new cfg name e h with
    | Returns (g, h) => (h, inr (Order g))
    | Raises err (_, h) => (h, inl err)
    end
  else if bool_decide (cfg_data_type cfg = Some "sum") then
    (h, inr (Sum (SumDataGenerator.new cfg name object_manager)))
  else (h, inl ValueError).

(** ** api_server: the history route *)

(** [generator.get_history()] of the three classes that take no count. *)
Definition get_history (g : generator) : list point_dict :=
  match g with
  | Random g => base_get_history float_val (RandomDataGenerator.history g)
  | Step g => base_get_history VScalar (StepDataGenerator.history g)
  | Order g => base_get_history VDict (OrderDataGenerator.history g)
  | Sum g => base_get_history float_val (SumDataGenerator.history g)
  end.

(** The body of [get_object_history] once the object is found: an order
    generator answers through its own [get_history(count)], the others have
    the count applied here. *)
Definition get_object_history (g : generator) (count : option Z) (h : heap)
    : heap * list point_dict :=
  match g with
  | Order g => OrderDataGenerator.get_history count g h
  | _ =>
      let history := get_history g in
      match count with
      | Some c => if (c >? 0)%Z then (h, slice_last c history) else (h, history)
      | None => (h, history)
      end
  end.

(** ** DataObjectManager *)

Module DataObjectManager.

(** What the environment answers while the registry is built: for each
    object, the clock reading and the environment of its constructor, and the
    reading of [datetime.now()] during its [first_update]. *)
Record world : Type := mkWorld {
  at_construction : string -> Q * env;
  at_first_update : string -> Z
}.

(** [d.get(name)] on a dictionary kept as its items in insertion order. *)
Fixpoint config_get (name : string) (d : list (string * config)) : option config :=
  match d with
  | [] => None
  | (k, c) :: d => if bool_decide (k = name) then Some c else config_get name d
  end.

(** [name in d] *)
Definition has_key (name : string) (d : list (string * config)) : bool :=
  match config_get name d with Some _ => true | None => false end.

Definition is_sum (entry : string * config) : bool :=
  bool_decide (cfg_data_type (snd entry) = Some "sum").

(** The loop that creates the non-aggregate objects; an exception of a
    constructor is caught and the object is skipped. *)
Definition create_object (w : world) (acc : objects * heap) (entry : string * config)
    : objects * heap :=
  let '(objs, h) := acc in
  let '(name, cfg) := entry in
  match create_data_generator cfg name true (fst (at_construction w name))
                              (snd (at_construction w name)) h with
  | (h, inr generator) => (<[name := generator]> objs, h)
  | (h, inl _) => (objs, h)
  end.

Section Dependencies.

Variable sum_configs : list (string * config).
Variable objs : objects.

(** One turn of the loop over [sources] in [check_dependencies]; [recurse]
    is the recursive call [check_dependencies(source, visited.copy(),
    path.copy())], [None] when its bound is exhausted. *)
Definition visit (recurse : string -> option (list string * list (list string)))
    (acc : option (list string * list (list string))) (source : string)
    : option (list string * list (list string)) :=
  match acc with
  | None => None
  | Some (result, warnings) =>
      if has_key source sum_configs && bool_decide (objs !! source = None)
      then
        match recurse source with
        | None => None
        | Some (deps, warnings') => Some (result ++ deps, warnings ++ warnings')
        end
      else Some (result, warnings)
  end.

(** The local function [check_dependencies].  It returns the names to create,
    dependencies first, and the cycles it has printed a warning for, each as
    the path that closes it.  The callee works on copies of [visited] and
    [path], so the caller's are not changed by the call.  The recursion is
    bounded by [fuel]; [None] is an exhausted bound. *)
Fixpoint check_dependencies (fuel : nat) (sum_name : string) (visited : gset string)
    (path : list string) : option (list string * list (list string)) :=
  match fuel with
  | 0 => None
  | S fuel =>
      if bool_decide (sum_name ∈ visited)
      then Some ([], [path ++ [sum_name]])
      else
        let visited := {[sum_name]} ∪ visited in
        let path := path ++ [sum_name] in
        match config_get sum_name sum_configs with
        | None => Some ([], [])
        | Some cfg =>
            let sources := default [] (cfg_source_objects cfg) in
            match foldl (visit (fun source => check_dependencies fuel source visited path))
                        (Some ([], [])) sources with
            | None => None
            | Some (result, warnings) =>
                if bool_decide (objs !! sum_name = None)
                then Some (result ++ [sum_name], warnings)
                else Some (result, warnings)
            end
        end
  end.

(** [for dep in deps: if dep not in creation_order: creation_order.append(dep)] *)
Definition add_deps (creation_order deps : list string) : list string :=
  foldl (fun order dep => if bool_decide (dep ∈ order) then order else order ++ [dep])
        creation_order deps.

(** The loop that fills [creation_order]. *)
Definition plan (fuel : nat) (acc : option (list string * list (list string)))
    (entry : string * config) : option (list string * list (list string)) :=
  match acc with
  | None => None
  | Some (creation_order, warnings) =>
      if bool_decide (objs !! fst entry = None)
      then
        match check_dependencies fuel (fst entry) ∅ [] with
        | None => None
        | Some (deps, warnings') => Some (add_deps creation_order deps, warnings ++ warnings')
        end
      else Some (creation_order, warnings)
  end.

Definition creation_plan : option (list string * list (list string)) :=
  foldl (plan (S (length sum_configs))) (Some ([], [])) sum_configs.

End Dependencies.

(** The loop that creates the aggregates in [creation_order]; [sum_generators]
    keeps the objects by name, the table [objs] being the one place they
    live. *)
Definition create_sum (w : world) (sum_configs : list (string * config))
    (acc : objects * heap * list string) (name : string) : objects * heap * list string :=
  let '(objs, h, sum_generators) := acc in
  match config_get name sum_configs with
  | None => acc
  | Some cfg =>
      match create_data_generator cfg name true (fst (at_construction w name))
                                  (snd (at_construction w name)) h with
      | (h, inr generator) =>
          (<[name := generator]> objs, h,
           match generator with
           | Sum _ => sum_generators ++ [name]
           | _ => sum_generators
           end)
      | (h, inl _) => (objs, h, sum_generators)
      end
  end.

(** The loop that calls [first_update] on every created aggregate. *)
Definition initialize (w : world) (acc : objects * heap) (name : string) : objects * heap :=
  let '(objs, h) := acc in
  match objs !! name with
  | Some (Sum g) =>
      let '(g, h) := SumDataGenerator.first_update get_current_data (get_object objs)
                       (at_first_update w name) g h in
      (<[name := Sum g]> objs, h)
  | _ => acc
  end.

(** What [_create_objects_from_config] leaves behind: the table, the heap, and
    (for inspection) the creation order and the cycles it warned about. *)
Record construction : Type := mkConstruction {
  built_objects : objects;
  built_heap : heap;
  creation_order : list string;
  cycle_warnings : list (list string)
}.

Definition _create_objects_from_config (w : world) (objects_config : list (string * config))
    (h : heap) : option construction :=
  let sum_configs := filter (fun entry => is_sum entry = true) objects_config in
  let non_sum_objects := filter (fun entry => is_sum entry = false) objects_config in
  let '(objs, h) := foldl (create_object w) (∅, h) non_sum_objects in
  match creation_plan sum_configs objs with
  | None => None
  | Some (creation_order, warnings) =>
      let '(objs, h, sum_generators) :=
        foldl (create_sum w sum_configs) (objs, h, []) creation_order in
      let '(objs, h) := foldl (initialize w) (objs, h) sum_generators in
      Some (mkConstruction objs h creation_order warnings)
  end.

End DataObjectManager.

(** ** SumDataGenerator.get_source_data *)

(** One turn of the loop of [get_source_data]: [result[name] =
    obj.get_current_data()] when the name resolves. *)
Definition add_source_data (objs : objects) (acc : heap * gmap string snapshot)
    (name : string) : heap * gmap string snapshot :=
  let '(h, result) := acc in
  match get_object objs name with
  | Some obj =>
      let '(h, data) := get_current_data obj h in
      (h, <[name := data]> result)
  | None => (h, result)
  end.

(** [SumDataGenerator.get_source_data]: the dictionary from source name to
    current snapshot; [objs] is the registry the generator refers to. *)
Definition get_source_data (objs : objects) (self : SumDataGenerator.t) (h : heap)
    : heap * gmap string snapshot :=
  if negb (SumDataGenerator.object_manager self)
  then (h, ∅)
  else foldl (add_source_data objs) (h, ∅) (SumDataGenerator.source_objects self).

(** ** api_server: the routes over the registry *)

(** What a route answers: a body, or [HTTPException(status_code=...)]. *)
Inductive response (A : Type) : Type :=
| Body (body : A)
| HTTPException (status_code : Z).
Arguments Body {A} body.
Arguments HTTPException {A} status_code.

(** [GET /api/data/{object_name}] *)
Definition route_object_data (objs : objects) (object_name : string) (h : heap)
    : heap * response snapshot :=
  match get_object objs object_name with
  | None => (h, HTTPException 404)
  | Some generator =>
      let '(h, data) := get_current_data generator h in (h, Body data)
  end.

(** [GET /api/data/{object_name}/history?count=...] *)
Definition route_object_history (objs : objects) (object_name : string) (count : option Z)
    (h : heap) : heap * response (list point_dict) :=
  match get_object objs object_name with
  | None => (h, HTTPException 404)
  | Some generator =>
      let '(h, history) := get_object_history generator count h in (h, Body history)
  end.

(** [GET /api/orders/{object_name}?count=...]; the count defaults to 10 at
    the call site. *)
Definition route_orders (objs : objects) (object_name : string) (count : Z) (h : heap)
    : heap * response (list point_dict) :=
  match get_object objs object_name with
  | None => (h, HTTPException 404)
  | Some (Order generator) =>
      let '(h, history) := OrderDataGenerator.get_history (Some count) generator h in
      (h, Body history)
  | Some _ => (h, HTTPException 400)
  end.

(** [GET /api/sum/{object_name}/sources] *)
Definition route_sum_sources (objs : objects) (object_name : string) (h : heap)
    : heap * response (gmap string snapshot) :=
  match get_object objs object_name with
  | None => (h, HTTPException 404)
  | Some (Sum generator) =>
      let '(h, sources) := get_source_data objs generator h in (h, Body sources)
  | Some _ => (h, HTTPException 400)
  end.

(** * Notions of the specification, used to state the properties *)

(** Two points, the second recorded right after the first, whose values
    differ for [!=]. *)
Definition differ (p q : DataPoint scalar) : Prop := py_ne (value p) (value q) = true.

(** Every point of the history differs from the one recorded before it. *)
Definition consecutive_differ (history : list (DataPoint scalar)) : Prop :=
  Sorted differ history.

(** The step configuration [{"values": [1, 2, 3], "dwell_time": 0,
    "loop": false}]. *)
Definition one_two_three : config :=
  mkConfig (Some "step") None None None None None (Some [SInt 1; SInt 2; SInt 3]) (Some 0%Q)
           (Some false) None None None None None None.

(** The values of the recorded points, oldest first. *)
Definition recorded {V : Type} (history : list (DataPoint V)) : list V := value <$> history.

(** A run of [update] calls on an order generator; a caller that catches an
    exception goes on with the object as the failed call left it. *)
Definition order_updates (es : list env) (self : OrderDataGenerator.t) (h : heap)
    : OrderDataGenerator.t * heap :=
  foldl (fun st e => state_of (OrderDataGenerator.update e (fst st) (snd st))) (self, h) es.

(** An order configuration with [order_id_base] and [id_increment_range]
    set and every other key absent. *)
Definition order_config (order_id_base : Z) (id_increment_range : Z * Z) : config :=
  mkConfig (Some "order") None None None None None None None None (Some order_id_base)
           (Some id_increment_range) None None None None.

(** A stored order: the point's value names an existing dictionary whose
    [power_demand] is an integer. *)
Definition stored_order (h : heap) (point : DataPoint loc) : Prop :=
  value point < length h /\
  exists power_demand : Z, deref h (value point) !! "power_demand" = Some (FInt power_demand).

(** Every point of the history is a stored order; [update] keeps it so. *)
Definition orders_stored (self : OrderDataGenerator.t) (h : heap) : Prop :=
  Forall (stored_order h) (OrderDataGenerator.history self).

(** What an accessor must hand out for a stored dictionary: the same items,
    with [power_demand] replaced by the text ["<value> (<unit>)"]. *)
Definition rendered (unit : string) (stored : dict) (power_demand : Z) : dict :=
  <["power_demand" := FStr (pretty power_demand +:+ " (" +:+ unit +:+ ")")]> stored.

(** A read access to an order generator. *)
Inductive access : Type :=
| CurrentData
| History (count : option Z).

(** The heap after one access; the generator object itself is not among the
    things an accessor assigns to. *)
Definition perform (self : OrderDataGenerator.t) (h : heap) (a : access) : heap :=
  match a with
  | CurrentData => fst (OrderDataGenerator.get_current_data self h)
  | History count => fst (OrderDataGenerator.get_history count self h)
  end.

Definition reads (accesses : list access) (self : OrderDataGenerator.t) (h : heap) : heap :=
  foldl (perform self) h accesses.

(** The item [get_history] returns for a stored point, seen in the heap [h']
    the call ends with. *)
Definition formatted_item (unit : string) (h h' : heap) (point : DataPoint loc)
    (item : point_dict) : Prop :=
  exists (power_demand : Z) (copy : loc),
    deref h (value point) !! "power_demand" = Some (FInt power_demand) /\
    pd_value item = VDict copy /\
    length h <= copy /\
    h' !! copy = Some (rendered unit (deref h (value point)) power_demand) /\
    pd_timestamp item = timestamp point.

(** The number a generator currently shows, if it shows one: the value of its
    newest history point, when there is a point and its value is an [int], a
    [bool] or a [float].  An order generator shows a dictionary. *)
Definition latest_number (g : generator) : option Q :=
  match g with
  | Random g => value <$> last (RandomDataGenerator.history g)
  | Step g => last (StepDataGenerator.history g) ≫= fun point => number_of (value point)
  | Order _ => None
  | Sum g => value <$> last (SumDataGenerator.history g)
  end.

(** A configured source contributes when it resolves in the registry and
    currently has a numeric value. *)
Definition contribution (objs : objects) (source : string) : option Q :=
  objs !! source ≫= latest_number.

(** The contributions of the configured sources, in their order. *)
Definition contributions (objs : objects) (sources : list string) : list Q :=
  omap (contribution objs) sources.

(** [0.0 + v1 + ... + vn], added from the left. *)
Definition total_of (vs : list Q) : Q := foldl Qplus 0%Q vs.

(** A step configuration holding the single value [v]. *)
Definition constant (v : scalar) : config :=
  mkConfig (Some "step") None None None None None (Some [v]) None None None None None None None
           None.

(** A sum configuration over [sources]. *)
Definition sum_of (sources : list string) : config :=
  mkConfig (Some "sum") None None None None None None None None None None None None None
           (Some sources).

(** The registry [objs'] keeps the registry [objs]: an aggregate is still an
    aggregate under its name, every other entry, present or absent, is what it
    was. *)
Definition kept (objs objs' : objects) : Prop :=
  forall name : string,
    match objs !! name with
    | Some (Sum _) => exists g', objs' !! name = Some (Sum g')
    | entry => objs' !! name = entry
    end.

(** The configuration of the dependency example: the aggregates X, Y and Z
    form the cycle X -> Y -> Z -> X; A is a step object showing 10 and S is an
    aggregate over A alone. *)
Definition cyclic_config : list (string * config) :=
  [("A", constant (SInt 10)); ("X", sum_of ["Y"]); ("Y", sum_of ["Z"]); ("Z", sum_of ["X"]);
   ("S", sum_of ["A"])].

(** An environment in which every clock reads 1 and every draw is 0. *)
Definition still_world : DataObjectManager.world :=
  DataObjectManager.mkWorld
    (fun _ => (0%Q, mkEnv 1 0 "2026-01-01 00:00" (fun _ => 0%N))) (fun _ => 1%Z).

(** A run of [update] calls on a random generator. *)
Definition random_updates (es : list env) (self : RandomDataGenerator.t)
    : RandomDataGenerator.t :=
  foldl (fun g e => RandomDataGenerator.update e g) self es.

(** [current_value] is the value of the newest history point, for the three
    classes that keep a [current_value] of their own; vacuous while the
    history is empty. *)
Definition shows_current_value (g : generator) : Prop :=
  match g with
  | Random g =>
      forall latest, last (RandomDataGenerator.history g) = Some latest ->
                     value latest = RandomDataGenerator.current_value g
  | Step g =>
      forall latest, last (StepDataGenerator.history g) = Some latest ->
                     value latest = StepDataGenerator.current_value g
  | Sum g =>
      forall latest, last (SumDataGenerator.history g) = Some latest ->
                     value latest = SumDataGenerator.current_value g
  | Order _ => True
  end.

(** The [order_id] of the order a history point names, when it is an
    integer. *)
Definition stored_order_id (h : heap) (point : DataPoint loc) : option Z :=
  match deref h (value point) !! "order_id" with
  | Some (FInt order_id) => Some order_id
  | _ => None
  end.

(** The orders of the history carry the ids [ids], oldest first; the ids
    strictly increase and none exceeds [current_order_id]. *)
Definition orders_ascending (self : OrderDataGenerator.t) (h : heap) (ids : list Z) : Prop :=
  stored_order_id h <$> OrderDataGenerator.history self = Some <$> ids /\
  Forall (fun point => value point < length h) (OrderDataGenerator.history self) /\
  StronglySorted Z.lt ids /\
  Forall (fun order_id => (order_id <= OrderDataGenerator.current_order_id self)%Z) ids.

(** The [data_type] that selects the class of a generator. *)
Definition class_name (g : generator) : string :=
  match g with
  | Random _ => "random"
  | Step _ => "step"
  | Order _ => "order"
  | Sum _ => "sum"
  end.

(** The status a route answers with; 200 stands for a body. *)
Definition status {A : Type} (answer : heap * response A) : Z :=
  match snd answer with
  | Body _ => 200
  | HTTPException status_code => status_code
  end.

(** [source] is configured as a source of the aggregate [name] and is an
    aggregate itself. *)
Definition aggregate_source (sum_configs : list (string * config)) (name source : string)
    : Prop :=
  exists cfg,
    DataObjectManager.config_get name sum_configs = Some cfg /\
    source ∈ default [] (cfg_source_objects cfg) /\
    DataObjectManager.has_key source sum_configs = true.

(** Every name of [order] comes after the aggregates among its sources. *)
Definition sources_first (sum_configs : list (string * config)) (order : list string) : Prop :=
  forall i name source,
    order !! i = Some name -> aggregate_source sum_configs name source ->
    source ∈ take i order.

(** The aggregates of a configuration, as [_create_objects_from_config]
    sorts them out. *)
Definition aggregates (objects_config : list (string * config)) : list (string * config) :=
  filter (fun entry => DataObjectManager.is_sum entry = true) objects_config.

(** A configuration of two aggregates in a chain, the dependant listed
    first: T sums S, S sums the step object A showing 10. *)
Definition chain_config : list (string * config) :=
  [("T", sum_of ["S"]); ("A", constant (SInt 10)); ("S", sum_of ["A"])].

(** The points of a history that a call [get_history(count)] is asked for,
    written without the slice: all of them without a count, the newest
    [count] of them for a positive count (all, when there are no more), and
    for a count [-k <= 0] the history without its [k] oldest points (all of
    it for 0). *)
Definition asked_points {A : Type} (count : option Z) (history : list A) : list A :=
  match count with
  | None => history
  | Some c =>
      if (0 <? c)%Z
      then drop (length history - Z.to_nat c) history
      else drop (Z.to_nat (- c)) history
  end.

(** * Properties *)

(** ** The bounded history buffer *)

Lemma slice_last_suffix {A : Type} (n : Z) (l : list A) : slice_last n l `suffix_of` l.
Proof. unfold slice_last, slice_from. apply suffix_drop. Qed.

Lemma slice_last_length {A : Type} (n : Z) (l : list A) :
  (0 < n)%Z -> (n <= Z.of_nat (length l))%Z -> Z.of_nat (length (slice_last n l)) = n.
Proof.
  intros Hn Hlen. unfold slice_last, slice_from.
  rewrite length_drop.
  destruct (Z.ltb_spec (- n) 0) as [_ | Hge]; [| lia].
  rewrite Z.max_l by lia. lia.
Qed.

(** [l[-0:]] is the whole list. *)
Lemma slice_last_zero {A : Type} (l : list A) : slice_last 0 l = l.
Proof.
  unfold slice_last, slice_from. cbn.
  rewrite Z.min_l by lia. reflexivity.
Qed.

(** With a negative [n], [l[-n:]] drops the first [|n|] items. *)
Lemma slice_last_negative {A : Type} (n : Z) (l : list A) :
  (n < 0)%Z -> slice_last n l = drop (Z.to_nat (- n)) l.
Proof.
  intros Hn. unfold slice_last, slice_from.
  destruct (Z.ltb_spec (- n) 0) as [Hlt | _]; [lia |].
  destruct (Z.le_ge_cases (- n) (Z.of_nat (length l))) as [Hle | Hge].
  - rewrite Z.min_l by lia. reflexivity.
  - rewrite Z.min_r by lia. rewrite Nat2Z.id.
    rewrite drop_all. symmetry. apply drop_ge. lia.
Qed.

Lemma slice_last_all {A : Type} (n : Z) (l : list A) :
  (Z.of_nat (length l) <= n)%Z -> slice_last n l = l.
Proof.
  intros Hn. unfold slice_last, slice_from.
  destruct (Z.ltb_spec (- n) 0) as [Hlt | Hge].
  - rewrite Z.max_r by lia. reflexivity.
  - assert (length l = 0) as Hnil by lia.
    destruct l; [| discriminate]. apply drop_nil.
Qed.

(** For [0 < n < len(l)], [l[-n:]] is the last [n] items. *)
Lemma slice_last_drop {A : Type} (n : Z) (l : list A) :
  (0 < n)%Z -> (n <= Z.of_nat (length l))%Z ->
  slice_last n l = drop (length l - Z.to_nat n) l.
Proof.
  intros Hn Hlen. unfold slice_last, slice_from.
  destruct (Z.ltb_spec (- n) 0) as [_ | Hge]; [| lia].
  rewrite Z.max_l by lia. f_equal. lia.
Qed.

Lemma record_point_suffix {V : Type} (limit : Z) (history : list (DataPoint V)) p :
  record_point limit history p `suffix_of` history ++ [p].
Proof.
  unfold record_point. cbv zeta.
  destruct (_ >? _)%Z; [apply slice_last_suffix | reflexivity].
Qed.

Lemma record_point_length {V : Type} (limit : Z) (history : list (DataPoint V)) p :
  (0 < limit)%Z -> (Z.of_nat (length (record_point limit history p)) <= limit)%Z.
Proof.
  intros Hlimit. unfold record_point. cbv zeta.
  destruct (Z.gtb_spec (Z.of_nat (length (history ++ [p]))) limit) as [Hgt | Hle].
  - rewrite slice_last_length; lia.
  - exact Hle.
Qed.

(** With a positive limit the point just recorded is the last of the
    history. *)
Lemma record_point_last {V : Type} (limit : Z) (history : list (DataPoint V)) p :
  (0 < limit)%Z -> last (record_point limit history p) = Some p.
Proof.
  intros Hlimit. unfold record_point. cbv zeta.
  destruct (Z.gtb_spec (Z.of_nat (length (history ++ [p]))) limit) as [Hgt | Hle].
  - rewrite slice_last_drop by lia.
    rewrite length_app in *. cbn [length] in *.
    rewrite drop_app_le by lia.
    apply last_snoc.
  - apply last_snoc.
Qed.

Lemma timestamps_suffix {V : Type} (l1 l2 : list (DataPoint V)) :
  l1 `suffix_of` l2 -> timestamps l1 `suffix_of` timestamps l2.
Proof.
  intros [k ->]. unfold timestamps. rewrite fmap_app. by apply suffix_app_r.
Qed.

Lemma timestamps_record_point {V : Type} (limit : Z) (history : list (DataPoint V)) p :
  timestamps (record_point limit history p) `suffix_of` timestamps history ++ [timestamp p].
Proof.
  change (timestamps history ++ [timestamp p]) with (timestamps history ++ timestamps [p]).
  unfold timestamps at 2 3. rewrite <- fmap_app.
  apply timestamps_suffix, record_point_suffix.
Qed.

Lemma timestamps_length {V : Type} (l : list (DataPoint V)) :
  length (timestamps l) = length l.
Proof. apply length_fmap. Qed.

(** ** Every update appends at most one point, stamped with the clock *)

Lemma advance_history current_time self :
  StepDataGenerator.history (StepDataGenerator.advance current_time self)
  = StepDataGenerator.history self.
Proof. unfold StepDataGenerator.advance. by destruct (Qle_bool _ _). Qed.

Lemma advance_history_limit current_time self :
  StepDataGenerator.history_limit (StepDataGenerator.advance current_time self)
  = StepDataGenerator.history_limit self.
Proof. unfold StepDataGenerator.advance. by destruct (Qle_bool _ _). Qed.

Lemma advance_values current_time self :
  StepDataGenerator.values (StepDataGenerator.advance current_time self)
  = StepDataGenerator.values self.
Proof. unfold StepDataGenerator.advance. by destruct (Qle_bool _ _). Qed.

Lemma recorded_step {V : Type} (limit : Z) (history : list (DataPoint V)) (now : Z) v :
  let ts' := timestamps (record_point limit history (mkDataPoint v now)) in
  ts' `suffix_of` timestamps history ++ [now] /\
  ((0 < limit)%Z -> (Z.of_nat (length ts') <= limit)%Z).
Proof.
  split.
  - apply (timestamps_record_point limit history (mkDataPoint v now)).
  - intros Hlimit. rewrite timestamps_length. by apply record_point_length.
Qed.

(** One call of [update], whatever the class and whether it returns or
    raises: the limit is untouched, and the history is either untouched or
    the old one with one point stamped [env_now e] appended and then
    trimmed. *)
Lemma update_step objs e g h :
  let g' := fst (state_of (update objs e g h)) in
  history_limit g' = history_limit g /\
  (history_timestamps g' = history_timestamps g \/
   (history_timestamps g' `suffix_of` history_timestamps g ++ [env_now e] /\
    ((0 < history_limit g)%Z ->
     (Z.of_nat (length (history_timestamps g')) <= history_limit g)%Z))).
Proof.
  destruct g as [g | g | g | g]; cbn [update].
  - cbn. split; [reflexivity |]. right. apply recorded_step.
  - unfold StepDataGenerator.update.
    destruct (StepDataGenerator.values g) as [| v0 vs] eqn:Hvalues; cbn.
    { split; [reflexivity | by left]. }
    pose proof (advance_history (env_time e) g) as Hhist.
    pose proof (advance_history_limit (env_time e) g) as Hlim.
    destruct (StepDataGenerator.values _ !! _) as [v |]; cbn.
    2: { rewrite Hhist, Hlim. split; [reflexivity | by left]. }
    destruct (StepDataGenerator.must_record _ v); cbn.
    + rewrite Hhist, Hlim. split; [reflexivity |]. right. apply recorded_step.
    + rewrite Hhist, Hlim. split; [reflexivity | by left].
  - unfold OrderDataGenerator.update.
    destruct (randint _ _ _) as [err | id_increment]; cbn.
    { split; [reflexivity | by left]. }
    destruct (choice _ _) as [err | location]; cbn.
    { split; [reflexivity | by left]. }
    destruct (randint _ _ _) as [err | power_demand]; cbn.
    { split; [reflexivity | by left]. }
    split; [reflexivity |]. right. apply recorded_step.
  - unfold SumDataGenerator.update.
    destruct (negb _ || _); cbn.
    { split; [reflexivity | by left]. }
    destruct (foldl _ _ _) as [[h1 total] count].
    destruct count as [| count]; cbn.
    + split; [reflexivity | by left].
    + split; [reflexivity |]. right. apply recorded_step.
Qed.

Lemma StronglySorted_suffix_app (l l' r : list Z) :
  l' `suffix_of` l -> StronglySorted Z.le (l ++ r) -> StronglySorted Z.le (l' ++ r).
Proof.
  intros [k ->]. rewrite <- (assoc_L (++)). apply StronglySorted_app_1_r.
Qed.

Lemma StronglySorted_drop_middle (l r : list Z) (x : Z) :
  StronglySorted Z.le (l ++ x :: r) -> StronglySorted Z.le (l ++ r).
Proof.
  intros Hsorted. apply StronglySorted_app in Hsorted as (Hlr & Hl & Hr).
  apply StronglySorted_app. split_and!.
  - intros a b Ha Hb. apply Hlr; [done | by right].
  - exact Hl.
  - by apply StronglySorted_inv in Hr as [? _].
Qed.

Lemma updates_invariant calls : forall g h,
  (0 < history_limit g)%Z ->
  (Z.of_nat (length (history_timestamps g)) <= history_limit g)%Z ->
  StronglySorted Z.le (history_timestamps g ++ ((fun call => env_now (snd call)) <$> calls)) ->
  let g' := fst (updates calls g h) in
  history_limit g' = history_limit g /\
  (Z.of_nat (length (history_timestamps g')) <= history_limit g)%Z /\
  StronglySorted Z.le (history_timestamps g').
Proof.
  induction calls as [| [objs e] calls IH]; intros g h Hlimit Hlen Hsorted.
  - cbn. rewrite app_nil_r in Hsorted. done.
  - unfold updates. cbn [foldl fst snd].
    pose proof (update_step objs e g h) as [Hlim Hstep]. cbv zeta in Hlim, Hstep.
    destruct (state_of (update objs e g h)) as [g1 h1]. cbn [fst] in *.
    cbn [fmap list_fmap snd] in Hsorted.
    specialize (IH g1 h1). unfold updates in IH. cbv zeta in IH.
    rewrite Hlim in IH.
    apply IH; [done | |].
    + destruct Hstep as [-> | [_ Hbound]]; [done | by apply Hbound].
    + destruct Hstep as [-> | [Hsuffix _]].
      * by apply StronglySorted_drop_middle in Hsorted.
      * apply (StronglySorted_suffix_app _ _ _ Hsuffix).
        by rewrite <- (assoc_L (++)).
Qed.

(** ** C1: the history stays bounded and in time order *)

(** C1.  For each of the four generator classes, start from an object whose
    history respects its (positive) limit, and run any sequence of [update]
    calls during which the clock [datetime.now()] does not go backwards (the
    readings follow the stamps already stored and are non-decreasing).
    Afterwards the history holds at most [history_limit] points and their
    timestamps are non-decreasing in insertion order.  A freshly initialised
    object, whose history is empty, is such a start. *)
Theorem history_bounded_and_ordered (g : generator) (h : heap) (calls : list (objects * env)) :
  (0 < history_limit g)%Z ->
  (Z.of_nat (length (history_timestamps g)) <= history_limit g)%Z ->
  Sorted Z.le (history_timestamps g ++ ((fun call => env_now (snd call)) <$> calls)) ->
  let g' := fst (updates calls g h) in
  (Z.of_nat (length (history_timestamps g')) <= history_limit g')%Z /\
  Sorted Z.le (history_timestamps g').
Proof.
  intros Hlimit Hlen Hsorted.
  apply Sorted_StronglySorted in Hsorted; [| intros x y z; apply Z.le_trans].
  destruct (updates_invariant calls g h Hlimit Hlen Hsorted) as (Hlim & Hbound & Hs).
  cbv zeta. rewrite Hlim. split; [exact Hbound |].
  by apply StronglySorted_Sorted.
Qed.

Lemma history_bounded_and_ordered_witness :
  let cfg := mkConfig (Some "random") (Some 2%Z) None None None None None None None None None
                      None None None None in
  let g := Random (RandomDataGenerator.init cfg "A") in
  let call (now : Z) : objects * env := (∅, mkEnv now 0 "" (fun _ => 0%N)) in
  let g' := fst (updates [call 1%Z; call 2%Z; call 2%Z] g []) in
  history_timestamps g' = [2%Z; 2%Z] /\
  (Z.of_nat (length (history_timestamps g')) <= history_limit g')%Z /\
  Sorted Z.le (history_timestamps g').
Proof.
  split; [reflexivity |].
  apply (history_bounded_and_ordered
           (Random (RandomDataGenerator.init
                      (mkConfig (Some "random") (Some 2%Z) None None None None None None None
                                None None None None None None) "A")) []).
  - reflexivity.
  - cbn. lia.
  - cbn. repeat constructor; lia.
Defined.

(** ** C2: the random walk is clamped *)

Lemma Qlt_bool_true (a b : Q) : Qlt_bool a b = true -> (a < b)%Q.
Proof.
  unfold Qlt_bool. intros Hlt. apply Qnot_le_lt. intros Hle.
  apply Qle_bool_iff in Hle. rewrite Hle in Hlt. discriminate.
Qed.

Lemma Qlt_bool_false (a b : Q) : Qlt_bool a b = false -> (b <= a)%Q.
Proof.
  unfold Qlt_bool. intros Hlt. apply Qle_bool_iff.
  by destruct (Qle_bool b a).
Qed.

Ltac compare_rationals :=
  repeat match goal with
         | |- context [Qlt_bool ?a ?b] =>
             let H := fresh "Hcmp" in
             destruct (Qlt_bool a b) eqn:H;
             [apply Qlt_bool_true in H | apply Qlt_bool_false in H]
         end.

(** The nested [max(min_value, min(max_value, x))] of the code is the clamp
    of the specification whenever the bounds are in order. *)
Lemma clamp_refines (lo hi : option Q) (x : Q) :
  match lo, hi with Some a, Some b => (a <= b)%Q | _, _ => True end ->
  (RandomDataGenerator.max_with lo (RandomDataGenerator.min_with hi x)
   == RandomDataGenerator.clamp x lo hi)%Q.
Proof.
  intros Hbounds.
  unfold RandomDataGenerator.max_with, RandomDataGenerator.min_with,
    RandomDataGenerator.clamp, py_min.
  destruct lo as [a |], hi as [b |]; compare_rationals;
    unfold py_max; compare_rationals; lra.
Qed.

Lemma clamp_within (lo hi : option Q) (x : Q) :
  match lo, hi with Some a, Some b => (a <= b)%Q | _, _ => True end ->
  let y := RandomDataGenerator.max_with lo (RandomDataGenerator.min_with hi x) in
  match lo with Some a => (a <= y)%Q | None => True end /\
  match hi with Some b => (y <= b)%Q | None => True end.
Proof.
  intros Hbounds.
  unfold RandomDataGenerator.max_with, RandomDataGenerator.min_with, py_min.
  destruct lo as [a |], hi as [b |]; cbv zeta; compare_rationals;
    unfold py_max; compare_rationals; split; try done; lra.
Qed.

(** C2.  For a random-walk generator whose bounds satisfy
    [min_value <= max_value], one [update] sets [current_value] to a value
    within the bounds, whatever the drawn change and however far the
    unclamped sum lies outside them; that value is
    [clamp(previous + delta, min_value, max_value)], where [previous] is
    [base_value] when the history is empty and [current_value] otherwise; the
    point appended to the history carries exactly this value (and is the
    newest point of the history when the limit is positive); the bounds
    themselves are not changed by the call. *)
Theorem random_update_clamped (e : env) (self : RandomDataGenerator.t) :
  RandomDataGenerator.bounds_ordered self ->
  let delta := uniform (env_draw e 0) (fst (RandomDataGenerator.update_range self))
                       (snd (RandomDataGenerator.update_range self)) in
  let unclamped := (RandomDataGenerator.previous_value self + delta)%Q in
  let self' := RandomDataGenerator.update e self in
  let new_value := RandomDataGenerator.current_value self' in
  RandomDataGenerator.within_bounds self new_value /\
  (new_value == RandomDataGenerator.clamp unclamped (RandomDataGenerator.min_value self)
                  (RandomDataGenerator.max_value self))%Q /\
  RandomDataGenerator.history self'
  = record_point (RandomDataGenerator.history_limit self) (RandomDataGenerator.history self)
      (mkDataPoint new_value (env_now e)) /\
  ((0 < RandomDataGenerator.history_limit self)%Z ->
   last (RandomDataGenerator.history self') = Some (mkDataPoint new_value (env_now e))) /\
  RandomDataGenerator.min_value self' = RandomDataGenerator.min_value self /\
  RandomDataGenerator.max_value self' = RandomDataGenerator.max_value self.
Proof.
  intros Hbounds. cbv zeta.
  unfold RandomDataGenerator.update, RandomDataGenerator.previous_value.
  cbn [RandomDataGenerator.current_value RandomDataGenerator.history
       RandomDataGenerator.min_value RandomDataGenerator.max_value].
  split_and!.
  - apply clamp_within. exact Hbounds.
  - apply clamp_refines. exact Hbounds.
  - reflexivity.
  - intros Hlimit. by apply record_point_last.
  - reflexivity.
  - reflexivity.
Qed.

(** A walk at 9 with bounds [0, 10] that draws a change of +5: the unclamped
    value is 14 and 10 is recorded. *)
Lemma random_update_clamped_witness :
  let self := RandomDataGenerator.mk "A" 9 (5, 5)%Q (Some 0%Q) (Some 10%Q) 200 [] 0 in
  let self' := RandomDataGenerator.update (mkEnv 1 0 "" (fun _ => 0%N)) self in
  RandomDataGenerator.current_value self' = 10%Q /\
  RandomDataGenerator.within_bounds self (RandomDataGenerator.current_value self').
Proof.
  split; [reflexivity |].
  apply (random_update_clamped (mkEnv 1 0 "" (fun _ => 0%N))
           (RandomDataGenerator.mk "A" 9 (5, 5)%Q (Some 0%Q) (Some 10%Q) 200 [] 0)).
  vm_compute. discriminate.
Defined.

(** ** C6: a step generator records a value only when it changes *)

Lemma must_record_TlRel history v now :
  StepDataGenerator.must_record history v = true ->
  TlRel differ (mkDataPoint v now) history.
Proof.
  unfold StepDataGenerator.must_record. intros Hrec.
  destruct (last history) as [p |] eqn:Hlast.
  - apply last_Some in Hlast as [l' ->]. by constructor.
  - apply last_None in Hlast as ->. constructor.
Qed.

Lemma consecutive_differ_suffix (l1 l2 : list (DataPoint scalar)) :
  l1 `suffix_of` l2 -> consecutive_differ l2 -> consecutive_differ l1.
Proof.
  intros [k ->]. unfold consecutive_differ.
  induction k as [| x k IH]; [done |].
  intros Hsorted. apply IH. by apply Sorted_inv in Hsorted as [? _].
Qed.

(** What one call does to the history: nothing, or the computed value [v],
    different from the last recorded one, is appended and the buffer
    trimmed. *)
Lemma step_update_cases (e : env) (self : StepDataGenerator.t) :
  let self' := state_of (StepDataGenerator.update e self) in
  StepDataGenerator.history self' = StepDataGenerator.history self \/
  exists v,
    StepDataGenerator.values self
      !! StepDataGenerator.current_index (StepDataGenerator.advance (env_time e) self) = Some v /\
    StepDataGenerator.must_record (StepDataGenerator.history self) v = true /\
    StepDataGenerator.history self'
    = record_point (StepDataGenerator.history_limit self) (StepDataGenerator.history self)
        (mkDataPoint v (env_now e)).
Proof.
  cbv zeta. unfold StepDataGenerator.update.
  destruct (StepDataGenerator.values self) as [| v0 vs] eqn:Hvalues; [by left |].
  rewrite advance_values, Hvalues.
  destruct (_ !! _) as [v |] eqn:Hv; cbn [state_of].
  2: { left. apply advance_history. }
  rewrite advance_history, advance_history_limit.
  destruct (StepDataGenerator.must_record _ v) eqn:Hrec; cbn [state_of].
  - right. exists v. done.
  - left. apply advance_history.
Qed.

Lemma step_update_preserves (e : env) (self : StepDataGenerator.t) :
  consecutive_differ (StepDataGenerator.history self) ->
  consecutive_differ (StepDataGenerator.history (state_of (StepDataGenerator.update e self))).
Proof.
  intros Hinv.
  destruct (step_update_cases e self) as [-> | (v & _ & Hrec & ->)]; [done |].
  eapply consecutive_differ_suffix; [apply record_point_suffix |].
  apply Sorted_snoc; [exact Hinv | by apply must_record_TlRel].
Qed.

Lemma step_updates_preserve (es : list env) : forall self : StepDataGenerator.t,
  consecutive_differ (StepDataGenerator.history self) ->
  consecutive_differ (StepDataGenerator.history (StepDataGenerator.updates es self)).
Proof.
  unfold StepDataGenerator.updates.
  induction es as [| e es IH]; intros self Hinv; [done |].
  cbn [foldl]. apply IH. by apply step_update_preserves.
Qed.

(** C6.  Let [self] be a step generator after any sequence of [update] calls
    on the object [__init__] sets up, for any configuration, and let [update]
    be called once more.
    - With an empty [values] list the call returns the object unchanged.
    - The call changes the history only by appending the computed current
      value [v] (then trimming), and only when the history is empty or its
      last point's value differs from [v].
    - Before and after the call, no two consecutive points of the history
      have equal values. *)
Theorem step_records_only_changes (cfg : config) (name : string) (time0 : Q)
    (es : list env) (e : env) :
  let self := StepDataGenerator.updates es (StepDataGenerator.init cfg name time0) in
  let self' := state_of (StepDataGenerator.update e self) in
  (StepDataGenerator.values self = [] -> StepDataGenerator.update e self = Returns self) /\
  (StepDataGenerator.history self' = StepDataGenerator.history self \/
   exists v,
     StepDataGenerator.values self
       !! StepDataGenerator.current_index (StepDataGenerator.advance (env_time e) self)
     = Some v /\
     match last (StepDataGenerator.history self) with
     | None => True
     | Some p => py_ne (value p) v = true
     end /\
     StepDataGenerator.history self'
     = record_point (StepDataGenerator.history_limit self) (StepDataGenerator.history self)
         (mkDataPoint v (env_now e))) /\
  consecutive_differ (StepDataGenerator.history self) /\
  consecutive_differ (StepDataGenerator.history self').
Proof.
  intros self self'.
  assert (consecutive_differ (StepDataGenerator.history self)) as Hinv.
  { apply step_updates_preserve. constructor. }
  split_and!.
  - intros Hvalues. unfold StepDataGenerator.update. by rewrite Hvalues.
  - destruct (step_update_cases e self) as [Hsame | (v & Hv & Hrec & Hhist)]; [by left |].
    right. exists v. split_and!; [done | | done].
    unfold StepDataGenerator.must_record in Hrec.
    by destruct (last (StepDataGenerator.history self)).
  - exact Hinv.
  - by apply step_update_preserves.
Qed.

(** The values 5, 5.0, 7 in a loop without dwell time: the history is
    5.0, 7, 5 after three calls, and the fourth call, which computes 5.0
    again, records nothing. *)
Lemma step_records_only_changes_witness :
  let cfg := mkConfig (Some "step") None None None None None
                      (Some [SInt 5; SFloat 5; SInt 7]) (Some 0%Q) (Some true)
                      None None None None None None in
  let e := mkEnv 1 0 "" (fun _ => 0%N) in
  let self := StepDataGenerator.updates [e; e; e] (StepDataGenerator.init cfg "s" 0) in
  recorded (StepDataGenerator.history self) = [SFloat 5; SInt 7; SInt 5] /\
  recorded (StepDataGenerator.history (state_of (StepDataGenerator.update e self)))
  = [SFloat 5; SInt 7; SInt 5] /\
  consecutive_differ (StepDataGenerator.history (state_of (StepDataGenerator.update e self))).
Proof.
  split; [reflexivity |]. split; [reflexivity |].
  apply (step_records_only_changes
           (mkConfig (Some "step") None None None None None
                     (Some [SInt 5; SFloat 5; SInt 7]) (Some 0%Q) (Some true)
                     None None None None None None)
           "s" 0
           [mkEnv 1 0 "" (fun _ => 0%N); mkEnv 1 0 "" (fun _ => 0%N); mkEnv 1 0 "" (fun _ => 0%N)]
           (mkEnv 1 0 "" (fun _ => 0%N))).
Defined.

(** ** C5: the sequence 1, 2, 3 without dwell time *)

Lemma dwell_elapsed (t t' : Q) : (t <= t')%Q -> Qle_bool 0 (t' - t) = true.
Proof. intros Hle. apply Qle_bool_iff. lra. Qed.

(** The constructor's own [update] already moves to index 1 and records 2. *)
Lemma one_two_three_new (name : string) (time0 : Q) (e : env) :
  (time0 <= env_time e)%Q ->
  StepDataGenerator.new one_two_three name time0 e
  = Returns (StepDataGenerator.mk name [SInt 1; SInt 2; SInt 3] 0 false 1 (env_time e) 200
               [mkDataPoint (SInt 2) (env_now e)] (SInt 2)).
Proof.
  intros Hle. unfold StepDataGenerator.new, StepDataGenerator.update, StepDataGenerator.advance.
  cbn. rewrite (dwell_elapsed _ _ Hle). reflexivity.
Qed.

Lemma one_two_three_second (name : string) (t : Q) (now0 : Z) (e : env) :
  (t <= env_time e)%Q ->
  StepDataGenerator.update e
    (StepDataGenerator.mk name [SInt 1; SInt 2; SInt 3] 0 false 1 t 200
       [mkDataPoint (SInt 2) now0] (SInt 2))
  = Returns (StepDataGenerator.mk name [SInt 1; SInt 2; SInt 3] 0 false 2 (env_time e) 200
               [mkDataPoint (SInt 2) now0; mkDataPoint (SInt 3) (env_now e)] (SInt 3)).
Proof.
  intros Hle. unfold StepDataGenerator.update, StepDataGenerator.advance.
  cbn. rewrite (dwell_elapsed _ _ Hle). reflexivity.
Qed.

Lemma one_two_three_held (name : string) (t : Q) (now0 now1 : Z) (e : env) :
  (t <= env_time e)%Q ->
  StepDataGenerator.update e
    (StepDataGenerator.mk name [SInt 1; SInt 2; SInt 3] 0 false 2 t 200
       [mkDataPoint (SInt 2) now0; mkDataPoint (SInt 3) now1] (SInt 3))
  = Returns (StepDataGenerator.mk name [SInt 1; SInt 2; SInt 3] 0 false 2 (env_time e) 200
               [mkDataPoint (SInt 2) now0; mkDataPoint (SInt 3) now1] (SInt 3)).
Proof.
  intros Hle. unfold StepDataGenerator.update, StepDataGenerator.advance.
  cbn. rewrite (dwell_elapsed _ _ Hle). reflexivity.
Qed.

Lemma one_two_three_held_run (name : string) (now0 now1 : Z) (es : list env) : forall t : Q,
  Sorted Qle (t :: (env_time <$> es)) ->
  let self := StepDataGenerator.updates es
                (StepDataGenerator.mk name [SInt 1; SInt 2; SInt 3] 0 false 2 t 200
                   [mkDataPoint (SInt 2) now0; mkDataPoint (SInt 3) now1] (SInt 3)) in
  StepDataGenerator.history self = [mkDataPoint (SInt 2) now0; mkDataPoint (SInt 3) now1] /\
  StepDataGenerator.current_value self = SInt 3 /\
  StepDataGenerator.current_index self = 2.
Proof.
  induction es as [| e es IH]; intros t Hsorted; [done |].
  cbn [fmap list_fmap] in Hsorted.
  apply Sorted_inv in Hsorted as [Hsorted Hhd]. apply HdRel_inv in Hhd.
  unfold StepDataGenerator.updates. cbn [foldl].
  rewrite (one_two_three_held _ _ _ _ _ Hhd). cbn [state_of].
  apply (IH (env_time e) Hsorted).
Qed.

(** C5, as the code has it.  Build a step generator from [values = [1, 2, 3]],
    [dwell_time = 0], [loop = false] and call [update] at least once more,
    with clock readings that do not go backwards.  The recorded values are
    exactly 2, 3: the [update] performed by the constructor already moves
    from index 0 to index 1, so 1 is never recorded.  From then on every
    [update] leaves the history and the current value 3 as they are, the
    index held at the last position. *)
Theorem one_two_three_records_2_3 (name : string) (time0 : Q) (e0 e1 : env) (es : list env) :
  Sorted Qle (time0 :: env_time e0 :: env_time e1 :: (env_time <$> es)) ->
  let self := StepDataGenerator.updates (e1 :: es)
                (state_of (StepDataGenerator.new one_two_three name time0 e0)) in
  recorded (StepDataGenerator.history self) = [SInt 2; SInt 3] /\
  StepDataGenerator.current_value self = SInt 3 /\
  StepDataGenerator.current_index self = 2.
Proof.
  intros Hsorted.
  apply Sorted_inv in Hsorted as [Hsorted H0]. apply HdRel_inv in H0.
  apply Sorted_inv in Hsorted as [Hsorted H1]. apply HdRel_inv in H1.
  cbv zeta. rewrite (one_two_three_new _ _ _ H0). cbn [state_of].
  unfold StepDataGenerator.updates. cbn [foldl].
  rewrite (one_two_three_second _ _ _ _ H1). cbn [state_of].
  destruct (one_two_three_held_run name (env_now e0) (env_now e1) es (env_time e1) Hsorted)
    as (Hhist & Hvalue & Hindex).
  unfold StepDataGenerator.updates in Hhist, Hvalue, Hindex.
  rewrite Hhist, Hvalue, Hindex. done.
Qed.

Lemma one_two_three_records_2_3_witness :
  let e (t : Z) := mkEnv t (inject_Z t) "" (fun _ => 0%N) in
  let self := StepDataGenerator.updates [e 2%Z; e 3%Z; e 4%Z]
                (state_of (StepDataGenerator.new one_two_three "s" 0 (e 1%Z))) in
  recorded (StepDataGenerator.history self) = [SInt 2; SInt 3] /\
  StepDataGenerator.current_value self = SInt 3 /\
  StepDataGenerator.current_index self = 2.
Proof.
  apply (one_two_three_records_2_3 "s" 0
           (mkEnv 1 (inject_Z 1) "" (fun _ => 0%N))
           (mkEnv 2 (inject_Z 2) "" (fun _ => 0%N))
           [mkEnv 3 (inject_Z 3) "" (fun _ => 0%N); mkEnv 4 (inject_Z 4) "" (fun _ => 0%N)]).
  cbn. repeat constructor; vm_compute; discriminate.
Defined.

(** The claim at a concrete run: initialised at time 0, the constructor's
    update at time 1, then three calls of [update] at times 2, 3 and 4.  Time
    elapses between all of them, and the recorded sequence is 2, 3, not
    1, 2, 3. *)
Lemma one_two_three_counterexample :
  let e (t : Z) := mkEnv t (inject_Z t) "" (fun _ => 0%N) in
  let self := StepDataGenerator.updates [e 2%Z; e 3%Z; e 4%Z]
                (state_of (StepDataGenerator.new one_two_three "s" 0 (e 1%Z))) in
  recorded (StepDataGenerator.history self) = [SInt 2; SInt 3] /\
  recorded (StepDataGenerator.history self) <> [SInt 1; SInt 2; SInt 3].
Proof. split; [reflexivity | discriminate]. Qed.

(** ** The random draws *)

Lemma randint_inr (r : N) (a b : Z) :
  (a <= b)%Z -> exists d, randint r a b = inr d /\ (a <= d <= b)%Z.
Proof.
  intros Hab. unfold randint.
  destruct (Z.leb_spec a b) as [_ | Hlt]; [| lia].
  eexists. split; [reflexivity |].
  pose proof (Z.mod_pos_bound (Z.of_N r) (b - a + 1)). lia.
Qed.

Lemma randint_range (r : N) (a b d : Z) : randint r a b = inr d -> (a <= d <= b)%Z.
Proof.
  unfold randint. destruct (Z.leb_spec a b) as [Hab | Hlt]; [| discriminate].
  intros [= <-].
  pose proof (Z.mod_pos_bound (Z.of_N r) (b - a + 1)). lia.
Qed.

Lemma choice_inr {A : Type} (r : N) (seq : list A) :
  seq <> [] -> exists x, choice r seq = inr x /\ x ∈ seq.
Proof.
  intros Hseq. unfold choice.
  assert (N.to_nat r mod length seq < length seq) as Hlt.
  { apply Nat.mod_upper_bound. by destruct seq. }
  apply lookup_lt_is_Some in Hlt as [x Hx].
  exists x. rewrite Hx. split; [reflexivity |].
  by apply list_elem_of_lookup_2 in Hx.
Qed.

(** ** C7: the order id *)

(** One call advances the id by the drawn increment, or raises at the first
    draw and leaves the object alone. *)
Lemma order_update_id (e : env) (self : OrderDataGenerator.t) (h : heap) :
  let self' := fst (state_of (OrderDataGenerator.update e self h)) in
  OrderDataGenerator.id_increment_range self' = OrderDataGenerator.id_increment_range self /\
  OrderDataGenerator.order_id_base self' = OrderDataGenerator.order_id_base self /\
  match randint (env_draw e 0) (fst (OrderDataGenerator.id_increment_range self))
                (snd (OrderDataGenerator.id_increment_range self)) with
  | inr d => OrderDataGenerator.current_order_id self'
             = (OrderDataGenerator.current_order_id self + d)%Z
  | inl _ => OrderDataGenerator.update e self h = Raises ValueError (self, h)
  end.
Proof.
  cbv zeta. unfold OrderDataGenerator.update.
  destruct (randint (env_draw e 0) _ _) as [err | d] eqn:Hd.
  { unfold randint in Hd. destruct (_ <=? _)%Z; [discriminate |].
    injection Hd as <-. done. }
  destruct (choice _ _) as [? | location]; [done |].
  destruct (randint (env_draw e 2) _ _) as [? | power_demand]; done.
Qed.

Lemma order_updates_id (es : list env) : forall (self : OrderDataGenerator.t) (h : heap),
  let lo := fst (OrderDataGenerator.id_increment_range self) in
  let hi := snd (OrderDataGenerator.id_increment_range self) in
  (lo <= hi)%Z ->
  let self' := fst (order_updates es self h) in
  (OrderDataGenerator.current_order_id self + lo * Z.of_nat (length es)
   <= OrderDataGenerator.current_order_id self'
   <= OrderDataGenerator.current_order_id self + hi * Z.of_nat (length es))%Z.
Proof.
  induction es as [| e es IH]; intros self h lo hi Hrange; [cbn; lia |].
  unfold order_updates. cbn [foldl fst snd].
  pose proof (order_update_id e self h) as (Hsame & _ & Hid). cbv zeta in Hsame, Hid.
  destruct (randint_inr (env_draw e 0) lo hi Hrange) as (d & Hd & Hbounds).
  fold lo hi in Hid. rewrite Hd in Hid.
  destruct (state_of (OrderDataGenerator.update e self h)) as [self1 h1]. cbn [fst] in *.
  specialize (IH self1 h1). cbv zeta in IH. unfold order_updates in IH.
  rewrite Hsame in IH. fold lo hi in IH. specialize (IH Hrange).
  rewrite Hid in IH. cbn [length]. nia.
Qed.

(** C7, as the code has it.  Let the increment range [lo, hi] of an order
    generator satisfy [1 <= lo <= hi].  Then every [update] call strictly
    increases [current_order_id], by an integer of [lo..hi], even when the
    call later raises; after [n] calls the id has advanced by between [lo * n]
    and [hi * n].  With [id_increment_range = [1, 1]] and
    [order_id_base = 1000] the id is seeded with 1000 and is 1003 after three
    updates, the first of which is the one the constructor performs: it is
    1001 once the object is constructed and 1004 after three further calls. *)
Theorem order_id_strictly_increasing (self : OrderDataGenerator.t) (h : heap)
    (e : env) (es : list env) :
  let lo := fst (OrderDataGenerator.id_increment_range self) in
  let hi := snd (OrderDataGenerator.id_increment_range self) in
  (1 <= lo)%Z -> (lo <= hi)%Z ->
  let after (g : OrderDataGenerator.t * heap) := OrderDataGenerator.current_order_id (fst g) in
  (OrderDataGenerator.current_order_id self
   < after (state_of (OrderDataGenerator.update e self h)))%Z /\
  (lo <= after (state_of (OrderDataGenerator.update e self h))
         - OrderDataGenerator.current_order_id self <= hi)%Z /\
  (OrderDataGenerator.current_order_id self + lo * Z.of_nat (length es)
   <= after (order_updates es self h)
   <= OrderDataGenerator.current_order_id self + hi * Z.of_nat (length es))%Z /\
  (forall name e1 e2 e3 e4 h0,
     let seeded := OrderDataGenerator.init (order_config 1000 (1, 1)%Z) name in
     let constructed := state_of (OrderDataGenerator.new (order_config 1000 (1, 1)%Z) name e1 h0) in
     OrderDataGenerator.current_order_id seeded = 1000%Z /\
     after constructed = 1001%Z /\
     after (order_updates [e1; e2; e3] seeded h0) = 1003%Z /\
     after (order_updates [e2; e3; e4] (fst constructed) (snd constructed)) = 1004%Z).
Proof.
  intros lo hi Hlo Hrange after.
  pose proof (order_update_id e self h) as (_ & _ & Hid). cbv zeta in Hid.
  destruct (randint_inr (env_draw e 0) lo hi Hrange) as (d & Hd & Hbounds).
  fold lo hi in Hid. rewrite Hd in Hid.
  refine (conj _ (conj _ (conj _ _))).
  - unfold after. rewrite Hid. lia.
  - unfold after. rewrite Hid. lia.
  - apply (order_updates_id es self h Hrange).
  - intros name e1 e2 e3 e4 h0 seeded constructed.
    assert (forall es g h1,
              OrderDataGenerator.id_increment_range g = (1, 1)%Z ->
              after (order_updates es g h1)
              = (OrderDataGenerator.current_order_id g + Z.of_nat (length es))%Z) as Hrun.
    { intros es' g h1 Hg.
      pose proof (order_updates_id es' g h1) as Hb. cbv zeta in Hb. rewrite Hg in Hb.
      cbn [fst snd] in Hb. unfold after. lia. }
    split_and!.
    + reflexivity.
    + apply (Hrun [e1] seeded h0). reflexivity.
    + apply (Hrun [e1; e2; e3] seeded h0). reflexivity.
    + change (fst constructed, snd constructed) with
        (fst (order_updates [e1] seeded h0), snd (order_updates [e1] seeded h0)).
      rewrite (Hrun [e2; e3; e4]).
      * change (OrderDataGenerator.current_order_id (fst constructed)) with
          (after (order_updates [e1] seeded h0)).
        rewrite (Hrun [e1] seeded h0); reflexivity.
      * pose proof (order_update_id e1 seeded h0) as (Hsame & _). exact Hsame.
Qed.

(** The default range [1, 10] with a draw that yields 5. *)
Lemma order_id_strictly_increasing_witness :
  let self := OrderDataGenerator.init (order_config 1000 (1, 10)%Z) "o" in
  let e := mkEnv 1 0 "2026-01-01 00:00" (fun _ => 4%N) in
  OrderDataGenerator.current_order_id (fst (state_of (OrderDataGenerator.update e self [])))
  = 1005%Z /\
  (OrderDataGenerator.current_order_id self
   < OrderDataGenerator.current_order_id
       (fst (state_of (OrderDataGenerator.update e self []))))%Z.
Proof.
  split; [reflexivity |].
  apply (order_id_strictly_increasing
           (OrderDataGenerator.init (order_config 1000 (1, 10)%Z) "o") []
           (mkEnv 1 0 "2026-01-01 00:00" (fun _ => 4%N)) []).
  - cbn. lia.
  - cbn. lia.
Defined.

(** The claim at two concrete inputs.  With [id_increment_range = [0, 0]] the
    call returns and the id is what it was; with [[1, 1]] and base 1000, a
    constructed generator that is updated three times has the id 1004. *)
Lemma order_id_counterexample :
  let e := mkEnv 1 0 "2026-01-01 00:00" (fun _ => 0%N) in
  let stuck := OrderDataGenerator.init (order_config 1000 (0, 0)%Z) "o" in
  let constructed := state_of (OrderDataGenerator.new (order_config 1000 (1, 1)%Z) "o" e []) in
  returned (OrderDataGenerator.update e stuck []) = true /\
  OrderDataGenerator.current_order_id (fst (state_of (OrderDataGenerator.update e stuck [])))
  = OrderDataGenerator.current_order_id stuck /\
  OrderDataGenerator.current_order_id
    (fst (order_updates [e; e; e] (fst constructed) (snd constructed))) = 1004%Z.
Proof. split_and!; reflexivity. Qed.

(** ** C10: what the constructors do *)

Lemma first_point_kept {V : Type} (limit : Z) (p : DataPoint V) :
  (0 < limit)%Z -> record_point limit [] p = [p].
Proof.
  intros Hlimit. unfold record_point. cbn [app length].
  destruct (Z.gtb_spec (Z.of_nat 1) limit); [lia | reflexivity].
Qed.

(** C10, as the code has it.  Let a configured [history_limit], if any, be
    positive.  The constructors of the three non-aggregate classes are their
    [__init__] assignments followed by one [update]:
    - a random generator is constructed with exactly one point in its
      history;
    - so is a step generator whose [values] are not empty (the constructor
      returns);
    - an order generator whose two ranges and whose [locations] are not empty
      is constructed, and whenever its constructor returns, the history holds
      exactly one point and [current_order_id] is [order_id_base] plus one
      increment drawn from [id_increment_range], which exceeds
      [order_id_base] when the range starts at 1 or above.
    The constructor of a sum generator performs no update: its history is
    empty and its value is 0.0. *)
Theorem constructors_update_once (cfg : config) (name : string) (time0 : Q) (e : env)
    (h : heap) (object_manager : bool) :
  (forall limit, cfg_history_limit cfg = Some limit -> (0 < limit)%Z) ->
  (RandomDataGenerator.new cfg name e = RandomDataGenerator.update e (RandomDataGenerator.init cfg name) /\
   length (RandomDataGenerator.history (RandomDataGenerator.new cfg name e)) = 1) /\
  (StepDataGenerator.new cfg name time0 e
   = StepDataGenerator.update e (StepDataGenerator.init cfg name time0) /\
   (cfg_values cfg <> Some [] ->
    exists g, StepDataGenerator.new cfg name time0 e = Returns g /\
              length (StepDataGenerator.history g) = 1)) /\
  (OrderDataGenerator.new cfg name e h
   = OrderDataGenerator.update e (OrderDataGenerator.init cfg name) h /\
   (let g0 := OrderDataGenerator.init cfg name in
    (fst (OrderDataGenerator.id_increment_range g0) <= snd (OrderDataGenerator.id_increment_range g0))%Z ->
    OrderDataGenerator.locations g0 <> [] ->
    (fst (OrderDataGenerator.power_demand_range g0) <= snd (OrderDataGenerator.power_demand_range g0))%Z ->
    returned (OrderDataGenerator.new cfg name e h) = true) /\
   (forall g h', OrderDataGenerator.new cfg name e h = Returns (g, h') ->
      length (OrderDataGenerator.history g) = 1 /\
      exists d, randint (env_draw e 0) (fst (OrderDataGenerator.id_increment_range g))
                        (snd (OrderDataGenerator.id_increment_range g)) = inr d /\
                OrderDataGenerator.current_order_id g = (OrderDataGenerator.order_id_base g + d)%Z /\
                ((1 <= fst (OrderDataGenerator.id_increment_range g))%Z ->
                 (OrderDataGenerator.order_id_base g < OrderDataGenerator.current_order_id g)%Z))) /\
  (SumDataGenerator.history (SumDataGenerator.new cfg name object_manager) = [] /\
   SumDataGenerator.current_value (SumDataGenerator.new cfg name object_manager) = 0%Q).
Proof.
  intros Hlimit.
  assert (forall d, (0 < d)%Z -> (0 < default d (cfg_history_limit cfg))%Z) as Hpos.
  { intros d Hd. destruct (cfg_history_limit cfg) as [limit |] eqn:Hcfg; [by apply Hlimit | done]. }
  refine (conj _ (conj _ (conj _ _))).
  - split; [reflexivity |].
    unfold RandomDataGenerator.new, RandomDataGenerator.update. cbn.
    rewrite first_point_kept by (apply Hpos; lia). reflexivity.
  - split; [reflexivity |]. intros Hvalues.
    unfold StepDataGenerator.new, StepDataGenerator.update.
    rewrite advance_values, advance_history, advance_history_limit.
    cbn [StepDataGenerator.init StepDataGenerator.values StepDataGenerator.history
         StepDataGenerator.history_limit].
    assert (exists v vs, default [SFloat 0] (cfg_values cfg) = v :: vs) as (v & vs & Hvs).
    { destruct (cfg_values cfg) as [[| v vs] |]; [done | by eauto | by eauto]. }
    rewrite Hvs.
    assert (exists x, (v :: vs) !! StepDataGenerator.current_index
              (StepDataGenerator.advance (env_time e) (StepDataGenerator.init cfg name time0))
            = Some x) as [x Hx].
    { apply lookup_lt_is_Some.
      unfold StepDataGenerator.advance. cbn. rewrite Hvs.
      destruct (Qle_bool _ _); cbn; [| lia].
      destruct (_ <? _)%Z eqn:Hcmp.
      - apply Z.ltb_lt in Hcmp. lia.
      - destruct (default true (cfg_loop cfg)); cbn; lia. }
    rewrite Hx. cbn [StepDataGenerator.must_record last].
    eexists. split; [reflexivity |]. cbn.
    rewrite first_point_kept by (apply Hpos; lia). reflexivity.
  - refine (conj _ (conj _ _)); [reflexivity | |].
    + intros g0 Hid Hloc Hpd. unfold OrderDataGenerator.new, OrderDataGenerator.update.
      fold g0.
      destruct (randint_inr (env_draw e 0) _ _ Hid) as (d & -> & _).
      destruct (choice_inr (env_draw e 1) _ Hloc) as (location & Hchoice & _).
      cbn [OrderDataGenerator.set_current_order_id OrderDataGenerator.locations
           OrderDataGenerator.power_demand_range OrderDataGenerator.history_limit
           OrderDataGenerator.history OrderDataGenerator.current_order_id].
      rewrite Hchoice.
      destruct (randint_inr (env_draw e 2) _ _ Hpd) as (pd & -> & _).
      reflexivity.
    + intros g h'. unfold OrderDataGenerator.new, OrderDataGenerator.update.
      destruct (randint (env_draw e 0) _ _) as [? | d] eqn:Hd; [discriminate |].
      destruct (choice _ _) as [? | location]; [discriminate |].
      destruct (randint (env_draw e 2) _ _) as [? | pd]; [discriminate |].
      cbn. intros [= <- <-]. cbn.
      rewrite first_point_kept by (apply Hpos; lia).
      split; [reflexivity |].
      exists d. split; [exact Hd |]. split; [reflexivity |].
      intros Hlo. apply randint_range in Hd. cbn in Hd. lia.
  - done.
Qed.

Lemma constructors_update_once_witness :
  let cfg := mkConfig (Some "random") (Some 5%Z) (Some 3%Q) None None None None None None None
                      None None None None None in
  let e := mkEnv 1 0 "2026-01-01 00:00" (fun _ => 0%N) in
  length (RandomDataGenerator.history (RandomDataGenerator.new cfg "A" e)) = 1 /\
  SumDataGenerator.history (SumDataGenerator.new cfg "A" true) = [].
Proof.
  pose proof (constructors_update_once
                (mkConfig (Some "random") (Some 5%Z) (Some 3%Q) None None None None None None
                          None None None None None None)
                "A" 0 (mkEnv 1 0 "2026-01-01 00:00" (fun _ => 0%N)) [] true) as Hnew.
  destruct Hnew as ((_ & Hrandom) & _ & _ & (Hsum & _)).
  - intros limit Hcfg. cbn in Hcfg. injection Hcfg as <-. lia.
  - split; [exact Hrandom | exact Hsum].
Defined.

(** The claim at a concrete input: an order generator configured with
    [id_increment_range = [0, 0]] is constructed, has one order in its
    history, and its id is still [order_id_base]. *)
Lemma constructors_counterexample :
  let e := mkEnv 1 0 "2026-01-01 00:00" (fun _ => 0%N) in
  let constructed := OrderDataGenerator.new (order_config 1000 (0, 0)%Z) "o" e [] in
  returned constructed = true /\
  length (OrderDataGenerator.history (fst (state_of constructed))) = 1 /\
  OrderDataGenerator.current_order_id (fst (state_of constructed))
  = OrderDataGenerator.order_id_base (fst (state_of constructed)) /\
  ~ (OrderDataGenerator.order_id_base (fst (state_of constructed))
     < OrderDataGenerator.current_order_id (fst (state_of constructed)))%Z.
Proof. split_and!; [reflexivity | reflexivity | reflexivity | vm_compute; discriminate]. Qed.

(** ** C8: the history accessors and their count *)

(** The points an order generator walks over, by the sign and size of
    [count]. *)
Lemma history_points_cases (count : option Z) (self : OrderDataGenerator.t) :
  let history := OrderDataGenerator.history self in
  OrderDataGenerator.history_points count self =
  match count with
  | None => history
  | Some c =>
      if (c >=? Z.of_nat (length history))%Z then history
      else if (0 <? c)%Z then drop (length history - Z.to_nat c) history
      else if (c =? 0)%Z then history
      else drop (Z.to_nat (- c)) history
  end.
Proof.
  cbv zeta. unfold OrderDataGenerator.history_points.
  destruct count as [c |]; [| reflexivity].
  destruct (Z.geb_spec c (Z.of_nat (length (OrderDataGenerator.history self)))); [reflexivity |].
  destruct (Z.ltb_spec 0 c).
  { apply slice_last_drop; lia. }
  destruct (Z.eqb_spec c 0) as [-> | Hne].
  { apply slice_last_zero. }
  apply slice_last_negative. lia.
Qed.

Lemma history_points_asked (count : option Z) (self : OrderDataGenerator.t) :
  OrderDataGenerator.history_points count self
  = asked_points count (OrderDataGenerator.history self).
Proof.
  rewrite history_points_cases. cbv zeta. unfold asked_points.
  destruct count as [c |]; [| reflexivity].
  destruct (Z.geb_spec c (Z.of_nat (length (OrderDataGenerator.history self)))) as [Hall | Hless].
  - destruct (Z.ltb_spec 0 c) as [Hpos | Hneg].
    + replace (length (OrderDataGenerator.history self) - Z.to_nat c) with 0 by lia.
      reflexivity.
    + destruct (OrderDataGenerator.history self) as [| point history]; [by rewrite drop_nil |].
      cbn [length] in Hall. lia.
  - destruct (Z.ltb_spec 0 c) as [Hpos | Hneg]; [reflexivity |].
    destruct (Z.eqb_spec c 0) as [-> | Hne]; reflexivity.
Qed.

(** For the three other classes the route applies the count itself and
    guards it with [count > 0]: a count that is absent, not positive, or at
    least the length gives the whole history. *)
Lemma get_object_history_whole (g : generator) (count : option Z) (h : heap) :
  match g with Order _ => False | _ => True end ->
  match count with
  | None => True
  | Some c => (c <= 0)%Z \/ (Z.of_nat (length (get_history g)) <= c)%Z
  end ->
  get_object_history g count h = (h, get_history g).
Proof.
  intros Hclass Hcount.
  destruct g as [g | g | g | g]; [| | done |];
    (destruct count as [c |]; [| reflexivity]; cbn [get_object_history];
     destruct (Z.gtb_spec c 0) as [Hpos | Hle]; [| reflexivity];
     destruct Hcount as [Hle | Hlen]; [lia |];
     by rewrite slice_last_all).
Qed.

(** C8 at the failing input.  An order generator holds three orders, stamped
    1, 2 and 3.  Asked for its history with [count = -1], through the route
    or directly, it answers with the two newest orders only, although the
    count is not positive; with [count = 0] and with no count it answers with
    all three.  A random generator with three points, asked with
    [count = -1] through the same route, answers with all three. *)
Theorem order_history_negative_count :
  let e (t : Z) := mkEnv t (inject_Z t) "2026-01-01 00:00" (fun _ => 0%N) in
  let constructed := state_of (OrderDataGenerator.new (order_config 1000 (1, 1)%Z) "o" (e 1%Z) []) in
  let orders := order_updates [e 2%Z; e 3%Z] (fst constructed) (snd constructed) in
  let stamps (answer : heap * list point_dict) := pd_timestamp <$> snd answer in
  let walk := RandomDataGenerator.update (e 3%Z) (RandomDataGenerator.update (e 2%Z)
                (RandomDataGenerator.new empty_config "r" (e 1%Z))) in
  timestamps (OrderDataGenerator.history (fst orders)) = [1; 2; 3]%Z /\
  stamps (get_object_history (Order (fst orders)) (Some (-1)%Z) (snd orders)) = [2; 3]%Z /\
  stamps (OrderDataGenerator.get_history (Some (-1)%Z) (fst orders) (snd orders)) = [2; 3]%Z /\
  stamps (get_object_history (Order (fst orders)) (Some 0%Z) (snd orders)) = [1; 2; 3]%Z /\
  stamps (get_object_history (Order (fst orders)) None (snd orders)) = [1; 2; 3]%Z /\
  stamps (get_object_history (Random walk) (Some (-1)%Z) (snd orders)) = [1; 2; 3]%Z.
Proof. split_and!; reflexivity. Qed.

(** ** C9: the accessors format copies *)

Lemma deref_prefix (h h' : heap) (l : loc) :
  l < length h -> h `prefix_of` h' -> deref h' l = deref h l.
Proof.
  intros Hl Hprefix. unfold deref.
  apply lookup_lt_is_Some in Hl as [d Hd].
  by rewrite (prefix_lookup_Some _ _ _ _ Hd Hprefix), Hd.
Qed.

Lemma stored_order_prefix (h h' : heap) (point : DataPoint loc) :
  h `prefix_of` h' -> stored_order h point -> stored_order h' point.
Proof.
  intros Hprefix [Hl [pd Hpd]]. split.
  - apply prefix_length in Hprefix. lia.
  - exists pd. by rewrite (deref_prefix h h').
Qed.

(** The copy is a new object, it is the one that is written to, and every
    object that existed before is what it was. *)
Lemma formatted_copy_spec (self : OrderDataGenerator.t) (h : heap) (stored : loc)
    (power_demand : Z) :
  OrderDataGenerator.unit self <> "" ->
  stored < length h ->
  deref h stored !! "power_demand" = Some (FInt power_demand) ->
  OrderDataGenerator.formatted_copy (VDict stored) self h
  = (h ++ [rendered (OrderDataGenerator.unit self) (deref h stored) power_demand], length h).
Proof.
  intros Hunit Hstored Hpd.
  unfold OrderDataGenerator.formatted_copy, dict_copy, alloc.
  assert (deref (h ++ [deref h stored]) stored = deref h stored) as ->.
  { apply deref_prefix; [done | by apply prefix_app_r]. }
  rewrite Hpd, bool_decide_true by done.
  unfold setitem.
  rewrite <- (Nat.add_0_r (length h)) at 1. rewrite alter_app_r.
  reflexivity.
Qed.

Lemma format_points_spec (self : OrderDataGenerator.t) (h0 : heap)
    (points : list (DataPoint loc)) : forall (h : heap) (acc : list point_dict),
  OrderDataGenerator.unit self <> "" ->
  h0 `prefix_of` h ->
  Forall (stored_order h0) points ->
  exists h' items,
    foldl (OrderDataGenerator.format_point self) (h, acc) points = (h', acc ++ items) /\
    h `prefix_of` h' /\
    Forall2 (formatted_item (OrderDataGenerator.unit self) h0 h') points items.
Proof.
  induction points as [| point points IH]; intros h acc Hunit Hprefix Hstored.
  - exists h, []. rewrite app_nil_r. done.
  - apply Forall_cons in Hstored as [[Hl [pd Hpd]] Hstored].
    cbn [foldl]. unfold OrderDataGenerator.format_point at 2. cbn [to_dict pd_value pd_timestamp].
    assert (value point < length h) as Hl'.
    { apply prefix_length in Hprefix. lia. }
    rewrite (formatted_copy_spec self h (value point) pd Hunit Hl')
      by (by rewrite (deref_prefix h0 h)).
    rewrite (deref_prefix h0 h) by done.
    set (copy := rendered _ _ _).
    destruct (IH (h ++ [copy]) (acc ++ [mkPointDict (VDict (length h)) (timestamp point)]))
      as (h' & items & Hfold & Hext & Hitems); [done | by apply prefix_app_r | done |].
    exists h', (mkPointDict (VDict (length h)) (timestamp point) :: items).
    split_and!.
    + rewrite Hfold. by rewrite <- (assoc_L (++)).
    + etrans; [| exact Hext]. by apply prefix_app_r.
    + constructor; [| exact Hitems].
      exists pd, (length h). split_and!; try done.
      * by apply prefix_length.
      * eapply prefix_lookup_Some; [| exact Hext].
        by rewrite list_lookup_middle.
Qed.

Lemma history_points_suffix (count : option Z) (self : OrderDataGenerator.t) :
  OrderDataGenerator.history_points count self `suffix_of` OrderDataGenerator.history self.
Proof.
  unfold OrderDataGenerator.history_points.
  destruct count as [c |]; [| done].
  destruct (_ >=? _)%Z; [done | apply slice_last_suffix].
Qed.

Lemma get_history_spec (count : option Z) (self : OrderDataGenerator.t) (h : heap) :
  OrderDataGenerator.unit self <> "" ->
  orders_stored self h ->
  exists h' items,
    OrderDataGenerator.get_history count self h = (h', items) /\
    h `prefix_of` h' /\
    Forall2 (formatted_item (OrderDataGenerator.unit self) h h')
            (OrderDataGenerator.history_points count self) items.
Proof.
  intros Hunit Hstored. unfold OrderDataGenerator.get_history.
  destruct (format_points_spec self h (OrderDataGenerator.history_points count self) h [])
    as (h' & items & Hfold & Hext & Hitems); [done | done | | by eauto].
  destruct (history_points_suffix count self) as [k Hk].
  unfold orders_stored in Hstored. rewrite Hk in Hstored.
  by apply Forall_app in Hstored as [_ ?].
Qed.

Lemma get_current_data_spec (self : OrderDataGenerator.t) (h : heap) (latest : DataPoint loc) :
  OrderDataGenerator.unit self <> "" ->
  orders_stored self h ->
  last (OrderDataGenerator.history self) = Some latest ->
  exists power_demand : Z,
    deref h (value latest) !! "power_demand" = Some (FInt power_demand) /\
    OrderDataGenerator.get_current_data self h
    = (h ++ [rendered (OrderDataGenerator.unit self) (deref h (value latest)) power_demand],
       mkSnapshot (OrderDataGenerator.name self) (VDict (length h)) (Some (timestamp latest))).
Proof.
  intros Hunit Hstored Hlast. unfold OrderDataGenerator.get_current_data. rewrite Hlast.
  apply last_Some in Hlast as [l' Hl'].
  unfold orders_stored in Hstored. rewrite Hl' in Hstored.
  apply Forall_app in Hstored as [_ Hlatest].
  apply Forall_singleton in Hlatest as [Hl [pd Hpd]].
  exists pd. split; [exact Hpd |].
  by rewrite (formatted_copy_spec self h (value latest) pd).
Qed.

Lemma perform_prefix (self : OrderDataGenerator.t) (h : heap) (a : access) :
  OrderDataGenerator.unit self <> "" ->
  orders_stored self h ->
  h `prefix_of` perform self h a.
Proof.
  intros Hunit Hstored. destruct a as [| count]; cbn [perform].
  - destruct (last (OrderDataGenerator.history self)) as [latest |] eqn:Hlast.
    + destruct (get_current_data_spec self h latest) as (pd & _ & ->); [done.. |].
      by apply prefix_app_r.
    + unfold OrderDataGenerator.get_current_data. by rewrite Hlast.
  - by destruct (get_history_spec count self h) as (h' & items & -> & Hext & _).
Qed.

Lemma reads_prefix (accesses : list access) (self : OrderDataGenerator.t) : forall h : heap,
  OrderDataGenerator.unit self <> "" ->
  orders_stored self h ->
  h `prefix_of` reads accesses self h.
Proof.
  induction accesses as [| a accesses IH]; intros h Hunit Hstored; [done |].
  unfold reads. cbn [foldl].
  pose proof (perform_prefix self h a Hunit Hstored) as Hext.
  etrans; [exact Hext |]. apply IH; [done |].
  eapply Forall_impl; [exact Hstored |].
  intros point. by apply stored_order_prefix.
Qed.

(** What the accessors do on any generator whose history points name stored
    orders. *)
Lemma order_accessors_spec (self : OrderDataGenerator.t) (h : heap)
    (count : option Z) (accesses : list access) :
  OrderDataGenerator.unit self <> "" ->
  orders_stored self h ->
  (forall latest, last (OrderDataGenerator.history self) = Some latest ->
     exists power_demand : Z,
       deref h (value latest) !! "power_demand" = Some (FInt power_demand) /\
       OrderDataGenerator.get_current_data self h
       = (h ++ [rendered (OrderDataGenerator.unit self) (deref h (value latest)) power_demand],
          mkSnapshot (OrderDataGenerator.name self) (VDict (length h))
                     (Some (timestamp latest)))) /\
  (exists h' items,
     OrderDataGenerator.get_history count self h = (h', items) /\
     h `prefix_of` h' /\
     Forall2 (formatted_item (OrderDataGenerator.unit self) h h')
             (asked_points count (OrderDataGenerator.history self)) items /\
     length items = length (asked_points count (OrderDataGenerator.history self))) /\
  (let h' := reads accesses self h in
   h `prefix_of` h' /\
   Forall (fun point =>
             h' !! value point = h !! value point /\
             exists power_demand : Z,
               deref h' (value point) !! "power_demand" = Some (FInt power_demand))
          (OrderDataGenerator.history self)).
Proof.
  intros Hunit Hstored. cbv zeta. split_and!.
  - intros latest Hlast. by apply get_current_data_spec.
  - destruct (get_history_spec count self h Hunit Hstored) as (h' & items & Hget & Hext & Hitems).
    rewrite history_points_asked in Hitems.
    exists h', items. split_and!; try done.
    symmetry. by eapply Forall2_length.
  - by apply reads_prefix.
  - pose proof (reads_prefix accesses self h Hunit Hstored) as Hext.
    eapply Forall_impl; [exact Hstored |].
    intros point [Hl [pd Hpd]]. split.
    + apply lookup_lt_is_Some in Hl as [d Hd].
      by rewrite (prefix_lookup_Some _ _ _ _ Hd Hext).
    + exists pd. by rewrite (deref_prefix h).
Qed.

(** [update] stores a dictionary with an integer [power_demand], so the
    histories it builds consist of stored orders. *)
Lemma order_update_stored (e : env) (self : OrderDataGenerator.t) (h : heap) :
  orders_stored self h ->
  orders_stored (fst (state_of (OrderDataGenerator.update e self h)))
                (snd (state_of (OrderDataGenerator.update e self h))) /\
  h `prefix_of` snd (state_of (OrderDataGenerator.update e self h)).
Proof.
  intros Hstored. unfold OrderDataGenerator.update.
  destruct (randint (env_draw e 0) _ _) as [? | d]; [done |].
  destruct (choice _ _) as [? | location]; [done |].
  destruct (randint (env_draw e 2) _ _) as [? | pd]; [done |].
  cbn. split; [| by apply prefix_app_r].
  unfold orders_stored. cbn.
  destruct (record_point_suffix (OrderDataGenerator.history_limit self)
              (OrderDataGenerator.history self) (mkDataPoint (length h) (env_now e)))
    as [k Hk].
  assert (Forall (stored_order (h ++ [OrderDataGenerator.order_data
            (OrderDataGenerator.current_order_id self + d) (env_strftime e) location pd]))
            (OrderDataGenerator.history self ++ [mkDataPoint (length h) (env_now e)])) as Hall.
  { apply Forall_app. split.
    - eapply Forall_impl; [exact Hstored |].
      intros point. apply stored_order_prefix. by apply prefix_app_r.
    - apply Forall_singleton. split; cbn.
      + rewrite length_app. cbn. lia.
      + exists pd. unfold deref. rewrite list_lookup_middle by done. reflexivity. }
  rewrite Hk in Hall. by apply Forall_app in Hall as [_ ?].
Qed.

Lemma order_updates_stored (es : list env) : forall (self : OrderDataGenerator.t) (h : heap),
  orders_stored self h ->
  orders_stored (fst (order_updates es self h)) (snd (order_updates es self h)).
Proof.
  unfold order_updates.
  induction es as [| e es IH]; intros self h Hstored; [done |].
  cbn [foldl fst snd].
  destruct (order_update_stored e self h Hstored) as [Hnext _].
  destruct (state_of (OrderDataGenerator.update e self h)) as [self1 h1].
  by apply IH.
Qed.

(** C9.  Let [self] be an order generator after any sequence of [update]
    calls on the object [__init__] sets up (the first of them is the
    constructor's), with a non-empty [unit], and let [h] be the heap at that
    moment.
    - [get_current_data] returns a snapshot whose value is a new dictionary:
      the items of the latest stored order with [power_demand] replaced by
      the text ["<value> (<unit>)"], the stored [power_demand] being an
      integer.
    - [get_history(count)] returns one item for each point of the history
      it is asked for (all of them without a count, the newest [count] for a
      positive count) and in the same order: the point's timestamp with such
      a new dictionary.
    - After any sequence of accessor calls every object that was in the heap
      before is unchanged; in particular each stored order is the dictionary
      it was, with its integer [power_demand]. *)
Theorem order_accessors_format_copies (cfg : config) (name : string) (h0 : heap)
    (es : list env) (count : option Z) (accesses : list access) :
  let self := fst (order_updates es (OrderDataGenerator.init cfg name) h0) in
  let h := snd (order_updates es (OrderDataGenerator.init cfg name) h0) in
  OrderDataGenerator.unit self <> "" ->
  (forall latest, last (OrderDataGenerator.history self) = Some latest ->
     exists power_demand : Z,
       deref h (value latest) !! "power_demand" = Some (FInt power_demand) /\
       OrderDataGenerator.get_current_data self h
       = (h ++ [rendered (OrderDataGenerator.unit self) (deref h (value latest)) power_demand],
          mkSnapshot (OrderDataGenerator.name self) (VDict (length h))
                     (Some (timestamp latest)))) /\
  (exists h' items,
     OrderDataGenerator.get_history count self h = (h', items) /\
     h `prefix_of` h' /\
     Forall2 (formatted_item (OrderDataGenerator.unit self) h h')
             (asked_points count (OrderDataGenerator.history self)) items /\
     length items = length (asked_points count (OrderDataGenerator.history self))) /\
  (let h' := reads accesses self h in
   h `prefix_of` h' /\
   Forall (fun point =>
             h' !! value point = h !! value point /\
             exists power_demand : Z,
               deref h' (value point) !! "power_demand" = Some (FInt power_demand))
          (OrderDataGenerator.history self)).
Proof.
  intros self h Hunit.
  apply order_accessors_spec; [exact Hunit |].
  apply order_updates_stored. constructor.
Qed.

(** Two orders with the unit kW.  The snapshot's value is a new dictionary
    that reads "100 (kW)"; [get_history(1)] answers with one item, for the
    newer order, whose dictionary is a new one that reads "100 (kW)" too; and
    after three accesses the stored order still holds the integer 100. *)
Lemma order_accessors_format_copies_witness :
  let cfg := mkConfig (Some "order") None None None None None None None None (Some 1000%Z)
                      (Some (1, 1)%Z) None None (Some "kW") None in
  let e (t : Z) := mkEnv t 0 "2026-01-01 00:00" (fun _ => 0%N) in
  let orders := order_updates [e 1%Z; e 2%Z] (OrderDataGenerator.init cfg "o") [] in
  let h' := reads [CurrentData; History (Some 1%Z); CurrentData] (fst orders) (snd orders) in
  deref (fst (OrderDataGenerator.get_current_data (fst orders) (snd orders))) 2
    !! "power_demand" = Some (FStr "100 (kW)") /\
  snd (OrderDataGenerator.get_history (Some 1%Z) (fst orders) (snd orders))
  = [mkPointDict (VDict 2) 2%Z] /\
  deref (fst (OrderDataGenerator.get_history (Some 1%Z) (fst orders) (snd orders))) 2
    !! "power_demand" = Some (FStr "100 (kW)") /\
  deref h' 1 !! "power_demand" = Some (FInt 100) /\
  snd orders `prefix_of` h' /\
  exists h1 items,
    OrderDataGenerator.get_history (Some 1%Z) (fst orders) (snd orders) = (h1, items) /\
    Forall2 (formatted_item "kW" (snd orders) h1) [mkDataPoint 1 2%Z] items /\
    length items = 1.
Proof.
  split; [reflexivity |]. split; [reflexivity |]. split; [reflexivity |].
  split; [reflexivity |].
  destruct (order_accessors_format_copies
              (mkConfig (Some "order") None None None None None None None None (Some 1000%Z)
                        (Some (1, 1)%Z) None None (Some "kW") None)
              "o" []
              [mkEnv 1 0 "2026-01-01 00:00" (fun _ => 0%N);
               mkEnv 2 0 "2026-01-01 00:00" (fun _ => 0%N)]
              (Some 1%Z) [CurrentData; History (Some 1%Z); CurrentData])
    as (_ & Hhistory & Hkept & _).
  - vm_compute. discriminate.
  - split; [exact Hkept |].
    destruct Hhistory as (h1 & items & Hget & _ & Hitems & Hlength).
    exists h1, items. split; [exact Hget |]. split; [exact Hitems | exact Hlength].
Defined.

(** ** C3: the sum over the sources that have a number *)

Lemma formatted_copy_grows (v : pyval) (self : OrderDataGenerator.t) (h : heap) :
  h `prefix_of` fst (OrderDataGenerator.formatted_copy v self h).
Proof.
  unfold OrderDataGenerator.formatted_copy, dict_copy, alloc, setitem.
  destruct v as [s | stored]; [by apply prefix_app_r |].
  destruct (_ !! "power_demand") as [power_demand |]; [| by apply prefix_app_r].
  destruct (bool_decide _); [| by apply prefix_app_r].
  cbn [fst]. rewrite <- (Nat.add_0_r (length h)) at 1. rewrite alter_app_r.
  by apply prefix_app_r.
Qed.

(** Reading a generator's snapshot shows exactly its latest number, and only
    ever adds objects to the heap. *)
Lemma get_current_data_numeric (g : generator) (h : heap) :
  SumDataGenerator.numeric (snap_value (snd (get_current_data g h))) = latest_number g /\
  h `prefix_of` fst (get_current_data g h).
Proof.
  destruct g as [g | g | g | g]; cbn [get_current_data latest_number fst snd].
  - unfold base_get_current_data. by destruct (last _).
  - unfold base_get_current_data. by destruct (last _).
  - unfold OrderDataGenerator.get_current_data.
    destruct (last _) as [latest |]; [| done].
    pose proof (formatted_copy_grows (VDict (value latest)) g h) as Hext.
    by destruct (OrderDataGenerator.formatted_copy _ g h).
  - unfold base_get_current_data. by destruct (last _).
Qed.

(** One turn of the loop of [update]. *)
Lemma add_source_spec (objs : objects) (source : string) (h : heap) (total : Q) (count : nat) :
  exists h',
    SumDataGenerator.add_source get_current_data (get_object objs) (h, total, count) source
    = match contribution objs source with
      | Some v => (h', (total + v)%Q, S count)
      | None => (h', total, count)
      end /\
    h `prefix_of` h'.
Proof.
  unfold SumDataGenerator.add_source, contribution, get_object.
  destruct (objs !! source) as [obj |]; cbn [mbind option_bind]; [| by exists h].
  destruct (get_current_data_numeric obj h) as [Hnumeric Hext].
  destruct (get_current_data obj h) as [h1 data]. cbn [fst snd] in *.
  rewrite Hnumeric. exists h1. by destruct (latest_number obj).
Qed.

(** The loop of [update]: the running total and the count are the sum and the
    number of the contributions met so far. *)
Lemma add_sources_spec (objs : objects) (sources : list string) :
  forall (h : heap) (total : Q) (count : nat),
  exists h',
    foldl (SumDataGenerator.add_source get_current_data (get_object objs)) (h, total, count)
          sources
    = (h', foldl Qplus total (contributions objs sources),
       count + length (contributions objs sources)) /\
    h `prefix_of` h'.
Proof.
  induction sources as [| source sources IH]; intros h total count.
  - exists h. cbn. by rewrite Nat.add_0_r.
  - cbn [foldl].
    destruct (add_source_spec objs source h total count) as (h1 & -> & Hext).
    unfold contributions. cbn [omap list_omap].
    destruct (contribution objs source) as [v |].
    + destruct (IH h1 (total + v)%Q (S count)) as (h' & -> & Hext').
      exists h'. split; [| by etrans].
      cbn [foldl length]. rewrite Nat.add_succ_r. reflexivity.
    + destruct (IH h1 total count) as (h' & -> & Hext').
      exists h'. split; [done | by etrans].
Qed.

(** C3.  One [update] of a sum generator, with the registry [objs].  The loop
    over [source_objects] ends with the total [0.0 + v1 + ... + vn] of the
    contributions and with their number as count, where a source contributes
    when it resolves in the registry and its current value is numeric; the
    other sources are passed over and the loop goes on.  When the registry is
    set and at least one source contributes, the total becomes
    [current_value] and a point holding it, stamped [now], is recorded in the
    history: with a positive limit that point is the newest of the new
    history, which is the old history with the point appended and, when it
    was full, without its oldest points.  Otherwise the generator is returned
    as it was.  The heap only gains objects. *)
Theorem sum_update_totals (objs : objects) (now : Z) (self : SumDataGenerator.t) (h : heap) :
  let counted := contributions objs (SumDataGenerator.source_objects self) in
  let self' := fst (SumDataGenerator.update get_current_data (get_object objs) now self h) in
  let h' := snd (SumDataGenerator.update get_current_data (get_object objs) now self h) in
  (exists h1,
     foldl (SumDataGenerator.add_source get_current_data (get_object objs)) (h, 0%Q, 0)
           (SumDataGenerator.source_objects self)
     = (h1, total_of counted, length counted)) /\
  (if SumDataGenerator.object_manager self && bool_decide (counted <> [])
   then SumDataGenerator.current_value self' = total_of counted /\
        SumDataGenerator.history self'
        = record_point (SumDataGenerator.history_limit self) (SumDataGenerator.history self)
            (mkDataPoint (total_of counted) now) /\
        ((0 < SumDataGenerator.history_limit self)%Z ->
         last (SumDataGenerator.history self') = Some (mkDataPoint (total_of counted) now) /\
         SumDataGenerator.history self'
         = drop (S (length (SumDataGenerator.history self))
                 - Z.to_nat (SumDataGenerator.history_limit self))
                (SumDataGenerator.history self ++ [mkDataPoint (total_of counted) now]))
   else self' = self) /\
  h `prefix_of` h'.
Proof.
  cbv zeta.
  destruct (add_sources_spec objs (SumDataGenerator.source_objects self) h 0%Q 0)
    as (h1 & Hloop & Hext).
  cbn [Nat.add] in Hloop. fold (total_of (contributions objs (SumDataGenerator.source_objects self)))
    in Hloop.
  split; [by exists h1 |].
  unfold SumDataGenerator.update.
  destruct (SumDataGenerator.object_manager self); cbn [negb orb andb].
  2: { cbn [fst snd]; split; reflexivity. }
  destruct (SumDataGenerator.source_objects self) as [| source sources] eqn:Hsources.
  { change (contributions objs []) with (@nil Q).
    rewrite bool_decide_false by (intros Hne; by apply Hne).
    rewrite bool_decide_true by done.
    cbn [fst snd]; split; reflexivity. }
  rewrite (bool_decide_false (source :: sources = [])) by done.
  rewrite Hloop.
  destruct (contributions objs (source :: sources)) as [| v vs] eqn:Hcounted.
  - rewrite bool_decide_false by (intros Hne; by apply Hne). cbn [fst snd]. by split.
  - rewrite bool_decide_true by done.
    change (0 <? length (v :: vs)) with true.
    cbn [fst snd SumDataGenerator.current_value SumDataGenerator.history].
    split; [| exact Hext].
    split; [reflexivity |]. split; [reflexivity |].
    intros Hlimit. split; [by apply record_point_last |].
    unfold record_point. cbv zeta.
    destruct (Z.gtb_spec (Z.of_nat (length (SumDataGenerator.history self
                                           ++ [mkDataPoint (total_of (v :: vs)) now])))
                         (SumDataGenerator.history_limit self)) as [Hgt | Hle].
    + rewrite slice_last_drop by lia. f_equal. rewrite length_app. cbn [length]. lia.
    + rewrite length_app in Hle. cbn [length] in Hle.
      replace (S (length (SumDataGenerator.history self))
               - Z.to_nat (SumDataGenerator.history_limit self)) with 0 by lia.
      reflexivity.
Qed.

(** The example of the specification.  The registry holds A showing 10, B
    showing a string, C showing 5 and an order generator E; D is not in it.
    The sum over A, B, D, C, E counts two sources and records 15; the sum over
    B, D, E counts none and leaves the generator as it was. *)
Lemma sum_update_example :
  let e := mkEnv 1 0 "2026-01-01 00:00" (fun _ => 0%N) in
  let step (v : scalar) := Step (state_of (StepDataGenerator.new (constant v) "" 0 e)) in
  let order := state_of (OrderDataGenerator.new (order_config 1000 (1, 1)%Z) "E" e []) in
  let objs : objects :=
    <["A" := step (SInt 10)]> (<["B" := step (SStr "n/a")]> (<["C" := step (SInt 5)]>
      (<["E" := Order (fst order)]> ∅))) in
  let run (sources : list string) :=
    SumDataGenerator.update get_current_data (get_object objs) 7
      (SumDataGenerator.new (sum_of sources) "S" true) (snd order) in
  let loop (sources : list string) :=
    foldl (SumDataGenerator.add_source get_current_data (get_object objs))
          (snd order, 0%Q, 0) sources in
  snd (fst (loop ["A"; "B"; "D"; "C"; "E"])) = 15%Q /\
  snd (loop ["A"; "B"; "D"; "C"; "E"]) = 2 /\
  SumDataGenerator.history (fst (run ["A"; "B"; "D"; "C"; "E"])) = [mkDataPoint 15%Q 7%Z] /\
  SumDataGenerator.current_value (fst (run ["A"; "B"; "D"; "C"; "E"])) = 15%Q /\
  snd (loop ["B"; "D"; "E"]) = 0 /\
  fst (run ["B"; "D"; "E"]) = SumDataGenerator.new (sum_of ["B"; "D"; "E"]) "S" true.
Proof. split_and!; reflexivity. Qed.

(** The same registry: the sum over A, B, D, C, E ends with the point
    holding 15, stamped 7, as the newest of its history. *)
Lemma sum_update_totals_witness :
  let e := mkEnv 1 0 "2026-01-01 00:00" (fun _ => 0%N) in
  let step (v : scalar) := Step (state_of (StepDataGenerator.new (constant v) "" 0 e)) in
  let order := state_of (OrderDataGenerator.new (order_config 1000 (1, 1)%Z) "E" e []) in
  let objs : objects :=
    <["A" := step (SInt 10)]> (<["B" := step (SStr "n/a")]> (<["C" := step (SInt 5)]>
      (<["E" := Order (fst order)]> ∅))) in
  let self := SumDataGenerator.new (sum_of ["A"; "B"; "D"; "C"; "E"]) "S" true in
  let self' := fst (SumDataGenerator.update get_current_data (get_object objs) 7 self
                      (snd order)) in
  SumDataGenerator.current_value self' = 15%Q /\
  last (SumDataGenerator.history self') = Some (mkDataPoint 15%Q 7%Z) /\
  SumDataGenerator.history self' = drop 0 ([] ++ [mkDataPoint 15%Q 7%Z]).
Proof.
  cbv zeta.
  set (e := mkEnv 1 0 "2026-01-01 00:00" (fun _ => 0%N)).
  set (order := state_of (OrderDataGenerator.new (order_config 1000 (1, 1)%Z) "E" e [])).
  set (objs := (<["A" := Step (state_of (StepDataGenerator.new (constant (SInt 10)) "" 0 e))]>
                 (<["B" := Step (state_of (StepDataGenerator.new (constant (SStr "n/a")) "" 0 e))]>
                 (<["C" := Step (state_of (StepDataGenerator.new (constant (SInt 5)) "" 0 e))]>
                 (<["E" := Order (fst order)]> ∅))) : objects)).
  destruct (sum_update_totals objs 7
              (SumDataGenerator.new (sum_of ["A"; "B"; "D"; "C"; "E"]) "S" true) (snd order))
    as (_ & Hrecorded & _).
  cbv zeta in Hrecorded.
  change (SumDataGenerator.object_manager
            (SumDataGenerator.new (sum_of ["A"; "B"; "D"; "C"; "E"]) "S" true)
          && bool_decide (contributions objs
               (SumDataGenerator.source_objects
                  (SumDataGenerator.new (sum_of ["A"; "B"; "D"; "C"; "E"]) "S" true)) <> []))
    with true in Hrecorded.
  destruct Hrecorded as (Hvalue & _ & Hpoint).
  destruct Hpoint as [Hlast Hhistory]; [reflexivity |].
  split; [exact Hvalue |]. split; [exact Hlast | exact Hhistory].
Defined.

(** ** C4: the creation order of the aggregates *)

Lemma config_get_Some_elem (name : string) (d : list (string * config)) (c : config) :
  DataObjectManager.config_get name d = Some c -> (name, c) ∈ d.
Proof.
  induction d as [| [k c'] d IH]; cbn; [done |].
  case_bool_decide as Hk.
  - intros [= ->]. subst k. by left.
  - intros Hget. right. by apply IH.
Qed.

Lemma config_get_is_Some (name : string) (d : list (string * config)) :
  is_Some (DataObjectManager.config_get name d) <-> name ∈ d.*1.
Proof.
  induction d as [| [k c'] d IH]; cbn.
  - split; [by intros [? ?] | by intros ?%elem_of_nil].
  - case_bool_decide as Hk.
    + subst k. split; [intros _; by left | by eauto].
    + rewrite IH. split; [by right |].
      intros [? | ?]%elem_of_cons; [by subst | done].
Qed.

Lemma config_get_NoDup (name : string) (d : list (string * config)) (c : config) :
  NoDup d.*1 -> (name, c) ∈ d -> DataObjectManager.config_get name d = Some c.
Proof.
  induction d as [| [k c'] d IH]; cbn; [by intros _ ?%elem_of_nil |].
  intros [Hk Hnodup]%NoDup_cons [Heq | Hin]%elem_of_cons.
  - injection Heq as -> ->. by rewrite bool_decide_true.
  - rewrite bool_decide_false; [by apply IH |].
    intros ->. apply Hk. apply list_elem_of_fmap. by exists (name, c).
Qed.

Lemma has_key_spec (name : string) (d : list (string * config)) :
  DataObjectManager.has_key name d = true <-> name ∈ d.*1.
Proof.
  rewrite <- config_get_is_Some. unfold DataObjectManager.has_key.
  destruct (DataObjectManager.config_get name d); split; try done; try by eauto.
Qed.

Lemma size_difference_mark (keys visited : gset string) (x : string) :
  x ∈ keys -> x ∉ visited -> size (keys ∖ ({[x]} ∪ visited)) < size (keys ∖ visited).
Proof.
  intros Hkey Hvisited. apply subset_size. split.
  - intros y [Hy Hnot]%elem_of_difference. apply elem_of_difference. split; [done |].
    intros Hv. apply Hnot, elem_of_union. by right.
  - intros Hsub.
    assert (x ∈ keys ∖ visited) as Hx by (by apply elem_of_difference).
    apply Hsub in Hx. apply elem_of_difference in Hx as [_ Hnot].
    apply Hnot, elem_of_union. left. by apply elem_of_singleton.
Qed.

Section check_dependencies_facts.

Variable sum_configs : list (string * config).
Variable objs : objects.

Lemma foldl_visit_None recurse (sources : list string) :
  foldl (DataObjectManager.visit sum_configs objs recurse) None sources = None.
Proof. by induction sources. Qed.

Lemma foldl_visit_total recurse (sources : list string) :
  (forall source, is_Some (recurse source)) ->
  forall acc, is_Some (foldl (DataObjectManager.visit sum_configs objs recurse) (Some acc) sources).
Proof.
  intros Hrec. induction sources as [| source sources IH]; intros [result warnings]; [by eauto |].
  cbn [foldl]. unfold DataObjectManager.visit at 2.
  destruct (_ && _); [| apply IH].
  destruct (Hrec source) as [[deps warnings'] ->]. apply IH.
Qed.

(** A revisit of a name on the current path is reported and adds nothing. *)
Lemma check_dependencies_revisit (fuel : nat) (sum_name : string) (visited : gset string)
    (path : list string) :
  sum_name ∈ visited ->
  DataObjectManager.check_dependencies sum_configs objs (S fuel) sum_name visited path
  = Some ([], [path ++ [sum_name]]).
Proof. intros Hin. cbn [DataObjectManager.check_dependencies]. by rewrite bool_decide_true. Qed.

(** The traversal ends: every call marks one more of the aggregates'
    names. *)
Lemma check_dependencies_total (fuel : nat) :
  forall (sum_name : string) (visited : gset string) (path : list string),
  size (list_to_set sum_configs.*1 ∖ visited) < fuel ->
  is_Some (DataObjectManager.check_dependencies sum_configs objs fuel sum_name visited path).
Proof.
  induction fuel as [| fuel IH]; intros sum_name visited path Hsize; [lia |].
  cbn [DataObjectManager.check_dependencies].
  case_bool_decide as Hvisited; [by eauto |].
  destruct (DataObjectManager.config_get sum_name sum_configs) as [cfg |] eqn:Hcfg; [| by eauto].
  assert (sum_name ∈ (list_to_set sum_configs.*1 : gset string)) as Hkey.
  { apply elem_of_list_to_set, config_get_is_Some. by eauto. }
  pose proof (size_difference_mark _ _ _ Hkey Hvisited) as Hless.
  assert (size (list_to_set sum_configs.*1 ∖ ({[sum_name]} ∪ visited)) < fuel) as Hfuel by lia.
  destruct (foldl_visit_total
              (fun source => DataObjectManager.check_dependencies sum_configs objs fuel source
                               ({[sum_name]} ∪ visited) (path ++ [sum_name]))
              (default [] (cfg_source_objects cfg))
              (fun source => IH source _ _ Hfuel) ([], [])) as [[result warnings] Hloop].
  rewrite Hloop.
  case_bool_decide; by eauto.
Qed.

Lemma foldl_visit_Forall (P : string -> Prop) recurse (sources : list string) :
  (forall source deps warnings, recurse source = Some (deps, warnings) -> Forall P deps) ->
  forall acc result warnings,
  Forall P (fst acc) ->
  foldl (DataObjectManager.visit sum_configs objs recurse) (Some acc) sources
  = Some (result, warnings) ->
  Forall P result.
Proof.
  intros Hrec. induction sources as [| source sources IH];
    intros [result0 warnings0] result warnings Hacc; cbn [foldl fst] in *.
  { by intros [= <- <-]. }
  unfold DataObjectManager.visit at 2.
  destruct (_ && _); [| by apply IH].
  destruct (recurse source) as [[deps warnings'] |] eqn:Hsource.
  - apply IH. cbn. apply Forall_app. split; [done | by eapply Hrec].
  - by rewrite foldl_visit_None.
Qed.

(** Only aggregates that are not yet in the registry enter the result. *)
Lemma check_dependencies_elements (fuel : nat) :
  forall (sum_name : string) (visited : gset string) (path : list string) result warnings,
  DataObjectManager.check_dependencies sum_configs objs fuel sum_name visited path
  = Some (result, warnings) ->
  Forall (fun name => name ∈ sum_configs.*1 /\ objs !! name = None) result.
Proof.
  induction fuel as [| fuel IH]; intros sum_name visited path result warnings; [done |].
  cbn [DataObjectManager.check_dependencies].
  case_bool_decide as Hvisited; [by intros [= <- <-] |].
  destruct (DataObjectManager.config_get sum_name sum_configs) as [cfg |] eqn:Hcfg;
    [| by intros [= <- <-]].
  destruct (foldl _ _ _) as [[result0 warnings0] |] eqn:Hloop; [| done].
  assert (Forall (fun name => name ∈ sum_configs.*1 /\ objs !! name = None) result0) as Hres.
  { eapply (foldl_visit_Forall _ _ _ (fun source deps w' H => IH source _ _ deps w' H)
              ([], [])); [by constructor | exact Hloop]. }
  case_bool_decide as Hobj; intros [= <- <-]; [| done].
  apply Forall_app. split; [done |]. apply Forall_singleton. split; [| done].
  apply config_get_is_Some. by eauto.
Qed.

(** An aggregate that is asked for, is not on the path and is not yet
    created ends its own result: it is not dropped. *)
Lemma check_dependencies_self (fuel : nat) (sum_name : string) (visited : gset string)
    (path : list string) result warnings :
  DataObjectManager.check_dependencies sum_configs objs fuel sum_name visited path
  = Some (result, warnings) ->
  sum_name ∉ visited -> sum_name ∈ sum_configs.*1 -> objs !! sum_name = None ->
  last result = Some sum_name.
Proof.
  destruct fuel as [| fuel]; [done |].
  cbn [DataObjectManager.check_dependencies]. intros Hcheck Hvisited Hkey Hobj.
  rewrite bool_decide_false in Hcheck by done.
  apply config_get_is_Some in Hkey as [cfg Hcfg]. rewrite Hcfg in Hcheck.
  destruct (foldl _ _ _) as [[result0 warnings0] |]; [| done].
  rewrite bool_decide_true in Hcheck by done.
  injection Hcheck as <- <-. apply last_snoc.
Qed.

End check_dependencies_facts.

Lemma size_list_to_set_le (l : list string) : size (list_to_set l : gset string) <= length l.
Proof.
  induction l as [| x l IH]; cbn [list_to_set length].
  - by rewrite size_empty.
  - rewrite size_union_alt, size_singleton.
    assert (size (list_to_set l ∖ ({[x]} : gset string)) <= size (list_to_set l : gset string)).
    { apply subseteq_size. intros y [Hy _]%elem_of_difference. exact Hy. }
    lia.
Qed.

Lemma add_deps_spec (deps : list string) : forall creation_order : list string,
  NoDup creation_order ->
  NoDup (DataObjectManager.add_deps creation_order deps) /\
  (forall x, x ∈ DataObjectManager.add_deps creation_order deps <-> x ∈ creation_order \/ x ∈ deps).
Proof.
  unfold DataObjectManager.add_deps.
  induction deps as [| dep deps IH]; intros creation_order Hnodup; cbn [foldl].
  - split; [done |]. intros x. split; [by left |]. by intros [? | ?%elem_of_nil].
  - case_bool_decide as Hdep.
    + destruct (IH creation_order Hnodup) as [Hnd Hin]. split; [done |].
      intros x. rewrite Hin, elem_of_cons.
      split; [by intros [? | ?]; eauto |]. intros [? | [-> | ?]]; eauto.
    + destruct (IH (creation_order ++ [dep])) as [Hnd Hin].
      { apply NoDup_app. split_and!; [done | | apply NoDup_singleton].
        intros x Hx ->%list_elem_of_singleton. done. }
      split; [done |].
      intros x. rewrite Hin, elem_of_app, list_elem_of_singleton, elem_of_cons.
      split; [intros [[? | ?] | ?]; eauto |]. intros [? | [? | ?]]; eauto.
Qed.

(** The planning loop ends, and the creation order it returns lists every
    aggregate exactly once. *)
Lemma creation_plan_spec (sum_configs : list (string * config)) (objs : objects) :
  (forall name, name ∈ sum_configs.*1 -> objs !! name = None) ->
  exists creation_order warnings,
    DataObjectManager.creation_plan sum_configs objs = Some (creation_order, warnings) /\
    NoDup creation_order /\
    (forall name, name ∈ creation_order <-> name ∈ sum_configs.*1).
Proof.
  intros Hfree. unfold DataObjectManager.creation_plan.
  assert (forall entries order0 warnings0,
            (forall entry, entry ∈ entries -> fst entry ∈ sum_configs.*1) ->
            NoDup order0 ->
            (forall name, name ∈ order0 -> name ∈ sum_configs.*1) ->
            exists creation_order warnings,
              foldl (DataObjectManager.plan sum_configs objs (S (length sum_configs)))
                    (Some (order0, warnings0)) entries
              = Some (creation_order, warnings) /\
              NoDup creation_order /\
              (forall name, name ∈ creation_order -> name ∈ sum_configs.*1) /\
              (forall name, name ∈ order0 -> name ∈ creation_order) /\
              (forall entry, entry ∈ entries -> fst entry ∈ creation_order)) as Hloop.
  { induction entries as [| entry entries IH]; intros order0 warnings0 Hentries Hnodup Hkeys.
    { exists order0, warnings0. split_and!; try done. by intros ? ?%elem_of_nil. }
    cbn [foldl]. unfold DataObjectManager.plan at 2.
    assert (fst entry ∈ sum_configs.*1) as Hentry by (apply Hentries; by left).
    rewrite bool_decide_true by (by apply Hfree).
    destruct (check_dependencies_total sum_configs objs (S (length sum_configs)) (fst entry) ∅ [])
      as [[deps warnings'] Hcheck].
    { pose proof (size_list_to_set_le sum_configs.*1) as Hsize.
      rewrite length_fmap in Hsize.
      assert (size ((list_to_set sum_configs.*1 : gset string) ∖ ∅)
              <= size (list_to_set sum_configs.*1 : gset string)).
      { apply subseteq_size. intros y [Hy _]%elem_of_difference. exact Hy. }
      lia. }
    rewrite Hcheck.
    destruct (add_deps_spec deps order0 Hnodup) as [Hnd Hin].
    pose proof (check_dependencies_elements _ _ _ _ _ _ _ _ Hcheck) as Hdeps.
    pose proof (check_dependencies_self _ _ _ _ _ _ _ _ Hcheck) as Hself.
    destruct (IH (DataObjectManager.add_deps order0 deps) (warnings0 ++ warnings'))
      as (creation_order & warnings & Hfold & Hnd' & Hkeys' & Hmono & Hall).
    { intros e He. apply Hentries. by right. }
    { done. }
    { intros name [Hname | Hname]%Hin; [by apply Hkeys |].
      rewrite Forall_forall in Hdeps. by apply Hdeps. }
    exists creation_order, warnings. split_and!; try done.
    - intros name Hname. apply Hmono, Hin. by left.
    - intros e [-> | He]%elem_of_cons; [| by apply Hall].
      apply Hmono, Hin. right.
      apply last_Some_elem_of, Hself; [apply not_elem_of_empty | done | by apply Hfree]. }
  destruct (Hloop sum_configs [] []) as (creation_order & warnings & Hfold & Hnd & Hkeys & _ & Hall).
  { intros [name c] Hentry. apply list_elem_of_fmap. by exists (name, c). }
  { apply NoDup_nil_2. }
  { by intros ? ?%elem_of_nil. }
  exists creation_order, warnings. split_and!; try done.
  intros name. split; [by apply Hkeys |].
  intros ([name' c] & -> & Hentry)%list_elem_of_fmap. by apply (Hall (name', c)).
Qed.

Lemma create_data_generator_sum (cfg : config) (name : string) (object_manager : bool)
    (time0 : Q) (e : env) (h : heap) :
  cfg_data_type cfg = Some "sum" ->
  create_data_generator cfg name object_manager time0 e h
  = (h, inr (Sum (SumDataGenerator.new cfg name object_manager))).
Proof.
  intros Htype. unfold create_data_generator. rewrite Htype.
  rewrite !bool_decide_false by discriminate. by rewrite bool_decide_true.
Qed.

Lemma create_data_generator_other (cfg : config) (name : string) (object_manager : bool)
    (time0 : Q) (e : env) (h h' : heap) (g : generator) :
  cfg_data_type cfg <> Some "sum" ->
  create_data_generator cfg name object_manager time0 e h = (h', inr g) ->
  match g with Sum _ => False | _ => True end.
Proof.
  intros Htype. unfold create_data_generator.
  case_bool_decide; [by intros [= <- <-] |].
  case_bool_decide; [by destruct (StepDataGenerator.new _ _ _ _); intros [= <- <-] |].
  case_bool_decide.
  { by destruct (OrderDataGenerator.new _ _ _ _) as [[? ?] | ? [? ?]]; intros [= <- <-]. }
  by rewrite bool_decide_false.
Qed.

(** The loop over the non-aggregate entries: every entry ends up in the table
    as its constructor built it, unless the constructor raised. *)
Lemma create_objects_spec (w : DataObjectManager.world) (entries : list (string * config)) :
  forall (objs : objects) (h : heap),
  NoDup entries.*1 ->
  exists objs' h',
    foldl (DataObjectManager.create_object w) (objs, h) entries = (objs', h') /\
    (forall name, name ∉ entries.*1 -> objs' !! name = objs !! name) /\
    (forall name cfg, (name, cfg) ∈ entries ->
       exists h0 h1 r,
         create_data_generator cfg name true (fst (DataObjectManager.at_construction w name))
                               (snd (DataObjectManager.at_construction w name)) h0 = (h1, r) /\
         objs' !! name = match r with inr g => Some g | inl _ => objs !! name end).
Proof.
  induction entries as [| [name cfg] entries IH]; intros objs h Hnodup.
  { exists objs, h. split_and!; [done | done |]. by intros ? ? ?%elem_of_nil. }
  cbn [fmap list_fmap fst] in Hnodup. apply NoDup_cons in Hnodup as [Hname Hnodup].
  cbn [foldl]. unfold DataObjectManager.create_object at 2.
  destruct (create_data_generator cfg name true _ _ h) as [h1 r] eqn:Hcreate.
  set (objs1 := match r with inr g => <[name := g]> objs | inl _ => objs end).
  assert (forall name', name' <> name -> objs1 !! name' = objs !! name') as Hother.
  { intros name' Hne. unfold objs1. destruct r; [done | by rewrite lookup_insert_ne]. }
  assert (objs1 !! name = match r with inr g => Some g | inl _ => objs !! name end) as Hthis.
  { unfold objs1. destruct r; [done | by rewrite lookup_insert_eq]. }
  destruct (IH objs1 h1 Hnodup) as (objs' & h' & Hfold & Hout & Hin).
  exists objs', h'. split_and!.
  - rewrite <- Hfold. unfold objs1. by destruct r.
  - intros name' Hname'. cbn [fmap list_fmap fst] in Hname'.
    apply not_elem_of_cons in Hname' as [Hne Hrest].
    rewrite Hout by done. by apply Hother.
  - intros name' cfg' [Heq | Hentry]%elem_of_cons.
    + injection Heq as -> ->. exists h, h1, r. split; [done |].
      rewrite Hout by done. exact Hthis.
    + destruct (Hin name' cfg' Hentry) as (h0 & h2 & r' & Hcreate' & Hlookup).
      exists h0, h2, r'. split; [done |]. rewrite Hlookup.
      destruct r'; [| done]. apply Hother.
      intros ->. apply Hname. apply list_elem_of_fmap. by exists (name, cfg').
Qed.

(** The loop over the creation order: every name in it becomes an aggregate
    of the table, and is queued for [first_update]. *)
Lemma create_sums_spec (w : DataObjectManager.world) (sum_configs : list (string * config))
    (creation_order : list string) :
  forall (objs : objects) (h : heap) (sum_generators : list string),
  (forall name, name ∈ creation_order ->
     exists cfg, DataObjectManager.config_get name sum_configs = Some cfg /\
                 cfg_data_type cfg = Some "sum") ->
  exists objs',
    foldl (DataObjectManager.create_sum w sum_configs) (objs, h, sum_generators) creation_order
    = (objs', h, sum_generators ++ creation_order) /\
    (forall name, name ∉ creation_order -> objs' !! name = objs !! name) /\
    (forall name, name ∈ creation_order ->
       exists cfg, DataObjectManager.config_get name sum_configs = Some cfg /\
                   objs' !! name = Some (Sum (SumDataGenerator.new cfg name true))).
Proof.
  induction creation_order as [| name creation_order IH]; intros objs h sum_generators Hsum.
  { exists objs. rewrite app_nil_r. split_and!; [done | done |]. by intros ? ?%elem_of_nil. }
  cbn [foldl]. unfold DataObjectManager.create_sum at 2.
  destruct (Hsum name) as (cfg & Hcfg & Htype); [by left |].
  rewrite Hcfg, (create_data_generator_sum _ _ _ _ _ _ Htype).
  destruct (IH (<[name := Sum (SumDataGenerator.new cfg name true)]> objs) h
               (sum_generators ++ [name])) as (objs' & Hfold & Hout & Hin).
  { intros name' Hname'. apply Hsum. by right. }
  exists objs'. split_and!.
  - rewrite Hfold. by rewrite <- (assoc_L (++)).
  - intros name' [Hne Hrest]%not_elem_of_cons.
    rewrite Hout by done. by rewrite lookup_insert_ne.
  - intros name' [-> | Hrest]%elem_of_cons; [| by apply Hin].
    destruct (decide (name ∈ creation_order)) as [Hagain | Honce]; [by apply Hin |].
    exists cfg. split; [done |].
    rewrite Hout by done. by rewrite lookup_insert_eq.
Qed.

Lemma kept_refl (objs : objects) : kept objs objs.
Proof. intros name. destruct (objs !! name) as [[] |]; by eauto. Qed.

Lemma kept_trans (objs1 objs2 objs3 : objects) :
  kept objs1 objs2 -> kept objs2 objs3 -> kept objs1 objs3.
Proof.
  intros H12 H23 name. specialize (H12 name). specialize (H23 name).
  destruct (objs1 !! name) as [[] |]; try (by rewrite H12 in H23).
  destruct H12 as [g' Hg']. by rewrite Hg' in H23.
Qed.

(** The loop of [first_update] calls changes aggregates only. *)
Lemma initialize_spec (w : DataObjectManager.world) (sum_generators : list string) :
  forall (objs : objects) (h : heap),
  kept objs (fst (foldl (DataObjectManager.initialize w) (objs, h) sum_generators)).
Proof.
  induction sum_generators as [| name sum_generators IH]; intros objs h; [apply kept_refl |].
  cbn [foldl].
  destruct (DataObjectManager.initialize w (objs, h) name) as [objs1 h1] eqn:Hinit.
  eapply kept_trans; [| apply IH].
  unfold DataObjectManager.initialize in Hinit.
  destruct (objs !! name) as [[g | g | g | g] |] eqn:Hname;
    try (injection Hinit as <- <-; apply kept_refl).
  destruct (SumDataGenerator.first_update _ _ _ _ _) as [g' h'].
  injection Hinit as <- <-.
  intros name'. destruct (decide (name' = name)) as [-> | Hne].
  - rewrite Hname, lookup_insert_eq. by eauto.
  - rewrite lookup_insert_ne by done. destruct (objs !! name') as [[] |]; by eauto.
Qed.

(** C4, as the code has it.  For any configuration whose object names are
    distinct, cyclic or not:
    - the construction completes;
    - the creation order holds every aggregate of the configuration exactly
      once and nothing else, so no aggregate is dropped, also not one that
      lies on a dependency cycle;
    - every name of the creation order is an aggregate of the finished
      registry: each aggregate is first created with an empty history, and
      the finished registry is what the [first_update] calls, made in
      creation order once all of them exist, leave;
    - every non-aggregate object is in the finished registry as its
      constructor, which performs the first update, built it ([None] stands
      for a constructor that raised: that object alone is missing);
    - whenever the traversal comes back to a name that is on its current
      path, the call reports the path that closes the cycle and contributes
      no name. *)
Theorem construction_keeps_every_aggregate (w : DataObjectManager.world)
    (objects_config : list (string * config)) (h : heap) :
  NoDup objects_config.*1 ->
  exists built,
    DataObjectManager._create_objects_from_config w objects_config h = Some built /\
    NoDup (DataObjectManager.creation_order built) /\
    (forall name,
       name ∈ DataObjectManager.creation_order built <->
       exists cfg, (name, cfg) ∈ objects_config /\ cfg_data_type cfg = Some "sum") /\
    (forall name,
       name ∈ DataObjectManager.creation_order built ->
       exists g, DataObjectManager.built_objects built !! name = Some (Sum g)) /\
    (exists objs h1,
       (forall name cfg,
          (name, cfg) ∈ objects_config -> cfg_data_type cfg = Some "sum" ->
          objs !! name = Some (Sum (SumDataGenerator.new cfg name true))) /\
       (DataObjectManager.built_objects built, DataObjectManager.built_heap built)
       = foldl (DataObjectManager.initialize w) (objs, h1)
               (DataObjectManager.creation_order built)) /\
    (forall name cfg,
       (name, cfg) ∈ objects_config -> cfg_data_type cfg <> Some "sum" ->
       exists h0 h1 r,
         create_data_generator cfg name true (fst (DataObjectManager.at_construction w name))
                               (snd (DataObjectManager.at_construction w name)) h0 = (h1, r) /\
         DataObjectManager.built_objects built !! name
         = match r with inr g => Some g | inl _ => None end) /\
    (forall sum_configs objs fuel sum_name visited path,
       sum_name ∈ visited ->
       DataObjectManager.check_dependencies sum_configs objs (S fuel) sum_name visited path
       = Some ([], [path ++ [sum_name]])).
Proof.
  intros Hnodup. unfold DataObjectManager._create_objects_from_config.
  set (sums := filter (fun entry => DataObjectManager.is_sum entry = true) objects_config).
  set (others := filter (fun entry => DataObjectManager.is_sum entry = false) objects_config).
  assert (forall name cfg, (name, cfg) ∈ sums <->
            (name, cfg) ∈ objects_config /\ cfg_data_type cfg = Some "sum") as Hsums.
  { intros name cfg. unfold sums. rewrite list_elem_of_filter.
    unfold DataObjectManager.is_sum. cbn [snd]. rewrite bool_decide_eq_true. tauto. }
  assert (forall name cfg, (name, cfg) ∈ others <->
            (name, cfg) ∈ objects_config /\ cfg_data_type cfg <> Some "sum") as Hothers.
  { intros name cfg. unfold others. rewrite list_elem_of_filter.
    unfold DataObjectManager.is_sum. cbn [snd]. rewrite bool_decide_eq_false. tauto. }
  assert (NoDup sums.*1) as Hnd_sums.
  { apply (sublist_NoDup _ objects_config.*1); [done |]. apply fmap_sublist, sublist_filter. }
  assert (NoDup others.*1) as Hnd_others.
  { apply (sublist_NoDup _ objects_config.*1); [done |]. apply fmap_sublist, sublist_filter. }
  assert (forall name, name ∈ sums.*1 -> name ∉ others.*1) as Hdisjoint.
  { intros name ([name1 cfg1] & -> & H1)%list_elem_of_fmap
                 ([name2 cfg2] & Heq & H2)%list_elem_of_fmap.
    cbn [fst] in Heq. subst name2.
    apply Hsums in H1 as [H1 Htype]. apply Hothers in H2 as [H2 Hother].
    apply (config_get_NoDup _ _ _ Hnodup) in H1, H2. congruence. }
  destruct (create_objects_spec w others ∅ h Hnd_others) as (objs1 & h1 & -> & Hout1 & Hin1).
  destruct (creation_plan_spec sums objs1) as (order & warnings & -> & Hnd_order & Horder).
  { intros name Hname. rewrite Hout1 by (by apply Hdisjoint). apply lookup_empty. }
  destruct (create_sums_spec w sums order objs1 h1 []) as (objs2 & -> & Hout2 & Hin2).
  { intros name ([name' cfg] & -> & Hentry)%Horder%list_elem_of_fmap.
    exists cfg. split; [by apply config_get_NoDup | by apply Hsums in Hentry as [_ ?]]. }
  pose proof (initialize_spec w ([] ++ order) objs2 h1) as Hkept.
  destruct (foldl (DataObjectManager.initialize w) (objs2, h1) ([] ++ order))
    as [objs3 h3] eqn:Hinit.
  cbn [fst] in Hkept.
  eexists. split; [reflexivity |].
  cbn [DataObjectManager.creation_order DataObjectManager.built_objects
       DataObjectManager.built_heap].
  split_and!.
  - exact Hnd_order.
  - intros name. rewrite Horder, list_elem_of_fmap. split.
    + intros ([name' cfg] & -> & Hentry). exists cfg. by apply Hsums.
    + intros (cfg & Hentry). exists (name, cfg). split; [done | by apply Hsums].
  - intros name Hname. destruct (Hin2 name Hname) as (cfg & _ & Hg).
    specialize (Hkept name). by rewrite Hg in Hkept.
  - exists objs2, h1. split; [| by rewrite <- Hinit].
    intros name cfg Hentry Htype.
    assert ((name, cfg) ∈ sums) as Hsum by (by apply Hsums).
    destruct (Hin2 name) as (cfg' & Hcfg' & Hg).
    { apply Horder, list_elem_of_fmap. by exists (name, cfg). }
    rewrite (config_get_NoDup _ _ _ Hnd_sums Hsum) in Hcfg'. by injection Hcfg' as <-.
  - intros name cfg Hentry Htype.
    assert ((name, cfg) ∈ others) as Hother by (by apply Hothers).
    destruct (Hin1 name cfg Hother) as (h0 & h2 & r & Hcreate & Hlookup).
    exists h0, h2, r. split; [done |].
    assert (name ∉ order) as Hfree.
    { intros Hname%Horder. apply (Hdisjoint name Hname).
      apply list_elem_of_fmap. by exists (name, cfg). }
    specialize (Hkept name). rewrite (Hout2 name Hfree), Hlookup in Hkept.
    rewrite lookup_empty in Hkept. rewrite lookup_empty in Hlookup.
    destruct r as [err | g]; [done |].
    pose proof (create_data_generator_other _ _ _ _ _ _ _ _ Htype Hcreate) as Hclass.
    by destruct g.
  - intros sum_configs objs fuel sum_name visited path.
    apply check_dependencies_revisit.
Qed.

Lemma construction_keeps_every_aggregate_witness :
  exists built,
    DataObjectManager._create_objects_from_config still_world cyclic_config [] = Some built /\
    NoDup (DataObjectManager.creation_order built) /\
    (forall name, name ∈ DataObjectManager.creation_order built ->
       exists g, DataObjectManager.built_objects built !! name = Some (Sum g)).
Proof.
  destruct (construction_keeps_every_aggregate still_world cyclic_config [])
    as (built & Hbuilt & Hnodup & _ & Hsums & _).
  - refine (bool_decide_unpack _ _). vm_compute. exact I.
  - exists built. split; [exact Hbuilt |]. split; [exact Hnodup | exact Hsums].
Defined.

(** The claim at the cycle X -> Y -> Z -> X.  The construction completes and
    the three cycles met are reported, but the creation order is Z, Y, X, S:
    all three aggregates of the cycle are in it and all three are created, so
    none is skipped.  Their first update records nothing, while A holds its
    first value and S has summed it. *)
Lemma cyclic_config_counterexample :
  exists built,
    DataObjectManager._create_objects_from_config still_world cyclic_config [] = Some built /\
    DataObjectManager.creation_order built = ["Z"; "Y"; "X"; "S"] /\
    DataObjectManager.cycle_warnings built
    = [["X"; "Y"; "Z"; "X"]; ["Y"; "Z"; "X"; "Y"]; ["Z"; "X"; "Y"; "Z"]] /\
    (history_timestamps <$> DataObjectManager.built_objects built !! "X") = Some [] /\
    (history_timestamps <$> DataObjectManager.built_objects built !! "Y") = Some [] /\
    (history_timestamps <$> DataObjectManager.built_objects built !! "Z") = Some [] /\
    (latest_number <$> DataObjectManager.built_objects built !! "A") = Some (Some 10%Q) /\
    (latest_number <$> DataObjectManager.built_objects built !! "S") = Some (Some 10%Q) /\
    ~ (exists name, name ∈ ["X"; "Y"; "Z"] /\
                    (name ∉ DataObjectManager.creation_order built \/
                     DataObjectManager.built_objects built !! name = None)).
Proof.
  eexists. split; [vm_compute; reflexivity |].
  split_and!; try reflexivity.
  intros (name & Hname & Hskipped).
  repeat (apply elem_of_cons in Hname as [-> | Hname]);
    try (by apply elem_of_nil in Hname);
    (destruct Hskipped as [Hout | Hnone]; [| by vm_compute in Hnone]);
    apply Hout; refine (bool_decide_unpack _ _); vm_compute; exact I.
Qed.

(** * Further properties of the code *)

(** ** The history buffer: which points are kept *)

(** X1.  With a positive limit, recording a point keeps exactly the newest
    [history_limit] points of the old history followed by the new point: the
    buffer is left whole while it has room, and a full buffer loses its oldest
    point and nothing else. *)
Theorem history_keeps_newest {V : Type} (limit : Z) (history : list (DataPoint V))
    (p : DataPoint V) :
  (0 < limit)%Z ->
  record_point limit history p
  = drop (S (length history) - Z.to_nat limit) (history ++ [p]) /\
  ((Z.of_nat (length history) < limit)%Z -> record_point limit history p = history ++ [p]) /\
  (Z.of_nat (length history) = limit -> record_point limit history p = drop 1 history ++ [p]).
Proof.
  intros Hlimit.
  assert (record_point limit history p
          = drop (S (length history) - Z.to_nat limit) (history ++ [p])) as Hkeep.
  { unfold record_point. cbv zeta.
    destruct (Z.gtb_spec (Z.of_nat (length (history ++ [p]))) limit) as [Hgt | Hle].
    - rewrite slice_last_drop by lia. f_equal. rewrite length_app. cbn [length]. lia.
    - rewrite length_app in Hle. cbn [length] in Hle.
      replace (S (length history) - Z.to_nat limit) with 0 by lia. reflexivity. }
  split; [exact Hkeep |]. split.
  - intros Hroom. rewrite Hkeep.
    replace (S (length history) - Z.to_nat limit) with 0 by lia. reflexivity.
  - intros Hfull. rewrite Hkeep.
    replace (S (length history) - Z.to_nat limit) with 1 by lia.
    rewrite drop_app_le; [reflexivity |]. lia.
Qed.

Lemma history_keeps_newest_witness :
  let point (t : Z) := mkDataPoint t t in
  record_point 2 [point 1%Z; point 2%Z] (point 3%Z) = [point 2%Z; point 3%Z].
Proof.
  destruct (history_keeps_newest 2 [mkDataPoint 1%Z 1%Z; mkDataPoint 2%Z 2%Z]
              (mkDataPoint 3%Z 3%Z)) as (_ & _ & Hfull).
  - lia.
  - apply Hfull. reflexivity.
Defined.

Lemma record_point_zero {V : Type} (history : list (DataPoint V)) (p : DataPoint V) :
  record_point 0 history p = history ++ [p].
Proof.
  unfold record_point. cbv zeta.
  destruct (_ >? _)%Z; [apply slice_last_zero | reflexivity].
Qed.

Lemma record_point_negative {V : Type} (limit : Z) (history : list (DataPoint V))
    (p : DataPoint V) :
  (limit < 0)%Z -> record_point limit history p = drop (Z.to_nat (- limit)) (history ++ [p]).
Proof.
  intros Hlimit. unfold record_point. cbv zeta.
  destruct (Z.gtb_spec (Z.of_nat (length (history ++ [p]))) limit) as [Hgt | Hle]; [| lia].
  by apply slice_last_negative.
Qed.

(** X2.  A [history_limit] that is not positive does not bound the history.
    With the limit 0 the slice [history[-0:]] is the whole list, so a random
    generator keeps every point it ever recorded; with a negative limit [-k]
    every recording drops the [k] oldest points of the extended list, so with
    [k = 1] a history that was empty is empty again after the update. *)
Theorem nonpositive_limit_does_not_bound (self : RandomDataGenerator.t) (es : list env)
    (e : env) :
  (RandomDataGenerator.history_limit self <= 0)%Z ->
  (RandomDataGenerator.history_limit self = 0%Z ->
   length (RandomDataGenerator.history (random_updates es self))
   = length (RandomDataGenerator.history self) + length es) /\
  ((RandomDataGenerator.history_limit self < 0)%Z ->
   RandomDataGenerator.history (RandomDataGenerator.update e self)
   = drop (Z.to_nat (- RandomDataGenerator.history_limit self))
          (RandomDataGenerator.history self
           ++ [mkDataPoint (RandomDataGenerator.current_value (RandomDataGenerator.update e self))
                           (env_now e)])) /\
  (RandomDataGenerator.history_limit self = (-1)%Z ->
   RandomDataGenerator.history self = [] ->
   RandomDataGenerator.history (RandomDataGenerator.update e self) = []).
Proof.
  intros _. split_and!.
  - revert self. unfold random_updates.
    induction es as [| e' es IH]; intros self Hzero; cbn [foldl length]; [lia |].
    rewrite IH by exact Hzero.
    unfold RandomDataGenerator.update at 1. cbn [RandomDataGenerator.history].
    rewrite Hzero, record_point_zero, length_app. cbn [length]. lia.
  - intros Hneg. unfold RandomDataGenerator.update.
    cbn [RandomDataGenerator.history RandomDataGenerator.current_value].
    by apply record_point_negative.
  - intros Hlimit Hempty. unfold RandomDataGenerator.update.
    cbn [RandomDataGenerator.history]. rewrite Hlimit, Hempty.
    rewrite record_point_negative by lia. reflexivity.
Qed.

Lemma nonpositive_limit_does_not_bound_witness :
  let cfg := mkConfig (Some "random") (Some 0%Z) None None None None None None None None None
                      None None None None in
  let e := mkEnv 1 0 "2026-01-01 00:00" (fun _ => 0%N) in
  length (RandomDataGenerator.history
            (random_updates [e; e; e] (RandomDataGenerator.init cfg "r"))) = 3.
Proof.
  apply (nonpositive_limit_does_not_bound
           (RandomDataGenerator.init
              (mkConfig (Some "random") (Some 0%Z) None None None None None None None None
                        None None None None None) "r")
           [mkEnv 1 0 "2026-01-01 00:00" (fun _ => 0%N);
            mkEnv 1 0 "2026-01-01 00:00" (fun _ => 0%N);
            mkEnv 1 0 "2026-01-01 00:00" (fun _ => 0%N)]
           (mkEnv 1 0 "2026-01-01 00:00" (fun _ => 0%N))).
  - cbn. lia.
  - reflexivity.
Defined.

(** ** The current value and the newest point *)

(** Whatever the limit, the newest point of a history that has just been
    recorded to, if any point is left, is the recorded one. *)
Lemma record_point_last_inv {V : Type} (limit : Z) (history : list (DataPoint V))
    (p q : DataPoint V) :
  last (record_point limit history p) = Some q -> q = p.
Proof.
  intros Hlast.
  destruct (record_point_suffix limit history p) as [k Hk].
  pose proof (last_snoc p history) as Hp.
  rewrite Hk, last_app, Hlast in Hp. by injection Hp.
Qed.

Lemma update_shows_current_value objs e g h :
  shows_current_value g ->
  shows_current_value (fst (state_of (update objs e g h))).
Proof.
  destruct g as [g | g | g | g]; cbn [update shows_current_value].
  - intros _ latest Hlast. cbn in Hlast |- *.
    by apply record_point_last_inv in Hlast as ->.
  - intros Hinv. unfold StepDataGenerator.update.
    destruct (StepDataGenerator.values g) as [| v0 vs] eqn:Hvalues; [exact Hinv |].
    assert (forall latest,
              last (StepDataGenerator.history (StepDataGenerator.advance (env_time e) g))
              = Some latest ->
              value latest
              = StepDataGenerator.current_value (StepDataGenerator.advance (env_time e) g))
      as Hadv.
    { unfold StepDataGenerator.advance. by destruct (Qle_bool _ _). }
    destruct (_ !! _) as [v |]; [| exact Hadv].
    destruct (StepDataGenerator.must_record _ v); [| exact Hadv].
    intros latest Hlast. cbn in Hlast |- *.
    by apply record_point_last_inv in Hlast as ->.
  - intros _. by destruct (OrderDataGenerator.update e g h) as [[g1 h1] | err [g1 h1]].
  - intros Hinv. unfold SumDataGenerator.update.
    destruct (negb _ || _); [exact Hinv |].
    destruct (foldl _ _ _) as [[h1 total] count].
    destruct count as [| count]; [exact Hinv |].
    intros latest Hlast. cbn in Hlast |- *.
    by apply record_point_last_inv in Hlast as ->.
Qed.

(** X3.  For a random, a step and a sum generator, [current_value] and the
    value of the newest history point never part: if they agree (as they do,
    vacuously, on the empty history of a new object) they agree after any
    sequence of [update] calls, whatever the limit and whether a call records,
    skips or raises.  So [get_current_data], which reads the newest point,
    shows [current_value]. *)
Theorem current_value_is_newest_point (g : generator) (h : heap)
    (calls : list (objects * env)) :
  shows_current_value g ->
  shows_current_value (fst (updates calls g h)).
Proof.
  revert g h. unfold updates.
  induction calls as [| [objs e] calls IH]; intros g h Hinv; [exact Hinv |].
  cbn [foldl fst snd].
  pose proof (update_shows_current_value objs e g h Hinv) as Hnext.
  destruct (state_of (update objs e g h)) as [g1 h1]. by apply IH.
Qed.

Lemma current_value_is_newest_point_witness :
  let e (t : Z) : objects * env := (∅, mkEnv t 0 "2026-01-01 00:00" (fun _ => 0%N)) in
  shows_current_value
    (fst (updates [e 1%Z; e 2%Z] (Random (RandomDataGenerator.init empty_config "r")) [])).
Proof.
  apply (current_value_is_newest_point (Random (RandomDataGenerator.init empty_config "r")) []).
  cbn. discriminate.
Defined.

(** ** The step generator: its index *)

Lemma advance_index_in_range (current_time : Q) (self : StepDataGenerator.t) :
  StepDataGenerator.current_index self < length (StepDataGenerator.values self) ->
  StepDataGenerator.current_index (StepDataGenerator.advance current_time self)
  < length (StepDataGenerator.values self).
Proof.
  intros Hindex. unfold StepDataGenerator.advance.
  destruct (Qle_bool _ _); cbn; [| exact Hindex].
  destruct (_ <? _)%Z eqn:Hcmp.
  - apply Z.ltb_lt in Hcmp. lia.
  - destruct (StepDataGenerator.loop self); lia.
Qed.

(** One call keeps the configured fields, and keeps the index inside the
    list of values. *)
Lemma step_update_index (e : env) (self : StepDataGenerator.t) :
  let self' := state_of (StepDataGenerator.update e self) in
  StepDataGenerator.values self' = StepDataGenerator.values self /\
  StepDataGenerator.dwell_time self' = StepDataGenerator.dwell_time self /\
  StepDataGenerator.loop self' = StepDataGenerator.loop self /\
  StepDataGenerator.history_limit self' = StepDataGenerator.history_limit self /\
  (StepDataGenerator.values self <> [] ->
   StepDataGenerator.current_index self'
   = StepDataGenerator.current_index (StepDataGenerator.advance (env_time e) self) /\
   StepDataGenerator.last_change_time self'
   = StepDataGenerator.last_change_time (StepDataGenerator.advance (env_time e) self)).
Proof.
  cbv zeta. unfold StepDataGenerator.update.
  destruct (StepDataGenerator.values self) as [| v0 vs] eqn:Hvalues; [done |].
  assert (StepDataGenerator.values (StepDataGenerator.advance (env_time e) self) = v0 :: vs
          /\ StepDataGenerator.dwell_time (StepDataGenerator.advance (env_time e) self)
             = StepDataGenerator.dwell_time self
          /\ StepDataGenerator.loop (StepDataGenerator.advance (env_time e) self)
             = StepDataGenerator.loop self
          /\ StepDataGenerator.history_limit (StepDataGenerator.advance (env_time e) self)
             = StepDataGenerator.history_limit self) as (Hv & Hd & Hl & Hh).
  { unfold StepDataGenerator.advance. by destruct (Qle_bool _ _). }
  destruct (_ !! _) as [v |]; [| done].
  by destruct (StepDataGenerator.must_record _ v).
Qed.

Lemma step_updates_index_in_range (es : list env) : forall self : StepDataGenerator.t,
  StepDataGenerator.current_index self < length (StepDataGenerator.values self) ->
  StepDataGenerator.values (StepDataGenerator.updates es self) = StepDataGenerator.values self /\
  StepDataGenerator.current_index (StepDataGenerator.updates es self)
  < length (StepDataGenerator.values self).
Proof.
  unfold StepDataGenerator.updates.
  induction es as [| e es IH]; intros self Hindex; [done |].
  cbn [foldl].
  pose proof (step_update_index e self) as (Hvalues & _ & _ & _ & Hnext). cbv zeta in *.
  destruct Hnext as [Hnext _].
  { intros Hnil. rewrite Hnil in Hindex. cbn in Hindex. lia. }
  pose proof (advance_index_in_range (env_time e) self Hindex) as Hadv.
  destruct (IH (state_of (StepDataGenerator.update e self))) as [Hv Hi].
  { rewrite Hvalues, Hnext. exact Hadv. }
  rewrite Hvalues in Hv, Hi. done.
Qed.

(** X4.  A step generator never fails: whatever its configuration, after any
    sequence of [update] calls on the object [__init__] sets up a further
    [update] returns (the index it reads [values] at is inside the list), and
    [values] is still the configured list. *)
Theorem step_update_never_raises (cfg : config) (name : string) (time0 : Q)
    (es : list env) (e : env) :
  let self := StepDataGenerator.updates es (StepDataGenerator.init cfg name time0) in
  returned (StepDataGenerator.update e self) = true /\
  StepDataGenerator.values self = default [SFloat 0] (cfg_values cfg) /\
  (StepDataGenerator.values self <> [] ->
   StepDataGenerator.current_index self < length (StepDataGenerator.values self)).
Proof.
  cbv zeta.
  destruct (default [SFloat 0] (cfg_values cfg)) as [| v0 vs] eqn:Hvalues.
  - assert (forall g, StepDataGenerator.values g = [] ->
              StepDataGenerator.updates es g = g) as Hidle.
    { unfold StepDataGenerator.updates. induction es as [| e' es IH]; intros g Hg; [done |].
      cbn [foldl]. unfold StepDataGenerator.update at 2. rewrite Hg. cbn [state_of].
      by apply IH. }
    rewrite Hidle by exact Hvalues.
    unfold StepDataGenerator.update. cbn [StepDataGenerator.init StepDataGenerator.values].
    rewrite Hvalues. done.
  - destruct (step_updates_index_in_range es (StepDataGenerator.init cfg name time0))
      as [Hv Hi].
    { cbn. rewrite Hvalues. cbn. lia. }
    cbn [StepDataGenerator.init StepDataGenerator.values] in Hv, Hi.
    rewrite Hvalues in Hv, Hi.
    split_and!; [| exact Hv | intros _; by rewrite Hv].
    unfold StepDataGenerator.update. rewrite Hv.
    pose proof (advance_index_in_range (env_time e)
                  (StepDataGenerator.updates es (StepDataGenerator.init cfg name time0))) as Hadv.
    rewrite Hv in Hadv. specialize (Hadv Hi).
    apply lookup_lt_is_Some in Hadv as [v Hlookup].
    rewrite advance_values, Hv, Hlookup.
    by destruct (StepDataGenerator.must_record _ v).
Qed.

Lemma advance_elapsed (current_time : Q) (self : StepDataGenerator.t) :
  (StepDataGenerator.dwell_time self <= current_time - StepDataGenerator.last_change_time self)%Q ->
  StepDataGenerator.current_index self < length (StepDataGenerator.values self) ->
  StepDataGenerator.last_change_time (StepDataGenerator.advance current_time self) = current_time /\
  StepDataGenerator.current_index (StepDataGenerator.advance current_time self)
  = if StepDataGenerator.loop self
    then (StepDataGenerator.current_index self + 1) mod length (StepDataGenerator.values self)
    else Nat.min (StepDataGenerator.current_index self + 1)
                 (length (StepDataGenerator.values self) - 1).
Proof.
  intros Hdwell Hindex. unfold StepDataGenerator.advance.
  apply Qle_bool_iff in Hdwell. rewrite Hdwell. cbn.
  split; [reflexivity |].
  destruct (_ <? _)%Z eqn:Hcmp.
  - apply Z.ltb_lt in Hcmp.
    destruct (StepDataGenerator.loop self); [| lia].
    rewrite Nat.mod_small; lia.
  - apply Z.ltb_ge in Hcmp.
    assert (StepDataGenerator.current_index self + 1 = length (StepDataGenerator.values self))
      as Hlast by lia.
    destruct (StepDataGenerator.loop self); [| lia].
    rewrite Hlast, Nat.Div0.mod_same. reflexivity.
Qed.

(** X5.  A step generator whose dwell time has always elapsed (a dwell time
    of 0 or less, polled by a clock that does not go backwards) moves one
    position per [update]: after [n] calls the index has advanced by [n],
    wrapping around the list when [loop] is set and stopping at the last
    position when it is not. *)
Theorem step_index_walks (es : list env) : forall self : StepDataGenerator.t,
  (StepDataGenerator.dwell_time self <= 0)%Q ->
  Sorted Qle (StepDataGenerator.last_change_time self :: (env_time <$> es)) ->
  StepDataGenerator.current_index self < length (StepDataGenerator.values self) ->
  StepDataGenerator.current_index (StepDataGenerator.updates es self)
  = if StepDataGenerator.loop self
    then (StepDataGenerator.current_index self + length es)
         mod length (StepDataGenerator.values self)
    else Nat.min (StepDataGenerator.current_index self + length es)
                 (length (StepDataGenerator.values self) - 1).
Proof.
  unfold StepDataGenerator.updates.
  induction es as [| e es IH]; intros self Hdwell Hsorted Hindex.
  - cbn [foldl length]. rewrite Nat.add_0_r.
    destruct (StepDataGenerator.loop self); [by rewrite Nat.mod_small | lia].
  - cbn [fmap list_fmap] in Hsorted.
    apply Sorted_inv in Hsorted as [Hsorted Hhd]. apply HdRel_inv in Hhd.
    cbn [foldl].
    pose proof (step_update_index e self) as (Hvalues & Hd & Hloop & _ & Hnext).
    cbv zeta in *.
    destruct Hnext as [Hi Ht].
    { intros Hnil. rewrite Hnil in Hindex. cbn in Hindex. lia. }
    destruct (advance_elapsed (env_time e) self) as [Htime Hstep]; [lra | done |].
    rewrite Htime in Ht. rewrite Hstep in Hi.
    rewrite (IH (state_of (StepDataGenerator.update e self))).
    + rewrite Hloop, Hvalues, Hi. cbn [length].
      destruct (StepDataGenerator.loop self).
      * rewrite Nat.Div0.add_mod_idemp_l. f_equal. lia.
      * lia.
    + by rewrite Hd.
    + by rewrite Ht.
    + rewrite Hvalues, Hi.
      destruct (StepDataGenerator.loop self); [| lia].
      apply Nat.mod_upper_bound. lia.
Qed.

(** Four values in a loop, no dwell time: the constructor's update and five
    more calls leave the index at 6 mod 4 = 2. *)
Lemma step_index_walks_witness :
  let cfg := mkConfig (Some "step") None None None None None
                      (Some [SInt 1; SInt 2; SInt 3; SInt 4]) (Some 0%Q) (Some true)
                      None None None None None None in
  let e (t : Z) := mkEnv t (inject_Z t) "" (fun _ => 0%N) in
  StepDataGenerator.current_index
    (StepDataGenerator.updates [e 1%Z; e 2%Z; e 3%Z; e 4%Z; e 5%Z; e 6%Z]
       (StepDataGenerator.init cfg "s" 0)) = 2.
Proof.
  apply (step_index_walks
           [mkEnv 1 (inject_Z 1) "" (fun _ => 0%N); mkEnv 2 (inject_Z 2) "" (fun _ => 0%N);
            mkEnv 3 (inject_Z 3) "" (fun _ => 0%N); mkEnv 4 (inject_Z 4) "" (fun _ => 0%N);
            mkEnv 5 (inject_Z 5) "" (fun _ => 0%N); mkEnv 6 (inject_Z 6) "" (fun _ => 0%N)]
           (StepDataGenerator.init
              (mkConfig (Some "step") None None None None None
                        (Some [SInt 1; SInt 2; SInt 3; SInt 4]) (Some 0%Q) (Some true)
                        None None None None None None) "s" 0)).
  - vm_compute. discriminate.
  - cbn. repeat constructor; vm_compute; discriminate.
  - cbn. lia.
Defined.

Lemma py_eq_refl (v : scalar) : py_eq v v = true.
Proof.
  unfold py_eq. destruct v as [| b | z | q | s]; cbn.
  - reflexivity.
  - by destruct b.
  - apply Qeq_bool_iff. reflexivity.
  - apply Qeq_bool_iff. reflexivity.
  - by apply bool_decide_eq_true.
Qed.

Lemma advance_waiting (current_time : Q) (self : StepDataGenerator.t) :
  (current_time - StepDataGenerator.last_change_time self < StepDataGenerator.dwell_time self)%Q ->
  StepDataGenerator.advance current_time self = self.
Proof.
  intros Hwait. unfold StepDataGenerator.advance.
  destruct (Qle_bool _ _) eqn:Hle; [| reflexivity].
  apply Qle_bool_iff in Hle. lra.
Qed.

(** While the dwell time has not elapsed, a generator that shows the value at
    its index is left exactly as it is. *)
Lemma step_update_waiting (e : env) (self : StepDataGenerator.t) (v : scalar)
    (latest : DataPoint scalar) :
  (env_time e - StepDataGenerator.last_change_time self < StepDataGenerator.dwell_time self)%Q ->
  StepDataGenerator.values self !! StepDataGenerator.current_index self = Some v ->
  last (StepDataGenerator.history self) = Some latest -> value latest = v ->
  StepDataGenerator.update e self = Returns self.
Proof.
  intros Hwait Hv Hlast Hlatest. unfold StepDataGenerator.update.
  rewrite (advance_waiting _ _ Hwait).
  destruct (StepDataGenerator.values self) as [| v0 vs] eqn:Hvalues; [done |].
  rewrite Hv. unfold StepDataGenerator.must_record. rewrite Hlast, Hlatest.
  unfold py_ne. by rewrite py_eq_refl.
Qed.

(** X6.  Polled before its dwell time has elapsed, a step generator shows its
    first value and records it once: when every call comes less than
    [dwell_time] after construction, the history (for a positive limit) holds
    the single point the constructor's own [update] recorded, with the first
    configured value, however many calls follow. *)
Theorem step_waits_on_first_value (cfg : config) (name : string) (time0 : Q)
    (e1 : env) (es : list env) (v : scalar) (vs : list scalar) :
  default [SFloat 0] (cfg_values cfg) = v :: vs ->
  (0 < default 200 (cfg_history_limit cfg))%Z ->
  Forall (fun e => (env_time e - time0 < default 1 (cfg_dwell_time cfg))%Q) (e1 :: es) ->
  let self := StepDataGenerator.updates es
                (state_of (StepDataGenerator.new cfg name time0 e1)) in
  StepDataGenerator.history self = [mkDataPoint v (env_now e1)] /\
  StepDataGenerator.current_value self = v /\
  StepDataGenerator.current_index self = 0.
Proof.
  intros Hvalues Hlimit Hwait. apply Forall_cons in Hwait as [Hfirst Hwait].
  assert (state_of (StepDataGenerator.new cfg name time0 e1)
          = StepDataGenerator.mk name (v :: vs) (default 1%Q (cfg_dwell_time cfg))
              (default true (cfg_loop cfg)) 0 time0 (default 200%Z (cfg_history_limit cfg))
              [mkDataPoint v (env_now e1)] v) as ->.
  { unfold StepDataGenerator.new, StepDataGenerator.update.
    rewrite advance_waiting by exact Hfirst.
    cbn [StepDataGenerator.init StepDataGenerator.values StepDataGenerator.current_index
         StepDataGenerator.history].
    rewrite Hvalues. cbn [lookup list_lookup StepDataGenerator.must_record last state_of].
    cbn. by rewrite first_point_kept. }
  cbv zeta. unfold StepDataGenerator.updates.
  induction Hwait as [| e es He Hes IH]; [done |].
  cbn [foldl]. rewrite (step_update_waiting e _ v (mkDataPoint v (env_now e1))); done.
Qed.

(** The values 7, 8 with a dwell time of 10 seconds, polled at seconds 1, 2
    and 3: one point, holding 7. *)
Lemma step_waits_on_first_value_witness :
  let cfg := mkConfig (Some "step") None None None None None (Some [SInt 7; SInt 8])
                      (Some 10%Q) None None None None None None None in
  let e (t : Z) := mkEnv t (inject_Z t) "" (fun _ => 0%N) in
  StepDataGenerator.history
    (StepDataGenerator.updates [e 2%Z; e 3%Z]
       (state_of (StepDataGenerator.new cfg "s" 0 (e 1%Z))))
  = [mkDataPoint (SInt 7) 1%Z].
Proof.
  apply (step_waits_on_first_value
           (mkConfig (Some "step") None None None None None (Some [SInt 7; SInt 8])
                     (Some 10%Q) None None None None None None None)
           "s" 0 (mkEnv 1 (inject_Z 1) "" (fun _ => 0%N))
           [mkEnv 2 (inject_Z 2) "" (fun _ => 0%N); mkEnv 3 (inject_Z 3) "" (fun _ => 0%N)]
           (SInt 7) [SInt 8]).
  - reflexivity.
  - cbn. lia.
  - repeat constructor; vm_compute; reflexivity.
Defined.

(** ** The order generator: what an update records and how it fails *)

(** X7.  An [update] of an order generator returns exactly when neither range
    is empty and there is a location to choose.  When it returns, one
    dictionary has been added to the heap and nothing else changed there: it
    carries the generator's new [current_order_id], the formatted time, one
    of the configured locations and a power demand inside
    [power_demand_range]; the point recorded in the history names that
    dictionary and is stamped with the clock. *)
Theorem order_update_records_order (e : env) (self : OrderDataGenerator.t) (h : heap) :
  (returned (OrderDataGenerator.update e self h) = true <->
   (fst (OrderDataGenerator.id_increment_range self)
    <= snd (OrderDataGenerator.id_increment_range self))%Z /\
   OrderDataGenerator.locations self <> [] /\
   (fst (OrderDataGenerator.power_demand_range self)
    <= snd (OrderDataGenerator.power_demand_range self))%Z) /\
  (forall self' h',
     OrderDataGenerator.update e self h = Returns (self', h') ->
     exists location power_demand,
       location ∈ OrderDataGenerator.locations self /\
       (fst (OrderDataGenerator.power_demand_range self) <= power_demand
        <= snd (OrderDataGenerator.power_demand_range self))%Z /\
       h' = h ++ [OrderDataGenerator.order_data (OrderDataGenerator.current_order_id self')
                    (env_strftime e) location power_demand] /\
       OrderDataGenerator.history self'
       = record_point (OrderDataGenerator.history_limit self) (OrderDataGenerator.history self)
           (mkDataPoint (length h) (env_now e))).
Proof.
  unfold OrderDataGenerator.update. split.
  - destruct (randint (env_draw e 0) _ _) as [err | d] eqn:Hd.
    { cbn. split; [done |]. intros (Hid & _).
      destruct (randint_inr (env_draw e 0) _ _ Hid) as (d & Hd' & _). congruence. }
    assert (fst (OrderDataGenerator.id_increment_range self)
            <= snd (OrderDataGenerator.id_increment_range self))%Z as Hid.
    { apply randint_range in Hd. lia. }
    cbn [OrderDataGenerator.set_current_order_id OrderDataGenerator.locations
         OrderDataGenerator.power_demand_range].
    destruct (choice (env_draw e 1) _) as [err | location] eqn:Hloc.
    { cbn. split; [done |]. intros (_ & Hne & _).
      destruct (choice_inr (env_draw e 1) _ Hne) as (x & Hx & _). congruence. }
    assert (OrderDataGenerator.locations self <> []) as Hne.
    { intros Hnil. rewrite Hnil in Hloc. unfold choice in Hloc.
      by rewrite lookup_nil in Hloc. }
    destruct (randint (env_draw e 2) _ _) as [err | pd] eqn:Hpd.
    { cbn. split; [done |]. intros (_ & _ & Hrange).
      destruct (randint_inr (env_draw e 2) _ _ Hrange) as (x & Hx & _). congruence. }
    cbn. split; [| done]. intros _. apply randint_range in Hpd. split_and!; [done | done | lia].
  - intros self' h'.
    destruct (randint (env_draw e 0) _ _) as [err | d]; [done |].
    cbn [OrderDataGenerator.set_current_order_id OrderDataGenerator.locations
         OrderDataGenerator.power_demand_range].
    destruct (choice (env_draw e 1) _) as [err | location] eqn:Hloc; [done |].
    destruct (randint (env_draw e 2) _ _) as [err | pd] eqn:Hpd; [done |].
    cbn. intros [= <- <-]. exists location, pd. cbn. split_and!; try done.
    + unfold choice in Hloc.
      destruct (_ !! _) as [x |] eqn:Hx; [| done].
      injection Hloc as <-. by apply list_elem_of_lookup_2 in Hx.
    + apply randint_range in Hpd. lia.
    + apply randint_range in Hpd. lia.
Qed.

(** X8.  A failing [update] of an order generator records nothing: the
    history and the heap are what they were.  With an empty
    [id_increment_range] it raises [ValueError] and leaves the whole object
    alone; failing later, on an empty [locations] list ([IndexError]) or an
    empty [power_demand_range] ([ValueError]), it has already advanced
    [current_order_id] by the drawn increment, so that id is used up without
    an order. *)
Theorem order_update_failures (e : env) (self : OrderDataGenerator.t) (h : heap) :
  let lo := fst (OrderDataGenerator.id_increment_range self) in
  let hi := snd (OrderDataGenerator.id_increment_range self) in
  (forall err st,
     OrderDataGenerator.update e self h = Raises err st ->
     snd st = h /\ OrderDataGenerator.history (fst st) = OrderDataGenerator.history self) /\
  ((hi < lo)%Z -> OrderDataGenerator.update e self h = Raises ValueError (self, h)) /\
  ((lo <= hi)%Z -> OrderDataGenerator.locations self = [] ->
   exists d, (lo <= d <= hi)%Z /\
     OrderDataGenerator.update e self h
     = Raises IndexError
         (OrderDataGenerator.set_current_order_id
            (OrderDataGenerator.current_order_id self + d)%Z self, h)) /\
  ((lo <= hi)%Z -> OrderDataGenerator.locations self <> [] ->
   (snd (OrderDataGenerator.power_demand_range self)
    < fst (OrderDataGenerator.power_demand_range self))%Z ->
   exists d, (lo <= d <= hi)%Z /\
     OrderDataGenerator.update e self h
     = Raises ValueError
         (OrderDataGenerator.set_current_order_id
            (OrderDataGenerator.current_order_id self + d)%Z self, h)).
Proof.
  cbv zeta. unfold OrderDataGenerator.update. refine (conj _ (conj _ (conj _ _))).
  - intros err st.
    destruct (randint (env_draw e 0) _ _) as [? | d]; [by intros [= <- <-] |].
    destruct (choice (env_draw e 1) _) as [? | location]; [by intros [= <- <-] |].
    destruct (randint (env_draw e 2) _ _) as [? | pd]; [by intros [= <- <-] | done].
  - intros Hempty. unfold randint at 1.
    destruct (Z.leb_spec (fst (OrderDataGenerator.id_increment_range self))
                (snd (OrderDataGenerator.id_increment_range self))); [lia | reflexivity].
  - intros Hrange Hnil.
    destruct (randint_inr (env_draw e 0) _ _ Hrange) as (d & -> & Hd).
    exists d. split; [exact Hd |].
    cbn [OrderDataGenerator.set_current_order_id OrderDataGenerator.locations].
    rewrite Hnil. reflexivity.
  - intros Hrange Hne Hempty.
    destruct (randint_inr (env_draw e 0) _ _ Hrange) as (d & -> & Hd).
    exists d. split; [exact Hd |].
    cbn [OrderDataGenerator.set_current_order_id OrderDataGenerator.locations
         OrderDataGenerator.power_demand_range].
    destruct (choice_inr (env_draw e 1) _ Hne) as (location & -> & _).
    unfold randint.
    destruct (Z.leb_spec (fst (OrderDataGenerator.power_demand_range self))
                (snd (OrderDataGenerator.power_demand_range self))); [lia | reflexivity].
Qed.

Lemma order_update_returns_witness :
  let e := mkEnv 5 0 "2026-01-01 00:00" (fun _ => 0%N) in
  let self := OrderDataGenerator.init (order_config 1000 (1, 10)%Z) "o" in
  returned (OrderDataGenerator.update e self []) = true.
Proof.
  apply (order_update_records_order
           (mkEnv 5 0 "2026-01-01 00:00" (fun _ => 0%N))
           (OrderDataGenerator.init (order_config 1000 (1, 10)%Z) "o") []).
  cbn. split_and!; [lia | discriminate | lia].
Defined.

Lemma order_update_failures_witness :
  let e := mkEnv 5 0 "2026-01-01 00:00" (fun _ => 0%N) in
  let cfg := mkConfig (Some "order") None None None None None None None None (Some 1000%Z)
                      (Some (1, 1)%Z) (Some []) None None None in
  exists d, (1 <= d <= 1)%Z /\
    OrderDataGenerator.update e (OrderDataGenerator.init cfg "o") []
    = Raises IndexError
        (OrderDataGenerator.set_current_order_id (1000 + d)%Z (OrderDataGenerator.init cfg "o"),
         []).
Proof.
  apply (order_update_failures
           (mkEnv 5 0 "2026-01-01 00:00" (fun _ => 0%N))
           (OrderDataGenerator.init
              (mkConfig (Some "order") None None None None None None None None (Some 1000%Z)
                        (Some (1, 1)%Z) (Some []) None None None) "o") []).
  - cbn. lia.
  - reflexivity.
Defined.

Lemma stored_order_id_prefix (h h' : heap) (point : DataPoint loc) :
  value point < length h -> h `prefix_of` h' ->
  stored_order_id h' point = stored_order_id h point.
Proof. intros Hl Hext. unfold stored_order_id. by rewrite (deref_prefix h h'). Qed.

Lemma StronglySorted_snoc_lt (ids : list Z) (bound new : Z) :
  StronglySorted Z.lt ids -> Forall (fun x => (x <= bound)%Z) ids -> (bound < new)%Z ->
  StronglySorted Z.lt (ids ++ [new]).
Proof.
  intros Hsorted Hbound Hnew. apply StronglySorted_app. split_and!.
  - intros x y Hx ->%list_elem_of_singleton.
    rewrite Forall_forall in Hbound. specialize (Hbound x Hx). lia.
  - exact Hsorted.
  - repeat constructor.
Qed.

(** One [update] keeps the ids of the history ascending, provided that
    increments are positive. *)
Lemma order_update_ascending (e : env) (self : OrderDataGenerator.t) (h : heap)
    (ids : list Z) :
  (1 <= fst (OrderDataGenerator.id_increment_range self))%Z ->
  orders_ascending self h ids ->
  exists ids',
    orders_ascending (fst (state_of (OrderDataGenerator.update e self h)))
                     (snd (state_of (OrderDataGenerator.update e self h))) ids'.
Proof.
  intros Hlo (Hids & Hlocs & Hsorted & Hbound).
  unfold OrderDataGenerator.update.
  destruct (randint (env_draw e 0) _ _) as [? | d] eqn:Hd.
  { exists ids. done. }
  apply randint_range in Hd.
  assert (Forall (fun order_id =>
            (order_id <= OrderDataGenerator.current_order_id self + d)%Z) ids) as Hbound'.
  { eapply Forall_impl; [exact Hbound |]. cbn. intros x Hx. lia. }
  destruct (choice (env_draw e 1) _) as [? | location].
  { exists ids. done. }
  destruct (randint (env_draw e 2) _ _) as [? | pd].
  { exists ids. done. }
  cbn [state_of fst snd alloc OrderDataGenerator.set_current_order_id
       OrderDataGenerator.history OrderDataGenerator.history_limit
       OrderDataGenerator.current_order_id OrderDataGenerator.set_history].
  set (order := OrderDataGenerator.order_data _ _ _ _).
  set (h' := h ++ [order]).
  set (point := mkDataPoint (length h) (env_now e)).
  assert (h `prefix_of` h') as Hext by (by apply prefix_app_r).
  assert (stored_order_id h' <$> (OrderDataGenerator.history self ++ [point])
          = Some <$> (ids ++ [(OrderDataGenerator.current_order_id self + d)%Z])) as Hall.
  { rewrite !fmap_app. f_equal.
    - rewrite <- Hids. apply Forall_fmap_ext_1.
      eapply Forall_impl; [exact Hlocs |]. intros p Hp. by apply stored_order_id_prefix.
    - cbn. unfold stored_order_id, deref, h', point. cbn [value].
      rewrite list_lookup_middle by done. reflexivity. }
  destruct (record_point_suffix (OrderDataGenerator.history_limit self)
              (OrderDataGenerator.history self) point) as [k Hk].
  rewrite Hk in Hall.
  exists (drop (length k) (ids ++ [(OrderDataGenerator.current_order_id self + d)%Z])).
  split_and!.
  - rewrite fmap_drop, <- Hall, fmap_app.
    rewrite <- (length_fmap (stored_order_id h') k), drop_app_length. reflexivity.
  - assert (Forall (fun p => value p < length h') (OrderDataGenerator.history self ++ [point]))
      as Hfit.
    { apply Forall_app. split.
      - eapply Forall_impl; [exact Hlocs |]. intros p Hp.
        apply prefix_length in Hext. cbn in *. lia.
      - apply Forall_singleton. unfold h', point. rewrite length_app. cbn. lia. }
    rewrite Hk in Hfit. by apply Forall_app in Hfit as [_ ?].
  - assert (OrderDataGenerator.current_order_id self
            < OrderDataGenerator.current_order_id self + d)%Z as Hfresh by lia.
    pose proof (StronglySorted_snoc_lt ids (OrderDataGenerator.current_order_id self)
                  (OrderDataGenerator.current_order_id self + d)%Z Hsorted Hbound Hfresh)
      as Hnew.
    rewrite <- (take_drop (length k) (ids ++ _)) in Hnew.
    by apply StronglySorted_app_1_r in Hnew.
  - apply Forall_drop, Forall_app. split; [exact Hbound' |].
    apply Forall_singleton. cbn. lia.
Qed.

(** X9.  When increments are positive ([id_increment_range] starts at 1 or
    above), the orders kept in the history of an order generator carry
    strictly increasing ids, oldest first, each an integer stored under
    [order_id] and none above [current_order_id]: no two orders of the history
    share an id.  This holds after any sequence of [update] calls on the
    object [__init__] sets up, failed calls included. *)
Theorem order_ids_ascend (cfg : config) (name : string) (h0 : heap) (es : list env) :
  (1 <= fst (default (1, 10)%Z (cfg_id_increment_range cfg)))%Z ->
  exists ids,
    orders_ascending (fst (order_updates es (OrderDataGenerator.init cfg name) h0))
                     (snd (order_updates es (OrderDataGenerator.init cfg name) h0)) ids.
Proof.
  intros Hlo.
  assert (forall (self : OrderDataGenerator.t) (h : heap) (ids : list Z),
            (1 <= fst (OrderDataGenerator.id_increment_range self))%Z ->
            orders_ascending self h ids ->
            exists ids', orders_ascending (fst (order_updates es self h))
                                          (snd (order_updates es self h)) ids') as Hrun.
  { unfold order_updates. induction es as [| e es IH]; intros self h ids Hrange Hinv.
    { by exists ids. }
    cbn [foldl fst snd].
    destruct (order_update_ascending e self h ids Hrange Hinv) as [ids1 Hnext].
    pose proof (order_update_id e self h) as (Hsame & _). cbv zeta in Hsame.
    destruct (state_of (OrderDataGenerator.update e self h)) as [self1 h1].
    cbn [fst snd] in *. apply (IH self1 h1 ids1); [by rewrite Hsame | done]. }
  apply (Hrun _ _ []); [exact Hlo |].
  split_and!; [reflexivity | constructor | constructor | constructor].
Qed.

Lemma order_ids_ascend_witness :
  let e (r : N) := mkEnv 1 0 "2026-01-01 00:00" (fun _ => r) in
  let orders := order_updates [e 0%N; e 4%N; e 2%N]
                  (OrderDataGenerator.init (order_config 1000 (1, 10)%Z) "o") [] in
  stored_order_id (snd orders) <$> OrderDataGenerator.history (fst orders)
  = [Some 1001%Z; Some 1006%Z; Some 1009%Z] /\
  exists ids, orders_ascending (fst orders) (snd orders) ids.
Proof.
  split; [reflexivity |].
  apply (order_ids_ascend (order_config 1000 (1, 10)%Z) "o" []
           [mkEnv 1 0 "2026-01-01 00:00" (fun _ => 0%N);
            mkEnv 1 0 "2026-01-01 00:00" (fun _ => 4%N);
            mkEnv 1 0 "2026-01-01 00:00" (fun _ => 2%N)]).
  cbn. lia.
Defined.

(** ** The order accessors: no unit, and how many orders *)

(** X10.  Without a unit (the default, an empty string) the accessors of an
    order generator still hand out copies, but unformatted ones: the snapshot
    value is a new dictionary equal to the stored order, [power_demand]
    included as the integer it is, and the stored order is not touched. *)
Theorem order_snapshot_without_unit (self : OrderDataGenerator.t) (h : heap)
    (latest : DataPoint loc) :
  OrderDataGenerator.unit self = "" ->
  last (OrderDataGenerator.history self) = Some latest ->
  value latest < length h ->
  OrderDataGenerator.get_current_data self h
  = (h ++ [deref h (value latest)],
     mkSnapshot (OrderDataGenerator.name self) (VDict (length h)) (Some (timestamp latest))) /\
  deref (fst (OrderDataGenerator.get_current_data self h)) (length h) = deref h (value latest) /\
  deref (fst (OrderDataGenerator.get_current_data self h)) (value latest)
  = deref h (value latest).
Proof.
  intros Hunit Hlast Hl.
  assert (OrderDataGenerator.get_current_data self h
          = (h ++ [deref h (value latest)],
             mkSnapshot (OrderDataGenerator.name self) (VDict (length h))
                        (Some (timestamp latest)))) as Hget.
  { unfold OrderDataGenerator.get_current_data. rewrite Hlast.
    unfold OrderDataGenerator.formatted_copy, dict_copy, alloc. rewrite Hunit.
    rewrite bool_decide_false by (intros Hne; by apply Hne).
    by destruct (_ !! "power_demand"). }
  rewrite Hget. cbn [fst]. split_and!; [reflexivity | |].
  - unfold deref at 1. by rewrite list_lookup_middle.
  - apply deref_prefix; [done | by apply prefix_app_r].
Qed.

Lemma order_snapshot_without_unit_witness :
  let e := mkEnv 1 0 "2026-01-01 00:00" (fun _ => 0%N) in
  let orders := order_updates [e] (OrderDataGenerator.init (order_config 1000 (1, 1)%Z) "o") [] in
  deref (fst (OrderDataGenerator.get_current_data (fst orders) (snd orders))) 1
    !! "power_demand" = Some (FInt 100).
Proof.
  destruct (order_snapshot_without_unit
              (fst (order_updates [mkEnv 1 0 "2026-01-01 00:00" (fun _ => 0%N)]
                      (OrderDataGenerator.init (order_config 1000 (1, 1)%Z) "o") []))
              (snd (order_updates [mkEnv 1 0 "2026-01-01 00:00" (fun _ => 0%N)]
                      (OrderDataGenerator.init (order_config 1000 (1, 1)%Z) "o") []))
              (mkDataPoint 0 1%Z)) as (_ & Hcopy & _).
  - reflexivity.
  - reflexivity.
  - vm_compute. lia.
  - refine (eq_trans (f_equal (fun d : dict => d !! "power_demand") Hcopy) _).
    reflexivity.
Defined.

Lemma format_points_timestamps (self : OrderDataGenerator.t) (points : list (DataPoint loc)) :
  forall (h : heap) (acc : list point_dict),
  pd_timestamp <$> snd (foldl (OrderDataGenerator.format_point self) (h, acc) points)
  = (pd_timestamp <$> acc) ++ (timestamp <$> points).
Proof.
  induction points as [| point points IH]; intros h acc; cbn [foldl].
  - by rewrite app_nil_r.
  - unfold OrderDataGenerator.format_point at 2.
    destruct (OrderDataGenerator.formatted_copy _ self h) as [h1 value_dict].
    rewrite IH, fmap_app. cbn. by rewrite <- (assoc_L (++)).
Qed.

(** X11.  Asked for [count] orders with [0 < count <= len(history)], an order
    generator answers with exactly [count] items, the newest ones, oldest
    first; asked without a count it answers with one item per point of the
    history, in history order.  This does not depend on the unit or on what
    the heap holds. *)
Theorem order_history_count_newest (self : OrderDataGenerator.t) (h : heap) (count : Z) :
  (0 < count <= Z.of_nat (length (OrderDataGenerator.history self)))%Z ->
  let items := snd (OrderDataGenerator.get_history (Some count) self h) in
  length items = Z.to_nat count /\
  pd_timestamp <$> items
  = drop (length (OrderDataGenerator.history self) - Z.to_nat count)
         (timestamps (OrderDataGenerator.history self)) /\
  pd_timestamp <$> snd (OrderDataGenerator.get_history None self h)
  = timestamps (OrderDataGenerator.history self).
Proof.
  intros Hcount. cbv zeta.
  assert (pd_timestamp <$> snd (OrderDataGenerator.get_history (Some count) self h)
          = drop (length (OrderDataGenerator.history self) - Z.to_nat count)
                 (timestamps (OrderDataGenerator.history self))) as Hstamps.
  { unfold OrderDataGenerator.get_history. rewrite format_points_timestamps. cbn [fmap list_fmap app].
    pose proof (history_points_cases (Some count) self) as Hcases. cbv zeta in Hcases.
    rewrite Hcases. unfold timestamps.
    destruct (Z.geb_spec count (Z.of_nat (length (OrderDataGenerator.history self)))).
    - replace (length (OrderDataGenerator.history self) - Z.to_nat count) with 0 by lia.
      reflexivity.
    - destruct (Z.ltb_spec 0 count); [| lia]. by rewrite fmap_drop. }
  split_and!.
  - rewrite <- (length_fmap pd_timestamp), Hstamps, length_drop, timestamps_length. lia.
  - exact Hstamps.
  - unfold OrderDataGenerator.get_history. by rewrite format_points_timestamps.
Qed.

Lemma order_history_count_newest_witness :
  let e (t : Z) := mkEnv t 0 "2026-01-01 00:00" (fun _ => 0%N) in
  let orders := order_updates [e 1%Z; e 2%Z; e 3%Z]
                  (OrderDataGenerator.init (order_config 1000 (1, 1)%Z) "o") [] in
  pd_timestamp <$> snd (OrderDataGenerator.get_history (Some 2%Z) (fst orders) (snd orders))
  = drop 1 [1; 2; 3]%Z.
Proof.
  apply (order_history_count_newest
           (fst (order_updates [mkEnv 1 0 "2026-01-01 00:00" (fun _ => 0%N);
                                mkEnv 2 0 "2026-01-01 00:00" (fun _ => 0%N);
                                mkEnv 3 0 "2026-01-01 00:00" (fun _ => 0%N)]
                   (OrderDataGenerator.init (order_config 1000 (1, 1)%Z) "o") []))
           (snd (order_updates [mkEnv 1 0 "2026-01-01 00:00" (fun _ => 0%N);
                                mkEnv 2 0 "2026-01-01 00:00" (fun _ => 0%N);
                                mkEnv 3 0 "2026-01-01 00:00" (fun _ => 0%N)]
                   (OrderDataGenerator.init (order_config 1000 (1, 1)%Z) "o") []))
           2%Z).
  vm_compute. split; [reflexivity | discriminate].
Defined.

(** ** The history route for the classes without a count of their own *)

(** X12.  For a random, a step or a sum generator the history route answers
    with the whole serialized history when the count is absent, not positive,
    or at least the length, and with the newest [count] points, oldest first,
    otherwise; the heap is not touched. *)
Theorem history_route_count (g : generator) (count : option Z) (h : heap) :
  match g with Order _ => False | _ => True end ->
  get_object_history g count h
  = (h, match count with
        | Some c =>
            if (0 <? c)%Z && (c <? Z.of_nat (length (get_history g)))%Z
            then drop (length (get_history g) - Z.to_nat c) (get_history g)
            else get_history g
        | None => get_history g
        end).
Proof.
  intros Hclass.
  assert (get_object_history g count h
          = match count with
            | Some c => if (c >? 0)%Z then (h, slice_last c (get_history g))
                        else (h, get_history g)
            | None => (h, get_history g)
            end) as ->.
  { by destruct g. }
  destruct count as [c |]; [| reflexivity].
  destruct (Z.gtb_spec c 0) as [Hpos | Hle].
  - destruct (Z.ltb_spec 0 c); [| lia]. cbn [andb].
    destruct (Z.ltb_spec c (Z.of_nat (length (get_history g)))).
    + by rewrite slice_last_drop by lia.
    + by rewrite slice_last_all by lia.
  - destruct (Z.ltb_spec 0 c); [lia | reflexivity].
Qed.

Lemma history_route_count_witness :
  let e (t : Z) := mkEnv t 0 "2026-01-01 00:00" (fun _ => 0%N) in
  let walk := Random (random_updates [e 1%Z; e 2%Z; e 3%Z]
                        (RandomDataGenerator.init empty_config "r")) in
  pd_timestamp <$> snd (get_object_history walk (Some 2%Z) []) = [2; 3]%Z.
Proof.
  cbv beta zeta.
  rewrite (history_route_count
             (Random (random_updates [mkEnv 1 0 "2026-01-01 00:00" (fun _ => 0%N);
                                      mkEnv 2 0 "2026-01-01 00:00" (fun _ => 0%N);
                                      mkEnv 3 0 "2026-01-01 00:00" (fun _ => 0%N)]
                        (RandomDataGenerator.init empty_config "r")))
             (Some 2%Z) []) by exact I.
  reflexivity.
Defined.

(** ** The source view of a sum generator *)

(** The snapshot of a generator that is not an order generator does not depend
    on the heap, and reading it leaves the heap alone. *)
Lemma get_current_data_plain (g : generator) (h h0 : heap) :
  match g with Order _ => False | _ => True end ->
  get_current_data g h = (h, snd (get_current_data g h0)).
Proof. by destruct g. Qed.

Lemma add_sources_data_spec (objs : objects) (sources : list string) :
  forall (h : heap) (acc : gmap string snapshot),
  exists h' result,
    foldl (add_source_data objs) (h, acc) sources = (h', result) /\
    h `prefix_of` h' /\
    (forall name, name ∉ sources \/ objs !! name = None -> result !! name = acc !! name) /\
    (forall name g, name ∈ sources -> objs !! name = Some g ->
       exists h1, result !! name = Some (snd (get_current_data g h1))).
Proof.
  induction sources as [| source sources IH]; intros h acc.
  { exists h, acc. split_and!; [done | done | done |]. by intros ? ? ?%elem_of_nil. }
  cbn [foldl]. unfold add_source_data at 2, get_object.
  destruct (objs !! source) as [obj |] eqn:Hsource.
  - destruct (get_current_data_numeric obj h) as [_ Hext].
    destruct (get_current_data obj h) as [h1 data] eqn:Hdata. cbn [fst] in Hext.
    destruct (IH h1 (<[source := data]> acc)) as (h' & result & -> & Hext' & Hout & Hin).
    exists h', result. split_and!; [done | by etrans | |].
    + intros name Hname. rewrite Hout.
      * apply lookup_insert_ne. intros ->.
        destruct Hname as [Hname | Hname]; [apply Hname; by left | congruence].
      * destruct Hname as [Hname | Hname]; [left | by right].
        intros Hin'. apply Hname. by right.
    + intros name g Hname Hg.
      destruct (decide (name ∈ sources)) as [Hlater | Hlast]; [by apply Hin |].
      apply elem_of_cons in Hname as [-> | Hname]; [| done].
      rewrite Hout by (by left). rewrite lookup_insert_eq.
      exists h. rewrite Hsource in Hg. injection Hg as <-. by rewrite Hdata.
  - destruct (IH h acc) as (h' & result & -> & Hext' & Hout & Hin).
    exists h', result. split_and!; [done | done | |].
    + intros name Hname. apply Hout.
      destruct Hname as [Hname | Hname]; [left | by right].
      intros Hin'. apply Hname. by right.
    + intros name g [-> | Hname]%elem_of_cons Hg; [congruence | by apply Hin].
Qed.

(** X13.  [get_source_data] of a sum generator answers with one entry per
    configured source that resolves in the registry and with nothing else: a
    source that is not registered is left out without an error, a source
    listed twice has one entry.  The entry of a random, step or sum source is
    that source's current snapshot.  Without a registry the answer is the
    empty dictionary.  The heap only gains objects (the copies an order source
    hands out). *)
Theorem source_data_lists_resolving_sources (objs : objects) (self : SumDataGenerator.t)
    (h : heap) :
  let result := snd (get_source_data objs self h) in
  (SumDataGenerator.object_manager self = false -> result = ∅) /\
  (SumDataGenerator.object_manager self = true ->
   (forall name,
      is_Some (result !! name) <->
      name ∈ SumDataGenerator.source_objects self /\ is_Some (objs !! name)) /\
   (forall name g,
      name ∈ SumDataGenerator.source_objects self -> objs !! name = Some g ->
      match g with Order _ => False | _ => True end ->
      result !! name = Some (snd (get_current_data g h)))) /\
  h `prefix_of` fst (get_source_data objs self h).
Proof.
  cbv zeta. unfold get_source_data.
  destruct (SumDataGenerator.object_manager self); cbn [negb].
  2: { split_and!; done. }
  destruct (add_sources_data_spec objs (SumDataGenerator.source_objects self) h ∅)
    as (h' & result & -> & Hext & Hout & Hin).
  cbn [fst snd]. split_and!; [done | | done]. intros _. split.
  - intros name. split.
    + intros Hsome.
      destruct (decide (name ∈ SumDataGenerator.source_objects self)) as [Hname | Hname].
      * split; [done |]. destruct (objs !! name) eqn:Hobj; [by eauto |].
        rewrite Hout, lookup_empty in Hsome by (by right). by destruct Hsome.
      * rewrite Hout, lookup_empty in Hsome by (by left). by destruct Hsome.
    + intros [Hname [g Hg]]. destruct (Hin name g Hname Hg) as [h1 ->]. by eauto.
  - intros name g Hname Hg Hclass.
    destruct (Hin name g Hname Hg) as [h1 ->].
    by rewrite (get_current_data_plain g h1 h).
Qed.

Lemma source_data_lists_resolving_sources_witness :
  let e := mkEnv 1 0 "2026-01-01 00:00" (fun _ => 0%N) in
  let a := Step (state_of (StepDataGenerator.new (constant (SInt 10)) "A" 0 e)) in
  let objs : objects := <["A" := a]> ∅ in
  let self := SumDataGenerator.new (sum_of ["A"; "missing"; "A"]) "S" true in
  snd (get_source_data objs self []) !! "A" = Some (snd (get_current_data a [])) /\
  snd (get_source_data objs self []) !! "missing" = None.
Proof.
  split; [| reflexivity].
  apply (source_data_lists_resolving_sources
           (<["A" := Step (state_of (StepDataGenerator.new (constant (SInt 10)) "A" 0
                                       (mkEnv 1 0 "2026-01-01 00:00" (fun _ => 0%N))))]> ∅)
           (SumDataGenerator.new (sum_of ["A"; "missing"; "A"]) "S" true) []).
  - reflexivity.
  - refine (bool_decide_unpack _ _). vm_compute. exact I.
  - reflexivity.
  - exact I.
Defined.

(** ** The finished registry *)

Lemma create_data_generator_class (cfg : config) (name : string) (object_manager : bool)
    (time0 : Q) (e : env) (h h' : heap) (g : generator) :
  create_data_generator cfg name object_manager time0 e h = (h', inr g) ->
  cfg_data_type cfg = Some (class_name g).
Proof.
  unfold create_data_generator.
  case_bool_decide as Hrandom; [by intros [= <- <-] |].
  case_bool_decide as Hstep.
  { by destruct (StepDataGenerator.new _ _ _ _); intros [= <- <-]. }
  case_bool_decide as Horder.
  { by destruct (OrderDataGenerator.new _ _ _ _) as [[? ?] | ? [? ?]]; intros [= <- <-]. }
  case_bool_decide as Hsum; [by intros [= <- <-] | done].
Qed.

(** What the construction leaves in the registry, name by name. *)
Lemma construction_registry (w : DataObjectManager.world)
    (objects_config : list (string * config)) (h : heap) :
  NoDup objects_config.*1 ->
  exists built,
    DataObjectManager._create_objects_from_config w objects_config h = Some built /\
    (forall name, name ∉ objects_config.*1 ->
       DataObjectManager.built_objects built !! name = None) /\
    (forall name cfg, (name, cfg) ∈ objects_config -> cfg_data_type cfg = Some "sum" ->
       exists g, DataObjectManager.built_objects built !! name = Some (Sum g)) /\
    (forall name cfg, (name, cfg) ∈ objects_config -> cfg_data_type cfg <> Some "sum" ->
       exists h0 h1 r,
         create_data_generator cfg name true (fst (DataObjectManager.at_construction w name))
                               (snd (DataObjectManager.at_construction w name)) h0 = (h1, r) /\
         DataObjectManager.built_objects built !! name
         = match r with inr g => Some g | inl _ => None end).
Proof.
  intros Hnodup. unfold DataObjectManager._create_objects_from_config.
  set (sums := filter (fun entry => DataObjectManager.is_sum entry = true) objects_config).
  set (others := filter (fun entry => DataObjectManager.is_sum entry = false) objects_config).
  assert (forall name cfg, (name, cfg) ∈ sums <->
            (name, cfg) ∈ objects_config /\ cfg_data_type cfg = Some "sum") as Hsums.
  { intros name cfg. unfold sums. rewrite list_elem_of_filter.
    unfold DataObjectManager.is_sum. cbn [snd]. rewrite bool_decide_eq_true. tauto. }
  assert (forall name cfg, (name, cfg) ∈ others <->
            (name, cfg) ∈ objects_config /\ cfg_data_type cfg <> Some "sum") as Hothers.
  { intros name cfg. unfold others. rewrite list_elem_of_filter.
    unfold DataObjectManager.is_sum. cbn [snd]. rewrite bool_decide_eq_false. tauto. }
  assert (NoDup sums.*1) as Hnd_sums.
  { apply (sublist_NoDup _ objects_config.*1); [done |]. apply fmap_sublist, sublist_filter. }
  assert (NoDup others.*1) as Hnd_others.
  { apply (sublist_NoDup _ objects_config.*1); [done |]. apply fmap_sublist, sublist_filter. }
  assert (forall name, name ∈ sums.*1 -> name ∉ others.*1) as Hdisjoint.
  { intros name ([name1 cfg1] & -> & H1)%list_elem_of_fmap
                 ([name2 cfg2] & Heq & H2)%list_elem_of_fmap.
    cbn [fst] in Heq. subst name2.
    apply Hsums in H1 as [H1 Htype]. apply Hothers in H2 as [H2 Hother].
    apply (config_get_NoDup _ _ _ Hnodup) in H1, H2. congruence. }
  destruct (create_objects_spec w others ∅ h Hnd_others) as (objs1 & h1 & -> & Hout1 & Hin1).
  destruct (creation_plan_spec sums objs1) as (order & warnings & -> & Hnd_order & Horder).
  { intros name Hname. rewrite Hout1 by (by apply Hdisjoint). apply lookup_empty. }
  destruct (create_sums_spec w sums order objs1 h1 []) as (objs2 & -> & Hout2 & Hin2).
  { intros name ([name' cfg] & -> & Hentry)%Horder%list_elem_of_fmap.
    exists cfg. split; [by apply config_get_NoDup | by apply Hsums in Hentry as [_ ?]]. }
  pose proof (initialize_spec w ([] ++ order) objs2 h1) as Hkept.
  destruct (foldl (DataObjectManager.initialize w) (objs2, h1) ([] ++ order)) as [objs3 h3].
  cbn [fst] in Hkept.
  eexists. split; [reflexivity |]. cbn [DataObjectManager.built_objects].
  split_and!.
  - intros name Hname. specialize (Hkept name).
    assert (name ∉ order) as Hfree.
    { intros ([name' cfg] & -> & Hentry)%Horder%list_elem_of_fmap. apply Hname.
      apply Hsums in Hentry as [Hentry _]. apply list_elem_of_fmap. by exists (name', cfg). }
    assert (name ∉ others.*1) as Hfree'.
    { intros ([name' cfg] & -> & Hentry)%list_elem_of_fmap. apply Hname.
      apply Hothers in Hentry as [Hentry _]. apply list_elem_of_fmap. by exists (name', cfg). }
    by rewrite (Hout2 name Hfree), (Hout1 name Hfree'), lookup_empty in Hkept.
  - intros name cfg Hentry Htype. destruct (Hin2 name) as (cfg' & _ & Hg).
    { apply Horder, list_elem_of_fmap. exists (name, cfg). split; [done | by apply Hsums]. }
    specialize (Hkept name). by rewrite Hg in Hkept.
  - intros name cfg Hentry Htype.
    assert ((name, cfg) ∈ others) as Hother by (by apply Hothers).
    destruct (Hin1 name cfg Hother) as (h0 & h2 & r & Hcreate & Hlookup).
    exists h0, h2, r. split; [done |].
    assert (name ∉ order) as Hfree.
    { intros Hname%Horder. apply (Hdisjoint name Hname).
      apply list_elem_of_fmap. by exists (name, cfg). }
    specialize (Hkept name). rewrite (Hout2 name Hfree), Hlookup in Hkept.
    rewrite lookup_empty in Hkept.
    destruct r as [err | g]; [done |].
    pose proof (create_data_generator_other _ _ _ _ _ _ _ _ Htype Hcreate) as Hclass.
    by destruct g.
Qed.

(** X14.  The registry the construction leaves holds configured objects only,
    each of the class its configuration names: a name that is not configured
    is not registered, an object registered under a name is of the class
    selected by that entry's [data_type], and an entry whose [data_type] is
    none of random, step, order and sum is not registered (its creation
    raises [ValueError], which is caught), whatever else is configured. *)
Theorem registry_holds_configured_classes (w : DataObjectManager.world)
    (objects_config : list (string * config)) (h : heap) :
  NoDup objects_config.*1 ->
  exists built,
    DataObjectManager._create_objects_from_config w objects_config h = Some built /\
    (forall name, name ∉ objects_config.*1 ->
       get_object (DataObjectManager.built_objects built) name = None) /\
    (forall name cfg g,
       (name, cfg) ∈ objects_config ->
       get_object (DataObjectManager.built_objects built) name = Some g ->
       cfg_data_type cfg = Some (class_name g)) /\
    (forall name cfg,
       (name, cfg) ∈ objects_config ->
       cfg_data_type cfg ∉ [Some "random"; Some "step"; Some "order"; Some "sum"] ->
       get_object (DataObjectManager.built_objects built) name = None).
Proof.
  intros Hnodup.
  destruct (construction_registry w objects_config h Hnodup)
    as (built & Hbuilt & Hout & Hsum & Hother).
  exists built. unfold get_object.
  assert (forall name cfg g,
            (name, cfg) ∈ objects_config ->
            DataObjectManager.built_objects built !! name = Some g ->
            cfg_data_type cfg = Some (class_name g)) as Hclass.
  { intros name cfg g Hentry Hg.
    destruct (decide (cfg_data_type cfg = Some "sum")) as [Htype | Htype].
    - destruct (Hsum name cfg Hentry Htype) as [g' Hg']. rewrite Hg' in Hg.
      by injection Hg as <-.
    - destruct (Hother name cfg Hentry Htype) as (h0 & h1 & r & Hcreate & Hlookup).
      rewrite Hlookup in Hg. destruct r as [err | g']; [done |]. injection Hg as <-.
      by apply create_data_generator_class in Hcreate. }
  split_and!; [done | done | done |].
  intros name cfg Hentry Htype.
  destruct (DataObjectManager.built_objects built !! name) as [g |] eqn:Hg; [| done].
  exfalso. apply Htype. rewrite (Hclass name cfg g Hentry Hg).
  destruct g; cbn; set_unfold; tauto.
Qed.

Lemma registry_holds_configured_classes_witness :
  let unknown := mkConfig (Some "noise") None None None None None None None None None None
                          None None None None in
  exists built,
    DataObjectManager._create_objects_from_config still_world
      (("U", unknown) :: cyclic_config) [] = Some built /\
    get_object (DataObjectManager.built_objects built) "U" = None /\
    get_object (DataObjectManager.built_objects built) "nobody" = None.
Proof.
  destruct (registry_holds_configured_classes still_world
              (("U", mkConfig (Some "noise") None None None None None None None None None None
                              None None None None) :: cyclic_config) [])
    as (built & Hbuilt & Hout & _ & Hunknown).
  - refine (bool_decide_unpack _ _). vm_compute. exact I.
  - exists built. split; [exact Hbuilt |]. split.
    + eapply Hunknown; [by left |].
      refine (bool_decide_unpack _ _). vm_compute. exact I.
    + apply Hout. refine (bool_decide_unpack _ _). vm_compute. exact I.
Defined.

(** ** The routes over the finished registry *)

(** A constructor of a step generator returns. *)
Lemma step_new_returns (cfg : config) (name : string) (time0 : Q) (e : env) :
  returned (StepDataGenerator.new cfg name time0 e) = true.
Proof.
  unfold StepDataGenerator.new, StepDataGenerator.update.
  destruct (StepDataGenerator.values (StepDataGenerator.init cfg name time0))
    as [| v0 vs] eqn:Hvalues; [done |].
  pose proof (advance_index_in_range (env_time e) (StepDataGenerator.init cfg name time0)) as Hadv.
  rewrite Hvalues in Hadv. cbn [StepDataGenerator.init StepDataGenerator.current_index] in Hadv.
  specialize (Hadv ltac:(cbn; lia)).
  apply lookup_lt_is_Some in Hadv as [v Hlookup].
  rewrite advance_values, Hvalues.
  cbn [StepDataGenerator.init StepDataGenerator.current_index]. rewrite Hlookup.
  by destruct (StepDataGenerator.must_record _ v).
Qed.

Lemma routes_absent (objs : objects) (name : string) (count : option Z) (n : Z) (h : heap) :
  get_object objs name = None ->
  route_object_data objs name h = (h, HTTPException 404) /\
  route_object_history objs name count h = (h, HTTPException 404) /\
  route_orders objs name n h = (h, HTTPException 404) /\
  route_sum_sources objs name h = (h, HTTPException 404).
Proof.
  intros Hnone. unfold route_object_data, route_object_history, route_orders, route_sum_sources.
  by rewrite Hnone.
Qed.

Lemma routes_present (objs : objects) (name : string) (g : generator) (count : option Z)
    (n : Z) (h : heap) :
  get_object objs name = Some g ->
  status (route_object_data objs name h) = 200%Z /\
  status (route_object_history objs name count h) = 200%Z /\
  status (route_orders objs name n h) = match g with Order _ => 200%Z | _ => 400%Z end /\
  status (route_sum_sources objs name h) = match g with Sum _ => 200%Z | _ => 400%Z end.
Proof.
  intros Hg. unfold route_object_data, route_object_history, route_orders, route_sum_sources.
  rewrite Hg. split_and!.
  - by destruct (get_current_data g h).
  - by destruct (get_object_history g count h).
  - destruct g; try done. by destruct (OrderDataGenerator.get_history _ _ _).
  - destruct g; try done. by destruct (get_source_data _ _ _).
Qed.

(** X15.  Over the registry the construction leaves, the routes answer by the
    configuration.  A name that is not configured, or whose [data_type] is
    not one of the four, gets 404 from every route and the heap is left as it
    was.  A random, a step and a sum entry are always served by the data and
    history routes; the orders route refuses them with 400, and the sources
    route serves the sum entry and refuses the two others with 400.  An order
    entry is served by the orders route exactly when the data route serves
    it (its constructor returned), and never by the sources route. *)
Theorem routes_follow_configuration (w : DataObjectManager.world)
    (objects_config : list (string * config)) (h : heap) :
  NoDup objects_config.*1 ->
  exists built,
    DataObjectManager._create_objects_from_config w objects_config h = Some built /\
    let objs := DataObjectManager.built_objects built in
    forall (name : string) (count : option Z) (n : Z) (h' : heap),
      (name ∉ objects_config.*1 ->
       route_object_data objs name h' = (h', HTTPException 404) /\
       route_object_history objs name count h' = (h', HTTPException 404) /\
       route_orders objs name n h' = (h', HTTPException 404) /\
       route_sum_sources objs name h' = (h', HTTPException 404)) /\
      (forall cfg, (name, cfg) ∈ objects_config ->
         (cfg_data_type cfg ∉ [Some "random"; Some "step"; Some "order"; Some "sum"] ->
          route_object_data objs name h' = (h', HTTPException 404) /\
          route_object_history objs name count h' = (h', HTTPException 404) /\
          route_orders objs name n h' = (h', HTTPException 404) /\
          route_sum_sources objs name h' = (h', HTTPException 404)) /\
         (cfg_data_type cfg ∈ [Some "random"; Some "step"; Some "sum"] ->
          status (route_object_data objs name h') = 200%Z /\
          status (route_object_history objs name count h') = 200%Z /\
          status (route_orders objs name n h') = 400%Z /\
          status (route_sum_sources objs name h')
          = if bool_decide (cfg_data_type cfg = Some "sum") then 200%Z else 400%Z) /\
         (cfg_data_type cfg = Some "order" ->
          status (route_orders objs name n h') = status (route_object_data objs name h') /\
          status (route_object_data objs name h') ∈ [200%Z; 404%Z] /\
          status (route_sum_sources objs name h') ∈ [400%Z; 404%Z])).
Proof.
  intros Hnodup.
  destruct (construction_registry w objects_config h Hnodup)
    as (built & Hbuilt & Hout & Hsum & Hother).
  exists built. split; [exact Hbuilt |]. cbv zeta.
  assert (forall name cfg g,
            (name, cfg) ∈ objects_config ->
            get_object (DataObjectManager.built_objects built) name = Some g ->
            cfg_data_type cfg = Some (class_name g)) as Hclass.
  { intros name cfg g Hentry Hg. unfold get_object in Hg.
    destruct (decide (cfg_data_type cfg = Some "sum")) as [Htype | Htype].
    - destruct (Hsum name cfg Hentry Htype) as [g' Hg']. rewrite Hg' in Hg.
      by injection Hg as <-.
    - destruct (Hother name cfg Hentry Htype) as (h0 & h1 & r & Hcreate & Hlookup).
      rewrite Hlookup in Hg. destruct r as [err | g']; [done |]. injection Hg as <-.
      by apply create_data_generator_class in Hcreate. }
  intros name count n h'. split.
  { intros Hname. apply routes_absent. unfold get_object. by apply Hout. }
  intros cfg Hentry. split_and!.
  - intros Htype. apply routes_absent.
    destruct (get_object (DataObjectManager.built_objects built) name) as [g |] eqn:Hg; [| done].
    exfalso. apply Htype. rewrite (Hclass name cfg g Hentry Hg).
    destruct g; cbn; set_unfold; tauto.
  - intros Htype.
    assert (exists g, get_object (DataObjectManager.built_objects built) name = Some g)
      as [g Hg].
    { unfold get_object.
      destruct (decide (cfg_data_type cfg = Some "sum")) as [Hs | Hs].
      - destruct (Hsum name cfg Hentry Hs) as [g' Hg']. by exists (Sum g').
      - destruct (Hother name cfg Hentry Hs) as (h0 & h1 & r & Hcreate & Hlookup).
        rewrite Hlookup. unfold create_data_generator in Hcreate.
        case_bool_decide as Hrandom.
        { injection Hcreate as <- <-. by eexists. }
        case_bool_decide as Hstep.
        { pose proof (step_new_returns cfg name
                        (fst (DataObjectManager.at_construction w name))
                        (snd (DataObjectManager.at_construction w name))) as Hreturns.
          destruct (StepDataGenerator.new _ _ _ _); [| done].
          injection Hcreate as <- <-. by eexists. }
        exfalso. set_unfold. destruct Htype as [? | [? | [? | []]]]; congruence. }
    pose proof (Hclass name cfg g Hentry Hg) as Hcfg.
    destruct (routes_present _ name g count n h' Hg) as (Hdata & Hhist & Horders & Hsources).
    rewrite Hdata, Hhist, Horders, Hsources, Hcfg.
    rewrite Hcfg in Htype.
    destruct g; cbn in Htype |- *; try done.
    exfalso. set_unfold. destruct Htype as [? | [? | [? | []]]]; congruence.
  - intros Htype.
    destruct (get_object (DataObjectManager.built_objects built) name) as [g |] eqn:Hg.
    + pose proof (Hclass name cfg g Hentry Hg) as Hcfg. rewrite Htype in Hcfg.
      destruct (routes_present _ name g count n h' Hg) as (Hdata & Hhist & Horders & Hsources).
      rewrite Hdata, Horders, Hsources.
      destruct g; try done. split_and!; [done | by left | by left].
    + destruct (routes_absent _ name count n h' Hg) as (Hdata & Hhist & Horders & Hsources).
      rewrite Hdata, Horders, Hsources. cbn.
      split_and!; [done | by right; left | by right; left].
Qed.

Lemma routes_follow_configuration_witness :
  exists built,
    DataObjectManager._create_objects_from_config still_world cyclic_config [] = Some built /\
    route_orders (DataObjectManager.built_objects built) "nobody" 10 []
    = ([], HTTPException 404) /\
    status (route_sum_sources (DataObjectManager.built_objects built) "S" []) = 200%Z /\
    status (route_orders (DataObjectManager.built_objects built) "S" 10 []) = 400%Z.
Proof.
  destruct (routes_follow_configuration still_world cyclic_config [])
    as (built & Hbuilt & Hroutes).
  - refine (bool_decide_unpack _ _). vm_compute. exact I.
  - exists built. split; [exact Hbuilt |]. cbv zeta in Hroutes.
    destruct (Hroutes "nobody" None 10%Z []) as [Habsent _].
    destruct Habsent as (_ & _ & Horders & _).
    { refine (bool_decide_unpack _ _). vm_compute. exact I. }
    split; [exact Horders |].
    destruct (Hroutes "S" None 10%Z []) as [_ Hconfigured].
    destruct (Hconfigured (sum_of ["A"])) as (_ & Hserved & _).
    { do 4 right. left. }
    destruct Hserved as (_ & _ & Hrefused & Hsources).
    { refine (bool_decide_unpack _ _). vm_compute. exact I. }
    split; [exact Hsources | exact Hrefused].
Defined.

(** ** Aggregates without a cycle: the creation order *)

Lemma sources_first_app (sum_configs : list (string * config)) (l1 l2 : list string) :
  sources_first sum_configs l1 -> sources_first sum_configs l2 ->
  sources_first sum_configs (l1 ++ l2).
Proof.
  intros H1 H2 i name source Hi Hsource.
  destruct (decide (i < length l1)) as [Hlt | Hge].
  - rewrite lookup_app_l in Hi by done.
    rewrite take_app_le by lia. by eapply H1.
  - rewrite lookup_app_r in Hi by lia.
    rewrite take_app_ge by lia. apply elem_of_app. right. by eapply H2.
Qed.

Lemma sources_first_snoc (sum_configs : list (string * config)) (l : list string)
    (name : string) :
  sources_first sum_configs l ->
  (forall source, aggregate_source sum_configs name source -> source ∈ l) ->
  sources_first sum_configs (l ++ [name]).
Proof.
  intros Hl Hname i name' source Hi Hsource.
  destruct (decide (i < length l)) as [Hlt | Hge].
  - rewrite lookup_app_l in Hi by done.
    rewrite take_app_le by lia. by eapply Hl.
  - rewrite lookup_app_r in Hi by lia.
    apply list_lookup_singleton_Some in Hi as [Hi <-].
    rewrite take_app_ge by lia. apply elem_of_app. left. by apply Hname.
Qed.

Section creation_order_facts.

Variable sum_configs : list (string * config).
Variable objs : objects.
Variable rank : string -> nat.
Hypothesis Hfree : forall name, name ∈ sum_configs.*1 -> objs !! name = None.
Hypothesis Hrank : forall name source,
  aggregate_source sum_configs name source -> rank source < rank name.

Lemma foldl_visit_ordered recurse (sources : list string) :
  (forall source deps warnings,
     source ∈ sources -> DataObjectManager.has_key source sum_configs = true ->
     recurse source = Some (deps, warnings) ->
     warnings = [] /\ sources_first sum_configs deps /\ source ∈ deps) ->
  forall result0 warnings0 result warnings,
  sources_first sum_configs result0 ->
  foldl (DataObjectManager.visit sum_configs objs recurse) (Some (result0, warnings0)) sources
  = Some (result, warnings) ->
  warnings = warnings0 /\ sources_first sum_configs result /\
  (forall x, x ∈ result0 -> x ∈ result) /\
  (forall source, source ∈ sources -> DataObjectManager.has_key source sum_configs = true ->
                  source ∈ result).
Proof.
  induction sources as [| source sources IH];
    intros Hrec result0 warnings0 result warnings Hordered; cbn [foldl].
  { intros [= <- <-]. split_and!; try done. by intros ? ?%elem_of_nil. }
  unfold DataObjectManager.visit at 2.
  destruct (DataObjectManager.has_key source sum_configs) eqn:Hkey; cbn [andb].
  - rewrite bool_decide_true by (by apply Hfree, has_key_spec).
    destruct (recurse source) as [[deps warnings'] |] eqn:Hsource;
      [| by rewrite foldl_visit_None].
    destruct (Hrec source deps warnings') as (-> & Hdeps & Hin); [by left | done | done |].
    intros Hloop.
    apply IH in Hloop as (-> & Hresult & Hmono & Hall).
    + split_and!; [by rewrite app_nil_r | done | |].
      * intros x Hx. apply Hmono, elem_of_app. by left.
      * intros s [-> | Hs]%elem_of_cons Hs'; [| by apply Hall].
        apply Hmono, elem_of_app. by right.
    + intros s deps' w' Hs. apply Hrec. by right.
    + by apply sources_first_app.
  - intros Hloop.
    apply IH in Hloop as (-> & Hresult & Hmono & Hall).
    + split_and!; try done.
      intros s [-> | Hs]%elem_of_cons Hs'; [congruence | by apply Hall].
    + intros s deps' w' Hs. apply Hrec. by right.
    + done.
Qed.

(** Started below every name of its path, the traversal meets no cycle, and
    its result lists the aggregate after the aggregates among its sources. *)
Lemma check_dependencies_ordered (fuel : nat) :
  forall (sum_name : string) (visited : gset string) (path : list string) result warnings,
  (forall v, v ∈ visited -> rank sum_name < rank v) ->
  DataObjectManager.check_dependencies sum_configs objs fuel sum_name visited path
  = Some (result, warnings) ->
  warnings = [] /\ sources_first sum_configs result /\
  (DataObjectManager.has_key sum_name sum_configs = true -> sum_name ∈ result).
Proof.
  induction fuel as [| fuel IH]; intros sum_name visited path result warnings Hbelow; [done |].
  cbn [DataObjectManager.check_dependencies].
  case_bool_decide as Hvisited; [apply Hbelow in Hvisited; lia |].
  unfold DataObjectManager.has_key.
  destruct (DataObjectManager.config_get sum_name sum_configs) as [cfg |] eqn:Hcfg.
  2: { intros [= <- <-]. by split_and!. }
  destruct (foldl _ _ _) as [[result0 warnings0] |] eqn:Hloop; [| done].
  apply foldl_visit_ordered in Hloop as (-> & Hordered & _ & Hall).
  - rewrite bool_decide_true.
    2: { apply Hfree, config_get_is_Some. by eauto. }
    intros [= <- <-]. split_and!; [done | |].
    + apply sources_first_snoc; [done |].
      intros source (cfg' & Hcfg' & Hsource & Hkey).
      rewrite Hcfg in Hcfg'. injection Hcfg' as <-. by apply Hall.
    + intros _. apply elem_of_app. right. by left.
  - intros source deps warnings' Hsource Hkey Hcheck.
    assert (rank source < rank sum_name) as Hless.
    { apply Hrank. by exists cfg. }
    apply IH in Hcheck as (Hnone & Hdeps & Hin); [by auto |].
    intros v [->%elem_of_singleton | Hv]%elem_of_union; [done |].
    apply Hbelow in Hv. lia.
  - by intros i name source ?.
Qed.

Lemma add_deps_ordered (deps : list string) : forall creation_order : list string,
  sources_first sum_configs creation_order ->
  (forall i name source,
     deps !! i = Some name -> aggregate_source sum_configs name source ->
     source ∈ take i deps \/ source ∈ creation_order) ->
  sources_first sum_configs (DataObjectManager.add_deps creation_order deps).
Proof.
  unfold DataObjectManager.add_deps.
  induction deps as [| dep deps IH]; intros creation_order Hordered Hdeps; cbn [foldl]; [done |].
  case_bool_decide as Hdep.
  - apply IH; [done |].
    intros i name source Hi Hsource.
    destruct (Hdeps (S i) name source Hi Hsource) as [Hin | Hin]; [| by right].
    cbn [take] in Hin. apply elem_of_cons in Hin as [-> | Hin]; [by right | by left].
  - apply IH.
    + apply sources_first_snoc; [done |].
      intros source Hsource.
      destruct (Hdeps 0 dep source eq_refl Hsource) as [Hin | Hin]; [| done].
      by apply elem_of_nil in Hin.
    + intros i name source Hi Hsource.
      destruct (Hdeps (S i) name source Hi Hsource) as [Hin | Hin].
      * cbn [take] in Hin. apply elem_of_cons in Hin as [-> | Hin]; [| by left].
        right. apply elem_of_app. right. by left.
      * right. apply elem_of_app. by left.
Qed.

Lemma foldl_plan_None' (fuel : nat) (entries : list (string * config)) :
  foldl (DataObjectManager.plan sum_configs objs fuel) None entries = None.
Proof. by induction entries. Qed.

Lemma plan_ordered (fuel : nat) (entries : list (string * config)) :
  forall creation_order0 warnings0 creation_order warnings,
  sources_first sum_configs creation_order0 ->
  foldl (DataObjectManager.plan sum_configs objs fuel) (Some (creation_order0, warnings0))
        entries
  = Some (creation_order, warnings) ->
  sources_first sum_configs creation_order /\ warnings = warnings0.
Proof.
  induction entries as [| entry entries IH];
    intros order0 warnings0 order warnings Hordered; cbn [foldl].
  { by intros [= <- <-]. }
  unfold DataObjectManager.plan at 2.
  case_bool_decide as Hobj; [| by apply IH].
  destruct (DataObjectManager.check_dependencies _ _ _ _ _ _) as [[deps warnings'] |] eqn:Hcheck;
    [| by rewrite foldl_plan_None'].
  apply check_dependencies_ordered in Hcheck as (-> & Hdeps & _).
  2: { by intros v ?%not_elem_of_empty. }
  intros Hloop. apply IH in Hloop as [Hresult ->].
  - split; [done | by rewrite app_nil_r].
  - apply add_deps_ordered; [done |].
    intros i name source Hi Hsource. left. by eapply Hdeps.
Qed.

Lemma creation_plan_ordered (creation_order : list string) (warnings : list (list string)) :
  DataObjectManager.creation_plan sum_configs objs = Some (creation_order, warnings) ->
  sources_first sum_configs creation_order /\ warnings = [].
Proof.
  unfold DataObjectManager.creation_plan. apply plan_ordered. by intros i name source ?.
Qed.

End creation_order_facts.

(** The stages of the construction: the table [objs1] of the non-aggregate
    objects, the creation order planned over it, the table [objs2] with the
    fresh aggregates added, and the [first_update] calls in creation order. *)
Lemma construction_stages (w : DataObjectManager.world)
    (objects_config : list (string * config)) (h : heap) :
  NoDup objects_config.*1 ->
  exists built objs1 objs2 h1,
    DataObjectManager._create_objects_from_config w objects_config h = Some built /\
    NoDup (aggregates objects_config).*1 /\
    (forall name, name ∈ (aggregates objects_config).*1 -> objs1 !! name = None) /\
    (forall name g, objs1 !! name = Some g -> match g with Sum _ => False | _ => True end) /\
    DataObjectManager.creation_plan (aggregates objects_config) objs1
    = Some (DataObjectManager.creation_order built, DataObjectManager.cycle_warnings built) /\
    NoDup (DataObjectManager.creation_order built) /\
    (forall name, name ∈ DataObjectManager.creation_order built <->
                  name ∈ (aggregates objects_config).*1) /\
    (forall name, name ∉ DataObjectManager.creation_order built ->
                  objs2 !! name = objs1 !! name) /\
    (forall name cfg, (name, cfg) ∈ aggregates objects_config ->
                      objs2 !! name = Some (Sum (SumDataGenerator.new cfg name true))) /\
    (DataObjectManager.built_objects built, DataObjectManager.built_heap built)
    = foldl (DataObjectManager.initialize w) (objs2, h1)
            (DataObjectManager.creation_order built).
Proof.
  intros Hnodup. unfold DataObjectManager._create_objects_from_config.
  fold (aggregates objects_config).
  set (sums := aggregates objects_config).
  set (others := filter (fun entry => DataObjectManager.is_sum entry = false) objects_config).
  assert (forall name cfg, (name, cfg) ∈ sums <->
            (name, cfg) ∈ objects_config /\ cfg_data_type cfg = Some "sum") as Hsums.
  { intros name cfg. unfold sums, aggregates. rewrite list_elem_of_filter.
    unfold DataObjectManager.is_sum. cbn [snd]. rewrite bool_decide_eq_true. tauto. }
  assert (forall name cfg, (name, cfg) ∈ others <->
            (name, cfg) ∈ objects_config /\ cfg_data_type cfg <> Some "sum") as Hothers.
  { intros name cfg. unfold others. rewrite list_elem_of_filter.
    unfold DataObjectManager.is_sum. cbn [snd]. rewrite bool_decide_eq_false. tauto. }
  assert (NoDup sums.*1) as Hnd_sums.
  { apply (sublist_NoDup _ objects_config.*1); [done |]. apply fmap_sublist, sublist_filter. }
  assert (NoDup others.*1) as Hnd_others.
  { apply (sublist_NoDup _ objects_config.*1); [done |]. apply fmap_sublist, sublist_filter. }
  assert (forall name, name ∈ sums.*1 -> name ∉ others.*1) as Hdisjoint.
  { intros name ([name1 cfg1] & -> & H1)%list_elem_of_fmap
                 ([name2 cfg2] & Heq & H2)%list_elem_of_fmap.
    cbn [fst] in Heq. subst name2.
    apply Hsums in H1 as [H1 Htype]. apply Hothers in H2 as [H2 Hother].
    apply (config_get_NoDup _ _ _ Hnodup) in H1, H2. congruence. }
  destruct (create_objects_spec w others ∅ h Hnd_others) as (objs1 & h1 & -> & Hout1 & Hin1).
  assert (forall name, name ∈ sums.*1 -> objs1 !! name = None) as Hfree.
  { intros name Hname. rewrite Hout1 by (by apply Hdisjoint). apply lookup_empty. }
  destruct (creation_plan_spec sums objs1 Hfree) as (order & warnings & Hplan & Hnd_order & Horder).
  rewrite Hplan.
  destruct (create_sums_spec w sums order objs1 h1 []) as (objs2 & -> & Hout2 & Hin2).
  { intros name ([name' cfg] & -> & Hentry)%Horder%list_elem_of_fmap.
    exists cfg. split; [by apply config_get_NoDup | by apply Hsums in Hentry as [_ ?]]. }
  cbn [app].
  destruct (foldl (DataObjectManager.initialize w) (objs2, h1) order) as [objs3 h3] eqn:Hinit.
  exists (DataObjectManager.mkConstruction objs3 h3 order warnings), objs1, objs2, h1.
  cbn [DataObjectManager.built_objects DataObjectManager.built_heap
       DataObjectManager.creation_order DataObjectManager.cycle_warnings].
  split_and!; try done.
  - intros name g Hg.
    destruct (decide (name ∈ others.*1)) as [Hname | Hname].
    + apply list_elem_of_fmap in Hname as ([name' cfg] & -> & Hentry).
      destruct (Hin1 name' cfg Hentry) as (h0 & h2 & r & Hcreate & Hlookup).
      cbn [fst] in Hg. rewrite Hlookup, lookup_empty in Hg.
      destruct r as [err | g']; [done |]. injection Hg as <-.
      apply Hothers in Hentry as [_ Htype].
      by eapply create_data_generator_other.
    + by rewrite Hout1, lookup_empty in Hg.
  - intros name cfg Hentry.
    destruct (Hin2 name) as (cfg' & Hcfg' & Hg).
    { apply Horder, list_elem_of_fmap. by exists (name, cfg). }
    rewrite (config_get_NoDup _ _ _ Hnd_sums Hentry) in Hcfg'. by injection Hcfg' as <-.
Qed.

(** X16.  When the aggregates of a configuration depend on one another
    without a cycle (the aggregates among the sources of an aggregate rank
    below it), the registry is built without a cycle warning and every
    aggregate is created, and later receives its [first_update], after each
    aggregate among its sources, wherever the two stand in the
    configuration. *)
Theorem aggregates_created_sources_first (w : DataObjectManager.world)
    (objects_config : list (string * config)) (h : heap) (rank : string -> nat) :
  NoDup objects_config.*1 ->
  (forall name cfg source cfg',
     (name, cfg) ∈ objects_config -> cfg_data_type cfg = Some "sum" ->
     source ∈ default [] (cfg_source_objects cfg) ->
     (source, cfg') ∈ objects_config -> cfg_data_type cfg' = Some "sum" ->
     rank source < rank name) ->
  exists built,
    DataObjectManager._create_objects_from_config w objects_config h = Some built /\
    DataObjectManager.cycle_warnings built = [] /\
    forall name cfg source cfg',
      (name, cfg) ∈ objects_config -> cfg_data_type cfg = Some "sum" ->
      source ∈ default [] (cfg_source_objects cfg) ->
      (source, cfg') ∈ objects_config -> cfg_data_type cfg' = Some "sum" ->
      exists i j,
        DataObjectManager.creation_order built !! j = Some source /\
        DataObjectManager.creation_order built !! i = Some name /\
        j < i.
Proof.
  intros Hnodup Hrank.
  destruct (construction_stages w objects_config h Hnodup)
    as (built & objs1 & objs2 & h1 & Hbuilt & Hnd_sums & Hfree & _ & Hplan & Hnd & Horder & _).
  assert (forall name cfg, (name, cfg) ∈ aggregates objects_config <->
            (name, cfg) ∈ objects_config /\ cfg_data_type cfg = Some "sum") as Hsums.
  { intros name cfg. unfold aggregates. rewrite list_elem_of_filter.
    unfold DataObjectManager.is_sum. cbn [snd]. rewrite bool_decide_eq_true. tauto. }
  destruct (creation_plan_ordered (aggregates objects_config) objs1 rank Hfree) with
    (creation_order := DataObjectManager.creation_order built)
    (warnings := DataObjectManager.cycle_warnings built) as [Hordered Hwarnings]; [| done |].
  { intros name source (cfg & Hcfg & Hsource & Hkey).
    apply config_get_Some_elem, Hsums in Hcfg as [Hentry Htype].
    apply has_key_spec, config_get_is_Some in Hkey as [cfg' Hcfg'].
    apply config_get_Some_elem, Hsums in Hcfg' as [Hentry' Htype'].
    by eapply Hrank. }
  exists built. split_and!; [done | done |].
  intros name cfg source cfg' Hentry Htype Hsource Hentry' Htype'.
  assert (name ∈ DataObjectManager.creation_order built) as Hname.
  { apply Horder, list_elem_of_fmap. exists (name, cfg). split; [done | by apply Hsums]. }
  apply list_elem_of_lookup in Hname as [i Hi].
  assert (source ∈ take i (DataObjectManager.creation_order built)) as Hbefore.
  { eapply Hordered; [exact Hi |]. exists cfg. split_and!; [| done |].
    - apply config_get_NoDup; [done | by apply Hsums].
    - apply has_key_spec, list_elem_of_fmap. exists (source, cfg'). split; [done | by apply Hsums]. }
  apply list_elem_of_lookup in Hbefore as [j Hj].
  apply lookup_take_Some in Hj as [Hj Hlt].
  by exists i, j.
Qed.

Lemma aggregates_created_sources_first_witness :
  exists built,
    DataObjectManager._create_objects_from_config still_world chain_config [] = Some built /\
    DataObjectManager.cycle_warnings built = [] /\
    exists i j,
      DataObjectManager.creation_order built !! j = Some "S" /\
      DataObjectManager.creation_order built !! i = Some "T" /\
      j < i.
Proof.
  destruct (aggregates_created_sources_first still_world chain_config []
              (fun name => if bool_decide (name = "T") then 1 else 0))
    as (built & Hbuilt & Hwarnings & Horder).
  - refine (bool_decide_unpack _ _). vm_compute. exact I.
  - intros name cfg source cfg' Hentry Htype Hsource Hentry' Htype'.
    apply elem_of_cons in Hentry as [[= -> ->] | Hentry].
    + apply elem_of_cons in Hsource as [-> | Hsource]; [vm_compute; lia |].
      by apply elem_of_nil in Hsource.
    + apply elem_of_cons in Hentry as [[= -> ->] | Hentry]; [discriminate Htype |].
      apply elem_of_cons in Hentry as [[= -> ->] | Hentry]; [| by apply elem_of_nil in Hentry].
      apply elem_of_cons in Hsource as [-> | Hsource]; [| by apply elem_of_nil in Hsource].
      apply elem_of_cons in Hentry' as [[=] | Hentry'].
      apply elem_of_cons in Hentry' as [[= ->] | Hentry']; [discriminate Htype' |].
      apply elem_of_cons in Hentry' as [[=] | Hentry']. by apply elem_of_nil in Hentry'.
  - exists built. split; [exact Hbuilt |]. split; [exact Hwarnings |].
    apply (Horder "T" (sum_of ["S"]) "S" (sum_of ["A"])).
    + by left.
    + reflexivity.
    + by left.
    + do 2 right. by left.
    + reflexivity.
Defined.

(** ** Aggregates without a cycle: what they show once the registry is built *)

Lemma initialize_other (w : DataObjectManager.world) (objs : objects) (h : heap)
    (name name' : string) :
  name' <> name ->
  fst (DataObjectManager.initialize w (objs, h) name) !! name' = objs !! name'.
Proof.
  intros Hne. unfold DataObjectManager.initialize.
  destruct (objs !! name) as [[g | g | g | g] |]; try done.
  destruct (SumDataGenerator.first_update _ _ _ _ _) as [g' h'].
  cbn [fst]. by rewrite lookup_insert_ne.
Qed.

Lemma initialize_fold_other (w : DataObjectManager.world) (names : list string)
    (name' : string) :
  forall (objs : objects) (h : heap),
  name' ∉ names ->
  fst (foldl (DataObjectManager.initialize w) (objs, h) names) !! name' = objs !! name'.
Proof.
  induction names as [| name names IH]; intros objs h Hout; [done |].
  cbn [foldl]. apply not_elem_of_cons in Hout as [Hne Hout].
  pose proof (initialize_other w objs h name name' Hne) as Hstep.
  destruct (DataObjectManager.initialize w (objs, h) name) as [objs1 h1].
  rewrite IH by done. exact Hstep.
Qed.

Lemma contributions_ext (objs objs' : objects) (sources : list string) :
  (forall source, source ∈ sources -> objs !! source = objs' !! source) ->
  contributions objs sources = contributions objs' sources.
Proof.
  unfold contributions, contribution.
  induction sources as [| source sources IH]; intros Hsame; [done |].
  cbn [omap list_omap]. rewrite (Hsame source) by (by left).
  rewrite IH; [done |]. intros s Hs. apply Hsame. by right.
Qed.

(** What [update] leaves of a sum generator that refers to the registry. *)
Lemma sum_update_result (objs : objects) (now : Z) (self : SumDataGenerator.t) (h : heap) :
  SumDataGenerator.object_manager self = true ->
  let counted := contributions objs (SumDataGenerator.source_objects self) in
  let self' := fst (SumDataGenerator.update get_current_data (get_object objs) now self h) in
  (counted <> [] ->
   SumDataGenerator.current_value self' = total_of counted /\
   SumDataGenerator.history self'
   = record_point (SumDataGenerator.history_limit self) (SumDataGenerator.history self)
       (mkDataPoint (total_of counted) now)) /\
  (counted = [] -> self' = self).
Proof.
  intros Hmanager. cbv zeta.
  destruct (add_sources_spec objs (SumDataGenerator.source_objects self) h 0%Q 0)
    as (h1 & Hloop & _).
  cbn [Nat.add] in Hloop.
  fold (total_of (contributions objs (SumDataGenerator.source_objects self))) in Hloop.
  unfold SumDataGenerator.update. rewrite Hmanager. cbn [negb orb].
  case_bool_decide as Hsources.
  { rewrite Hsources. cbn [fst]. split; [by intros [] | done]. }
  rewrite Hloop.
  destruct (contributions objs (SumDataGenerator.source_objects self)) as [| v vs].
  - cbn [length Nat.ltb Nat.leb fst]. split; [by intros [] | done].
  - cbn [length Nat.ltb Nat.leb fst]. split; [done | by intros [=]].
Qed.

(** X17.  When the aggregates depend on one another without a cycle, every
    aggregate of the finished registry shows the total of what its sources
    show in that same registry, also where a source is an aggregate itself
    and whatever the order of the configuration: with at least one
    contributing source its [current_value] is the total and its history is
    what recording one point holding it, stamped with the time of its
    [first_update], leaves of the empty history (that point, unless the limit
    is negative); with none it is still as its constructor left it. *)
Theorem acyclic_aggregates_show_totals (w : DataObjectManager.world)
    (objects_config : list (string * config)) (h : heap) (rank : string -> nat) :
  NoDup objects_config.*1 ->
  (forall name cfg source cfg',
     (name, cfg) ∈ objects_config -> cfg_data_type cfg = Some "sum" ->
     source ∈ default [] (cfg_source_objects cfg) ->
     (source, cfg') ∈ objects_config -> cfg_data_type cfg' = Some "sum" ->
     rank source < rank name) ->
  exists built,
    DataObjectManager._create_objects_from_config w objects_config h = Some built /\
    forall name cfg,
      (name, cfg) ∈ objects_config -> cfg_data_type cfg = Some "sum" ->
      exists g,
        DataObjectManager.built_objects built !! name = Some (Sum g) /\
        let counted := contributions (DataObjectManager.built_objects built)
                                     (default [] (cfg_source_objects cfg)) in
        (counted <> [] ->
         SumDataGenerator.current_value g = total_of counted /\
         SumDataGenerator.history g
         = record_point (default 200%Z (cfg_history_limit cfg)) []
             (mkDataPoint (total_of counted) (DataObjectManager.at_first_update w name))) /\
        (counted = [] -> g = SumDataGenerator.new cfg name true).
Proof.
  intros Hnodup Hrank.
  destruct (construction_stages w objects_config h Hnodup)
    as (built & objs1 & objs2 & h1 & Hbuilt & Hnd_sums & Hfree & _ & Hplan & Hnd & Horder
        & Hout2 & Hin2 & Hinit).
  assert (forall name cfg, (name, cfg) ∈ aggregates objects_config <->
            (name, cfg) ∈ objects_config /\ cfg_data_type cfg = Some "sum") as Hsums.
  { intros name cfg. unfold aggregates. rewrite list_elem_of_filter.
    unfold DataObjectManager.is_sum. cbn [snd]. rewrite bool_decide_eq_true. tauto. }
  destruct (creation_plan_ordered (aggregates objects_config) objs1 rank Hfree) with
    (creation_order := DataObjectManager.creation_order built)
    (warnings := DataObjectManager.cycle_warnings built) as [Hordered _]; [| done |].
  { intros name source (cfg & Hcfg & Hsource & Hkey).
    apply config_get_Some_elem, Hsums in Hcfg as [Hentry Htype].
    apply has_key_spec, config_get_is_Some in Hkey as [cfg' Hcfg'].
    apply config_get_Some_elem, Hsums in Hcfg' as [Hentry' Htype'].
    by eapply Hrank. }
  exists built. split; [done |].
  intros name cfg Hentry Htype.
  assert ((name, cfg) ∈ aggregates objects_config) as Hsum by (by apply Hsums).
  assert (name ∈ DataObjectManager.creation_order built) as Hname.
  { apply Horder, list_elem_of_fmap. by exists (name, cfg). }
  apply list_elem_of_lookup in Hname as [i Hi].
  pose proof (take_drop_middle _ _ _ Hi) as Hsplit.
  set (before := take i (DataObjectManager.creation_order built)) in *.
  set (after := drop (S i) (DataObjectManager.creation_order built)) in *.
  assert ((name ∉ before) /\ (name ∉ after) /\ (forall x, x ∈ before -> x ∉ after))
    as (Hbefore & Hafter & Hapart).
  { rewrite <- Hsplit in Hnd. apply NoDup_app in Hnd as (_ & Hdisjoint & Hrest).
    apply NoDup_cons in Hrest as [Hafter _].
    split_and!; [| done |].
    - intros Hin. apply (Hdisjoint name Hin). by left.
    - intros x Hx Hin. apply (Hdisjoint x Hx). by right. }
  rewrite <- Hsplit, foldl_app in Hinit. cbn [foldl] in Hinit.
  pose proof (initialize_fold_other w before name objs2 h1 Hbefore) as Hfresh.
  destruct (foldl (DataObjectManager.initialize w) (objs2, h1) before) as [objs_t h_t] eqn:Hthen.
  cbn [fst] in Hfresh.
  assert (forall s, s ∈ before \/ s ∉ DataObjectManager.creation_order built ->
            DataObjectManager.built_objects built !! s = objs_t !! s) as Hsettled.
  { intros s Hs.
    assert (s <> name /\ s ∉ after) as [Hne Hs'].
    { destruct Hs as [Hs | Hs].
      - split; [by intros -> | by apply Hapart].
      - split.
        + intros ->. apply Hs. by eapply list_elem_of_lookup_2.
        + intros Hin. apply Hs. rewrite <- Hsplit. apply elem_of_app. right. by right. }
    pose proof (f_equal fst Hinit) as Hfinal. cbn [fst] in Hfinal. rewrite Hfinal.
    pose proof (initialize_other w objs_t h_t name s Hne) as Hstep.
    destruct (DataObjectManager.initialize w (objs_t, h_t) name) as [objs_i h_i].
    rewrite initialize_fold_other by done. exact Hstep. }
  rewrite (Hin2 name cfg Hsum) in Hfresh.
  assert (contributions (DataObjectManager.built_objects built)
                        (default [] (cfg_source_objects cfg))
          = contributions objs_t (default [] (cfg_source_objects cfg))) as Hcounted.
  { apply contributions_ext. intros source Hsource. apply Hsettled.
    destruct (DataObjectManager.has_key source (aggregates objects_config)) eqn:Hkey.
    - left. eapply Hordered; [exact Hi |].
      exists cfg. split_and!; [by apply config_get_NoDup | done | done].
    - right. intros Hin. apply Horder, has_key_spec in Hin. congruence. }
  pose proof (sum_update_result objs_t (DataObjectManager.at_first_update w name)
                (SumDataGenerator.new cfg name true) h_t eq_refl) as Hupdate.
  cbv zeta in Hupdate.
  unfold DataObjectManager.initialize at 2 in Hinit. rewrite Hfresh in Hinit.
  unfold SumDataGenerator.first_update in Hinit.
  destruct (SumDataGenerator.update get_current_data (get_object objs_t)
              (DataObjectManager.at_first_update w name) (SumDataGenerator.new cfg name true) h_t)
    as [g' h'] eqn:Hg'.
  cbn [fst] in Hupdate.
  exists g'. split.
  - pose proof (initialize_fold_other w after name (<[name := Sum g']> objs_t) h' Hafter) as Hlast.
    rewrite <- Hinit in Hlast. cbn [fst] in Hlast.
    by rewrite Hlast, lookup_insert_eq.
  - cbv zeta. rewrite Hcounted. exact Hupdate.
Qed.

Lemma acyclic_aggregates_show_totals_witness :
  exists built,
    DataObjectManager._create_objects_from_config still_world chain_config [] = Some built /\
    exists g,
      DataObjectManager.built_objects built !! "T" = Some (Sum g) /\
      (contributions (DataObjectManager.built_objects built) ["S"] <> [] ->
       SumDataGenerator.current_value g
       = total_of (contributions (DataObjectManager.built_objects built) ["S"])).
Proof.
  destruct (acyclic_aggregates_show_totals still_world chain_config []
              (fun name => if bool_decide (name = "T") then 1 else 0))
    as (built & Hbuilt & Htotals).
  - refine (bool_decide_unpack _ _). vm_compute. exact I.
  - intros name cfg source cfg' Hentry Htype Hsource Hentry' Htype'.
    apply elem_of_cons in Hentry as [[= -> ->] | Hentry].
    + apply elem_of_cons in Hsource as [-> | Hsource]; [vm_compute; lia |].
      by apply elem_of_nil in Hsource.
    + apply elem_of_cons in Hentry as [[= -> ->] | Hentry]; [discriminate Htype |].
      apply elem_of_cons in Hentry as [[= -> ->] | Hentry]; [| by apply elem_of_nil in Hentry].
      apply elem_of_cons in Hsource as [-> | Hsource]; [| by apply elem_of_nil in Hsource].
      apply elem_of_cons in Hentry' as [[=] | Hentry'].
      apply elem_of_cons in Hentry' as [[= ->] | Hentry']; [discriminate Htype' |].
      apply elem_of_cons in Hentry' as [[=] | Hentry']. by apply elem_of_nil in Hentry'.
  - exists built. split; [exact Hbuilt |].
    destruct (Htotals "T" (sum_of ["S"])) as (g & Hg & Hshown & _); [by left | reflexivity |].
    exists g. split; [exact Hg |]. intros Hsome. by apply Hshown.
Defined.
